(** * Recorded Future analyst notes to STIX2: a shallow embedding

    The development follows [rflib/rf_notes_to_stix2.py]: the builder
    classes ([Indicator] and its subclasses, [Identity], [ThreatActor],
    [DetectionRule], [Software], ...), the session object [StixNote] with
    its dispatcher [from_json], the relationship inference
    [create_relations] and the bundle assembly [to_stix_objects].

    Python objects are records, the classes of a hierarchy are an
    enumeration, exceptions are the [Raise] branch of [result], and the
    effects of the collaborators (the clock, the identifiers the [stix2]
    library draws, the logging helper and the risk-score API) are threaded
    through a [World].  The checks the constructors of [stix2] make on the
    pattern of an indicator, on a hash and on a timestamp are functions of
    the collaborators: a value they refuse raises [InvalidValueError]. *)

From Stdlib Require Import String Ascii List ZArith Lia Bool.
From stdpp Require Import base option list gmap strings.

Open Scope string_scope.
Open Scope list_scope.

(** ** Python strings *)

Module Py.

(** The two characters the URL pattern escapes. *)
Definition backslash : ascii := ascii_of_nat 92.
Definition quote : ascii := ascii_of_nat 39.

Definition str (c : ascii) : string := String c EmptyString.

(** [s.replace(old, new)] for a one-character [old], the only form the
    source uses: every occurrence of [old], left to right, becomes [new]. *)
Fixpoint replace (old : ascii) (new : string) (s : string) : string :=
  match s with
  | EmptyString => EmptyString
  | String c s' =>
      if Ascii.eqb c old then new +:+ replace old new s'
      else String c (replace old new s')
  end.

(** [s.split(sep)] for a one-character [sep]: the list of the maximal
    segments between separators; it is never empty. *)
Fixpoint split (sep : ascii) (s : string) : list string :=
  match s with
  | EmptyString => [EmptyString]
  | String c s' =>
      if Ascii.eqb c sep then EmptyString :: split sep s'
      else match split sep s' with
           | [] => [str c]
           | seg :: segs => String c seg :: segs
           end
  end.

(** [s.rsplit(sep, 1)[0]]: everything before the last separator, the
    whole string when there is none.  The source does not call it; it
    is what "split on the last period" describes. *)
Fixpoint before_last (sep : ascii) (s : string) : string :=
  match s with
  | EmptyString => EmptyString
  | String c s' =>
      if existsb (Ascii.eqb sep) (list_ascii_of_string s')
      then String c (before_last sep s')
      else if Ascii.eqb c sep then EmptyString else str c +:+ s'
  end.

(** [s.lower()] on the ASCII letters. *)
Definition lower_char (c : ascii) : ascii :=
  let n := nat_of_ascii c in
  if (65 <=? n)%nat && (n <=? 90)%nat then ascii_of_nat (n + 32) else c.

Fixpoint lower (s : string) : string :=
  match s with
  | EmptyString => EmptyString
  | String c s' => String (lower_char c) (lower s')
  end.

(** [l[i]] for [i >= 0] and [l[-k]] for [k >= 1]. *)
Definition index {A} (l : list A) (i : nat) : option A := nth_error l i.
Definition index_back {A} (l : list A) (k : nat) : option A :=
  if (k <=? length l)%nat then nth_error l (length l - k) else None.

(** Truth value of a number and of [None]. *)
Definition truthy (o : option Z) : bool :=
  match o with
  | None => false
  | Some z => negb (z =? 0)%Z
  end.

End Py.

(** ** Exceptions *)

(** The exceptions of the source and of Python, the failure of the
    risk-score API, and the two exceptions of the [stix2] library: a
    constructor raises [InvalidValueError] for a property whose value it
    refuses and [MissingPropertiesError] for a required property that is
    [None]. *)
Inductive Exn :=
| ConversionError (msg : string)
| KeyError (key : string)
| IndexError
| AttributeError (attr : string)
| CollaboratorError
| InvalidValueError (prop : string)
| MissingPropertiesError (prop : string).

Inductive result (A : Type) :=
| Ok (a : A)
| Raise (e : Exn).
Arguments Ok {A} a.
Arguments Raise {A} e.

Definition bind_result {A B} (r : result A) (k : A -> result B) : result B :=
  match r with
  | Ok a => k a
  | Raise e => Raise e
  end.

(** [for x in l: out.extend(f(x))], stopping at the first exception. *)
Fixpoint collect {A B} (f : A -> result (list B)) (l : list A) : result (list B) :=
  match l with
  | [] => Ok []
  | x :: l' =>
      bind_result (f x) (fun ys =>
      bind_result (collect f l') (fun zs => Ok (ys ++ zs)))
  end.

(** ** The collaborators and the world *)

(** [datetime.now()] or the publication time the note carries. *)
Inductive Time :=
| Now (tick : nat)
| Given (stamp : string).

(** The values a custom property takes in the source. *)
Inductive PyVal :=
| PNone
| PInt (z : Z)
| PStr (s : string).

Inductive LogEntry :=
| Warning (msg : string)
| Info (msg : string).

(** What the conversion reads and writes outside its own objects: the
    clock, the number of identifiers the [stix2] library has drawn for
    objects built without an [id], the log of the helper and the queries
    sent to the risk-score API. *)
Record World := mkWorld {
  clock : nat;
  draws : nat;
  helper_log : list LogEntry;
  rfapi_queries : list (string * string)
}.

(** The functions of [pycti], [stix2] and the Recorded Future client the
    source calls.  The identifier [stix2] gives an object built without an
    [id] may depend on the object's type, on its properties and on the
    draw; an answer of the API may depend on the queries sent before, and
    [None] is a failed call.  The last three are the checks of the
    constructors of [stix2] the source can fail: the pattern of an
    indicator of pattern type [stix], the value of a hash for its
    algorithm, and a timestamp given as a string. *)
Record Collaborators := mkCollaborators {
  Indicator_generate_id : string -> string;
  StixCoreRelationship_generate_id : string -> string -> string -> string;
  AttackPattern_generate_id : string -> string -> string;
  Identity_generate_id : string -> string -> string;
  ThreatActor_generate_id : string -> string;
  IntrusionSet_generate_id : string -> string;
  Malware_generate_id : string -> string;
  Vulnerability_generate_id : string -> string;
  Report_generate_id : option string -> Time -> string;
  stix2_default_id : string -> list (string * string) -> nat -> string;
  get_risk_score : list (string * string) -> string -> string -> option Z;
  stix2_pattern_valid : string -> bool;
  stix2_hash_valid : string -> string -> bool;
  stix2_timestamp_valid : string -> bool
}.

(** State and exception monad over the world; the effects made before an
    exception stay. *)
Definition W (A : Type) : Type := World -> result A * World.

Definition ret {A} (a : A) : W A := fun w => (Ok a, w).

Definition bind {A B} (m : W A) (k : A -> W B) : W B :=
  fun w =>
    match m w with
    | (Ok a, w') => k a w'
    | (Raise e, w') => (Raise e, w')
    end.

Definition raise {A} (e : Exn) : W A := fun w => (Raise e, w).

Definition lift {A} (r : result A) : W A := fun w => (r, w).

Declare Scope world_scope.
Delimit Scope world_scope with world.
Notation "'do' x <- m ; k" := (bind m (fun x => k))
  (at level 10, x name, m at level 100, k at level 200) : world_scope.
Notation "'run' m ; k" := (bind m (fun _ => k))
  (at level 10, m at level 100, k at level 200) : world_scope.

Definition datetime_now : W nat :=
  fun w => (Ok (clock w),
            mkWorld (S (clock w)) (draws w) (helper_log w) (rfapi_queries w)).

Definition log_warning (msg : string) : W unit :=
  fun w => (Ok tt,
            mkWorld (clock w) (draws w) (helper_log w ++ [Warning msg]) (rfapi_queries w)).

Definition log_info (msg : string) : W unit :=
  fun w => (Ok tt,
            mkWorld (clock w) (draws w) (helper_log w ++ [Info msg]) (rfapi_queries w)).

Definition default_id (ext : Collaborators) (type_ : string)
    (props : list (string * string)) : W string :=
  fun w => (Ok (stix2_default_id ext type_ props (draws w)),
            mkWorld (clock w) (S (draws w)) (helper_log w) (rfapi_queries w)).

Definition rfapi_get_risk_score (ext : Collaborators) (category value : string) : W Z :=
  fun w =>
    let w' := mkWorld (clock w) (draws w) (helper_log w)
                      (rfapi_queries w ++ [(category, value)]) in
    match get_risk_score ext (rfapi_queries w) category value with
    | Some score => (Ok score, w')
    | None => (Raise CollaboratorError, w')
    end.

(** ** The objects of the [stix2] library *)

Record ExternalReference := mkExternalReference {
  source_name : string;
  url : string
}.

(** A TLP marking definition of the library. *)
Record Marking := mkMarking {
  marking_id : string;
  marking_tlp : string
}.

Module stix2.

(** One constructor per class of [stix2] the source instantiates, with the
    keyword arguments it passes; [id] is the first of each.  These are the
    objects once built; the calls of the library that can refuse the
    values of the source are [new_Indicator], [new_File] and [new_Report]
    below. *)
Inductive StixObject :=
| Indicator (id name pattern_type pattern : string) (valid_from : nat)
    (created_by_ref : string) (custom_properties : list (string * PyVal))
| IPv4Address (id value : string)
| DomainName (id value : string)
| URL (id value : string)
| File (id : string) (hashes : list (string * string))
| Relationship (id relationship_type source_ref target_ref created_by_ref : string)
| AttackPattern (id name created_by_ref : string)
    (custom_properties : list (string * PyVal))
| Identity (id name identity_class : string) (created_by_ref : option string)
| ThreatActor (id name created_by_ref : string)
| IntrusionSet (id name created_by_ref : string)
| Malware (id name : string) (is_family : bool) (created_by_ref : string)
| Vulnerability (id name created_by_ref : string)
| Software (id name : string)
| Location (id name country : string) (custom_properties : list (string * PyVal))
| Campaign (id name : string)
| Report (id : string) (name description : option string) (published : Time)
    (created_by_ref : string) (labels report_types : option (list string))
    (object_refs : list string) (external_references : list ExternalReference)
    (object_marking_refs : option Marking)
| MarkingDefinition (marking : Marking).

(** [obj["type"]] *)
Definition type (o : StixObject) : string :=
  match o with
  | Indicator _ _ _ _ _ _ _ => "indicator"
  | IPv4Address _ _ => "ipv4-addr"
  | DomainName _ _ => "domain-name"
  | URL _ _ => "url"
  | File _ _ => "file"
  | Relationship _ _ _ _ _ => "relationship"
  | AttackPattern _ _ _ _ => "attack-pattern"
  | Identity _ _ _ _ => "identity"
  | ThreatActor _ _ _ => "threat-actor"
  | IntrusionSet _ _ _ => "intrusion-set"
  | Malware _ _ _ _ => "malware"
  | Vulnerability _ _ _ => "vulnerability"
  | Software _ _ => "software"
  | Location _ _ _ _ => "location"
  | Campaign _ _ => "campaign"
  | Report _ _ _ _ _ _ _ _ _ _ => "report"
  | MarkingDefinition _ => "marking-definition"
  end.

(** [obj["id"]], [obj.id] *)
Definition id (o : StixObject) : string :=
  match o with
  | Indicator i _ _ _ _ _ _ | IPv4Address i _ | DomainName i _ | URL i _
  | File i _ | Relationship i _ _ _ _ | AttackPattern i _ _ _
  | Identity i _ _ _ | ThreatActor i _ _ | IntrusionSet i _ _
  | Malware i _ _ _ | Vulnerability i _ _ | Software i _
  | Location i _ _ _ | Campaign i _ | Report i _ _ _ _ _ _ _ _ _ => i
  | MarkingDefinition m => marking_id m
  end.

(** [obj.get("created_by_ref")] *)
Definition created_by_ref (o : StixObject) : option string :=
  match o with
  | Indicator _ _ _ _ _ c _ | Relationship _ _ _ _ c | AttackPattern _ _ c _
  | ThreatActor _ _ c | IntrusionSet _ _ c | Malware _ _ _ c
  | Vulnerability _ _ c | Report _ _ _ _ c _ _ _ _ _ => Some c
  | Identity _ _ _ c => c
  | IPv4Address _ _ | DomainName _ _ | URL _ _ | File _ _ | Software _ _
  | Location _ _ _ _ | Campaign _ _ | MarkingDefinition _ => None
  end.

(** [obj["identity_class"]]; [KeyError] on an object without it. *)
Definition identity_class (o : StixObject) : result string :=
  match o with
  | Identity _ _ c _ => Ok c
  | _ => Raise (KeyError "identity_class")
  end.

(** Source and target of a relationship, [None] on any other object. *)
Definition source_ref (o : StixObject) : option string :=
  match o with
  | Relationship _ _ s _ _ => Some s
  | _ => None
  end.

Definition target_ref (o : StixObject) : option string :=
  match o with
  | Relationship _ _ _ t _ => Some t
  | _ => None
  end.

Definition name (o : StixObject) : option string :=
  match o with
  | Indicator _ n _ _ _ _ _ | AttackPattern _ n _ _ | Identity _ n _ _
  | ThreatActor _ n _ | IntrusionSet _ n _ | Malware _ n _ _
  | Vulnerability _ n _ | Software _ n | Location _ n _ _ | Campaign _ n => Some n
  | Report _ n _ _ _ _ _ _ _ _ => n
  | _ => None
  end.

Definition pattern (o : StixObject) : option string :=
  match o with
  | Indicator _ _ _ p _ _ _ => Some p
  | _ => None
  end.

(** The report's list of references, empty on any other object. *)
Definition object_refs (o : StixObject) : list string :=
  match o with
  | Report _ _ _ _ _ _ _ refs _ _ => refs
  | _ => []
  end.

(** The TLP markings the library exports. *)
Definition TLP_WHITE : Marking :=
  mkMarking "marking-definition--613f2e26-407d-48c7-9eca-b8e91df99dc9" "white".
Definition TLP_GREEN : Marking :=
  mkMarking "marking-definition--34098fce-860f-48ae-8e50-ebd3cc5e41da" "green".
Definition TLP_AMBER : Marking :=
  mkMarking "marking-definition--f88d31f6-486f-44da-b317-01333bde0b82" "amber".
Definition TLP_RED : Marking :=
  mkMarking "marking-definition--5e57c739-391a-4eb3-b6be-7d15ca92d5ed" "red".

(** The constructors of the library drop the keyword arguments and the
    custom properties whose value is [None]. *)
Definition given (properties : list (string * PyVal)) : list (string * PyVal) :=
  List.filter (fun p => match snd p with PNone => false | _ => true end) properties.

(** [stix2.Indicator(...)]: a pattern of the pattern type [stix] is
    checked, a pattern of another type is not. *)
Definition new_Indicator (ext : Collaborators) (id name pattern_type pattern : string)
    (valid_from : nat) (created_by_ref : string)
    (custom_properties : list (string * PyVal)) : result StixObject :=
  if String.eqb pattern_type "stix" && negb (stix2_pattern_valid ext pattern)
  then Raise (InvalidValueError "pattern")
  else Ok (Indicator id name pattern_type pattern valid_from created_by_ref
             (given custom_properties)).

(** The check [stix2.File(hashes=...)] makes on every hash, before the
    object gets its id. *)
Definition check_hashes (ext : Collaborators) (hashes : list (string * string))
    : result unit :=
  if forallb (fun h => stix2_hash_valid ext (fst h) (snd h)) hashes
  then Ok tt
  else Raise (InvalidValueError "hashes").

(** A keyword argument that is an empty list is dropped like [None]. *)
Definition kept (l : option (list string)) : option (list string) :=
  match l with
  | Some [] => None
  | _ => l
  end.

(** [stix2.Report(...)]: [name] is required, and [published] is a
    [datetime] or a string the library can read as a timestamp. *)
Definition new_Report (ext : Collaborators) (id : string)
    (name description : option string) (published : Time) (created_by_ref : string)
    (labels report_types : option (list string)) (object_refs : list string)
    (external_references : list ExternalReference)
    (object_marking_refs : option Marking) : result StixObject :=
  match name with
  | None => Raise (MissingPropertiesError "name")
  | Some _ =>
      if match published with
         | Now _ => true
         | Given stamp => stix2_timestamp_valid ext stamp
         end
      then Ok (Report id name description published created_by_ref (kept labels)
                 (kept report_types) object_refs external_references
                 object_marking_refs)
      else Raise (InvalidValueError "published")
  end.

End stix2.

(** A [stix2] object is a non-empty mapping, so it is true where the
    source tests [if not self.stix_obj]; [None] is false. *)
Definition built (o : option stix2.StixObject) : bool :=
  match o with
  | Some _ => true
  | None => false
  end.

Definition TLP_MAP : gmap string Marking :=
  list_to_map [("white", stix2.TLP_WHITE); ("green", stix2.TLP_GREEN);
               ("amber", stix2.TLP_AMBER); ("red", stix2.TLP_RED)].

(** ** The builders *)

(** [RFStixEntity] and the subclasses that keep its [__init__] and its
    [to_stix_objects] and override [create_stix_objects]. *)
Module RFStixEntity.

Inductive Class :=
| TLPMarking
| TTP
| Identity
| ThreatActor
| IntrusionSet
| Malware
| Vulnerability.

Record t := mk {
  cls : Class;
  name : string;
  type : string;
  author : stix2.StixObject;
  stix_obj : option stix2.StixObject
}.

Definition __init__ (c : Class) (name type_ : string) (author : stix2.StixObject) : t :=
  mk c name type_ author None.

Definition set_stix_obj (self : t) (o : stix2.StixObject) : t :=
  mk (cls self) (name self) (type self) (author self) (Some o).

(** [Identity.type_to_class] *)
Definition type_to_class : gmap string string :=
  list_to_map [("Company", "organization"); ("Organization", "organization");
               ("Person", "individual"); ("Industry", "class")].

(** [Identity.create_id_class] *)
Definition create_id_class (self : t) : result string :=
  match type_to_class !! type self with
  | Some c => Ok c
  | None => Raise (KeyError (type self))
  end.

Definition create_stix_objects (ext : Collaborators) (self : t) : result t :=
  match cls self with
  | TLPMarking | TTP =>
      Ok (set_stix_obj self
            (stix2.AttackPattern
               (AttackPattern_generate_id ext (name self) (name self))
               (name self)
               (stix2.id (author self))
               [("x_mitre_id", PStr (name self))]))
  | Identity =>
      bind_result (create_id_class self) (fun id_class =>
      bind_result (create_id_class self) (fun identity_class =>
      Ok (set_stix_obj self
            (stix2.Identity
               (Identity_generate_id ext (name self) id_class)
               (name self)
               identity_class
               (Some (stix2.id (author self)))))))
  | ThreatActor =>
      Ok (set_stix_obj self
            (stix2.ThreatActor
               (ThreatActor_generate_id ext (name self))
               (name self)
               (stix2.id (author self))))
  | IntrusionSet =>
      Ok (set_stix_obj self
            (stix2.IntrusionSet
               (IntrusionSet_generate_id ext (name self))
               (name self)
               (stix2.id (author self))))
  | Malware =>
      Ok (set_stix_obj self
            (stix2.Malware
               (Malware_generate_id ext (name self))
               (name self)
               false
               (stix2.id (author self))))
  | Vulnerability =>
      Ok (set_stix_obj self
            (stix2.Vulnerability
               (Vulnerability_generate_id ext (name self))
               (name self)
               (stix2.id (author self))))
  end.

(** Returns the list and the instance with its cache. *)
Definition to_stix_objects (ext : Collaborators) (self : t)
    : result (list stix2.StixObject * t) :=
  bind_result (if negb (built (stix_obj self))
               then create_stix_objects ext self
               else Ok self) (fun self' =>
  match stix_obj self' with
  | Some o => Ok ([o], self')
  | None => Raise (AttributeError "stix_obj")
  end).

End RFStixEntity.

(** [Indicator] and its subclasses [IPAddress], [Domain], [URL] and
    [FileHash]; a [FileHash] instance carries the [algorithm] its
    [__init__] determined. *)
Module Indicator.

Inductive Class :=
| IPAddress
| Domain
| URL
| FileHash (algorithm : string).

Record t := mk {
  cls : Class;
  name : string;
  author : stix2.StixObject;
  stix_indicator : option stix2.StixObject;
  stix_observable : option stix2.StixObject;
  stix_relationship : option stix2.StixObject;
  risk_score : option Z
}.

Definition __init__ (c : Class) (name type_ : string) (author : stix2.StixObject) : t :=
  mk c name author None None None None.

Definition set_risk_score (self : t) (score : option Z) : t :=
  mk (cls self) (name self) (author self) (stix_indicator self)
     (stix_observable self) (stix_relationship self) score.

Definition _create_pattern (self : t) : string :=
  match cls self with
  | IPAddress => "[ipv4-addr:value = '" +:+ name self +:+ "']"
  | Domain => "[domain-name:value = '" +:+ name self +:+ "']"
  | URL =>
      let ioc := Py.replace Py.backslash (Py.str Py.backslash +:+ Py.str Py.backslash)
                            (name self) in
      let ioc := Py.replace Py.quote (Py.str Py.backslash +:+ Py.str Py.quote) ioc in
      "[url:value = '" +:+ ioc +:+ "']"
  | FileHash algorithm =>
      "[file:hashes.'" +:+ algorithm +:+ "' = '" +:+ name self +:+ "']"
  end.

Definition _create_obs (ext : Collaborators) (self : t) : W stix2.StixObject :=
  match cls self with
  | IPAddress =>
      do i <- default_id ext "ipv4-addr" [("value", name self)];
      ret (stix2.IPv4Address i (name self))
  | Domain =>
      do i <- default_id ext "domain-name" [("value", name self)];
      ret (stix2.DomainName i (name self))
  | URL =>
      do i <- default_id ext "url" [("value", name self)];
      ret (stix2.URL i (name self))
  | FileHash algorithm =>
      run lift (stix2.check_hashes ext [(algorithm, name self)]);
      do i <- default_id ext "file" [(algorithm, name self)];
      ret (stix2.File i [(algorithm, name self)])
  end%world.

Definition _create_indicator (ext : Collaborators) (self : t) : W stix2.StixObject :=
  (do now <- datetime_now;
   lift (stix2.new_Indicator ext
           (Indicator_generate_id ext (_create_pattern self))
           (name self)
           "stix"
           (_create_pattern self)
           now
           (stix2.id (author self))
           [("x_opencti_score",
             match risk_score self with Some z => PInt z | None => PNone end)]))%world.

Definition _create_rel (ext : Collaborators) (self : t) : result stix2.StixObject :=
  match stix_indicator self, stix_observable self with
  | Some ind, Some obs =>
      Ok (stix2.Relationship
            (StixCoreRelationship_generate_id ext "based-on" (stix2.id ind) (stix2.id obs))
            "based-on"
            (stix2.id ind)
            (stix2.id obs)
            (stix2.id (author self)))
  | None, _ => Raise (AttributeError "stix_indicator.id")
  | _, None => Raise (AttributeError "stix_observable.id")
  end.

Definition create_stix_objects (ext : Collaborators) (self : t) : W t :=
  (do ind <- _create_indicator ext self;
   let self := mk (cls self) (name self) (author self) (Some ind)
                  (stix_observable self) (stix_relationship self) (risk_score self) in
   do obs <- _create_obs ext self;
   let self := mk (cls self) (name self) (author self) (stix_indicator self)
                  (Some obs) (stix_relationship self) (risk_score self) in
   do rel <- lift (_create_rel ext self);
   ret (mk (cls self) (name self) (author self) (stix_indicator self)
           (stix_observable self) (Some rel) (risk_score self)))%world.

Definition to_stix_objects (ext : Collaborators) (self : t)
    : W (list stix2.StixObject * t) :=
  (do self' <- (if negb (built (stix_indicator self) && built (stix_observable self)
                         && built (stix_relationship self))
                then create_stix_objects ext self
                else ret self);
   match stix_indicator self', stix_observable self', stix_relationship self' with
   | Some ind, Some obs, Some rel => ret ([ind; obs; rel], self')
   | _, _, _ => raise (AttributeError "stix_indicator")
   end)%world.

End Indicator.

Module FileHash.

(** Determine file hash algorithm from length. *)
Definition _determine_algorithm (name : string) : result string :=
  if (String.length name =? 64)%nat then Ok "SHA-256"
  else if (String.length name =? 40)%nat then Ok "SHA-1"
  else if (String.length name =? 32)%nat then Ok "MD5"
  else Raise (ConversionError
                ("Could not determine hash type for " +:+ name
                 +:+ ". Only MD5, SHA1 and SHA256 hashes are supported")).

Definition __init__ (name type_ : string) (author : stix2.StixObject)
    : result Indicator.t :=
  bind_result (_determine_algorithm name) (fun algorithm =>
  Ok (Indicator.__init__ (Indicator.FileHash algorithm) name type_ author)).

End FileHash.

(** Represents a Yara, Sigma or SNORT rule. *)
Module DetectionRule.

Record t := mk {
  name : string;
  type : string;
  content : string;
  stix_obj : option stix2.StixObject;
  author : stix2.StixObject
}.

(** [name.split(".")[0]] *)
Definition display_name (name : string) : result string :=
  match Py.index (Py.split "." name) 0 with
  | Some first => Ok first
  | None => Raise IndexError
  end.

Definition __init__ (name type_ content : string) (author : stix2.StixObject)
    : result t :=
  bind_result (display_name name) (fun name' =>
  let self := mk name' type_ content None author in
  if negb (existsb (String.eqb (type self)) ["yara"; "snort"; "sigma"])
  then Raise (ConversionError
                ("Detection rule of type " +:+ type self +:+ " is not supported"))
  else Ok self).

Definition create_stix_objects (ext : Collaborators) (self : t) : W t :=
  (do now <- datetime_now;
   ret (mk (name self) (type self) (content self)
           (Some (stix2.Indicator
                    (Indicator_generate_id ext (content self))
                    (name self)
                    (type self)
                    (content self)
                    now
                    (stix2.id (author self))
                    []))
           (author self)))%world.

(** Inherited from [RFStixEntity]. *)
Definition to_stix_objects (ext : Collaborators) (self : t)
    : W (list stix2.StixObject * t) :=
  (do self' <- (if negb (built (stix_obj self))
                then create_stix_objects ext self
                else ret self);
   match stix_obj self' with
   | Some o => ret ([o], self')
   | None => raise (AttributeError "stix_obj")
   end)%world.

End DetectionRule.

(** [Software.__init__] keeps the name only: neither the type nor the
    author is stored. *)
Module Software.

Record t := mk {
  name : string;
  software_object : option stix2.StixObject
}.

Definition __init__ (name type_ : string) (author : stix2.StixObject) : t :=
  mk name None.

Definition create_stix_objects (ext : Collaborators) (self : t) : W t :=
  (do i <- default_id ext "software" [("name", name self)];
   ret (mk (name self) (Some (stix2.Software i (name self)))))%world.

Definition to_stix_objects (ext : Collaborators) (self : t)
    : W (list stix2.StixObject * t) :=
  (do self' <- (if negb (built (software_object self))
                then create_stix_objects ext self
                else ret self);
   match software_object self' with
   | Some o => ret ([o], self')
   | None => raise (AttributeError "software_object")
   end)%world.

End Software.

Module Location.

Definition rf_type_to_stix : gmap string string :=
  list_to_map [("Country", "Country"); ("City", "City");
               ("ProvinceOrState", "Administrative-Area")].

Record t := mk {
  name : string;
  type : string;
  location_object : option stix2.StixObject
}.

Definition __init__ (name type_ : string) (author : stix2.StixObject) : result t :=
  match rf_type_to_stix !! type_ with
  | Some ty => Ok (mk name ty None)
  | None => Raise (KeyError type_)
  end.

Definition create_stix_objects (ext : Collaborators) (self : t) : W t :=
  (do i <- default_id ext "location"
             [("name", name self); ("country", name self);
              ("x_opencti_location_type", type self)];
   ret (mk (name self) (type self)
           (Some (stix2.Location i (name self) (name self)
                    [("x_opencti_location_type", PStr (type self))]))))%world.

Definition to_stix_objects (ext : Collaborators) (self : t)
    : W (list stix2.StixObject * t) :=
  (do self' <- (if negb (built (location_object self))
                then create_stix_objects ext self
                else ret self);
   match location_object self' with
   | Some o => ret ([o], self')
   | None => raise (AttributeError "location_object")
   end)%world.

End Location.

Module Campaign.

Record t := mk {
  name : string;
  campaign_object : option stix2.StixObject
}.

Definition __init__ (name type_ : string) (author : stix2.StixObject) : t :=
  mk name None.

Definition create_stix_objects (ext : Collaborators) (self : t) : W t :=
  (do i <- default_id ext "campaign" [("name", name self)];
   ret (mk (name self) (Some (stix2.Campaign i (name self)))))%world.

Definition to_stix_objects (ext : Collaborators) (self : t)
    : W (list stix2.StixObject * t) :=
  (do self' <- (if negb (built (campaign_object self))
                then create_stix_objects ext self
                else ret self);
   match campaign_object self' with
   | Some o => ret ([o], self')
   | None => raise (AttributeError "campaign_object")
   end)%world.

End Campaign.

(** ** Dispatch tables *)

(** The classes [ENTITY_TYPE_MAPPER] names. *)
Inductive Builder :=
| IPAddress
| Domain
| URL
| FileHash
| TTP
| Identity
| Malware
| Vulnerability
| Software
| Location
| Campaign.

(** Maps RF types to the corresponding python object. *)
Definition ENTITY_TYPE_MAPPER : gmap string Builder :=
  list_to_map
    [("IpAddress", IPAddress); ("InternetDomainName", Domain); ("URL", URL);
     ("Hash", FileHash); ("MitreAttackIdentifier", TTP); ("Company", Identity);
     ("Person", Identity); ("Organization", Identity); ("Malware", Malware);
     ("CyberVulnerability", Vulnerability); ("Product", Software);
     ("Country", Location); ("City", Location); ("ProvinceOrState", Location);
     ("Industry", Identity); ("Operation", Campaign)].

(** Maps RF types to the corresponding url to get the risk score. *)
Definition INDICATOR_TYPE_URL_MAPPER : gmap string string :=
  list_to_map [("IpAddress", "ip"); ("InternetDomainName", "domain");
               ("URL", "url"); ("Hash", "hash")].

(** An instance of one of the mapped classes. *)
Inductive RFObject :=
| IndicatorObject (i : Indicator.t)
| EntityObject (e : RFStixEntity.t)
| SoftwareObject (s : Software.t)
| LocationObject (l : Location.t)
| CampaignObject (c : Campaign.t).

(** [ENTITY_TYPE_MAPPER[type_](name, type_, self.author)] *)
Definition construct (b : Builder) (name type_ : string) (author : stix2.StixObject)
    : result RFObject :=
  match b with
  | IPAddress => Ok (IndicatorObject (Indicator.__init__ Indicator.IPAddress name type_ author))
  | Domain => Ok (IndicatorObject (Indicator.__init__ Indicator.Domain name type_ author))
  | URL => Ok (IndicatorObject (Indicator.__init__ Indicator.URL name type_ author))
  | FileHash => bind_result (FileHash.__init__ name type_ author)
                            (fun i => Ok (IndicatorObject i))
  | TTP => Ok (EntityObject (RFStixEntity.__init__ RFStixEntity.TTP name type_ author))
  | Identity => Ok (EntityObject (RFStixEntity.__init__ RFStixEntity.Identity name type_ author))
  | Malware => Ok (EntityObject (RFStixEntity.__init__ RFStixEntity.Malware name type_ author))
  | Vulnerability =>
      Ok (EntityObject (RFStixEntity.__init__ RFStixEntity.Vulnerability name type_ author))
  | Software => Ok (SoftwareObject (Software.__init__ name type_ author))
  | Location => bind_result (Location.__init__ name type_ author)
                            (fun l => Ok (LocationObject l))
  | Campaign => Ok (CampaignObject (Campaign.__init__ name type_ author))
  end.

(** [rf_object.to_stix_objects()]; the instance is dropped afterwards. *)
Definition rf_to_stix_objects (ext : Collaborators) (o : RFObject)
    : W (list stix2.StixObject) :=
  match o with
  | IndicatorObject i => do r <- Indicator.to_stix_objects ext i; ret (fst r)
  | EntityObject e => do r <- lift (RFStixEntity.to_stix_objects ext e); ret (fst r)
  | SoftwareObject s => do r <- Software.to_stix_objects ext s; ret (fst r)
  | LocationObject l => do r <- Location.to_stix_objects ext l; ret (fst r)
  | CampaignObject c => do r <- Campaign.to_stix_objects ext c; ret (fst r)
  end%world.

(** [rf_object.risk_score = score]; only indicators are scored. *)
Definition rf_set_risk_score (o : RFObject) (score : option Z) : RFObject :=
  match o with
  | IndicatorObject i => IndicatorObject (Indicator.set_risk_score i score)
  | _ => o
  end.

(** ** The note and the session *)

Record Entity := mkEntity {
  entity_type : string;
  entity_name : string;
  entity_id : string
}.

Record Topic := mkTopic {
  topic_name : string
}.

Record ValidationUrl := mkValidationUrl {
  validation_url_name : string
}.

Record Attachment := mkAttachment {
  attachment : string;
  attachment_type : string;
  attachment_content : string
}.

(** [note["attributes"]]: the keys the source reads with [attr[...]] are
    fields, the lists it reads with [attr.get(..., [])] are empty when the
    key is absent, and the attachment is there when [attachment_content]
    is. *)
Record Note := mkNote {
  title : string;
  note_text : string;
  note_published : string;
  validation_urls : list ValidationUrl;
  topic : list Topic;
  note_entities : list Entity;
  note_attachment : option Attachment
}.

(** One adjacency rule of [RELATIONSHIPS_MAPPER]. *)
Record ToEntity := mkToEntity {
  entity : string;
  relation : string
}.

Record Rule := mkRule {
  from_ : string;
  to_ : list ToEntity
}.

(** Represents Analyst Note. *)
Module StixNote.

Definition report_type_mapper : gmap string string :=
  list_to_map
    [("Actor Profile", "Threat-Actor");
     ("Analyst On-Demand Report", "Threat-Report");
     ("Cyber Threat Analysis", "Threat-Report");
     ("Flash Report", "Threat-Report");
     ("Geopolitical Flash Event", "Threat-Report");
     ("Geopolitical Intelligence Summary", "Threat-Report");
     ("Geopolitical Profile", "Threat-Actor");
     ("Geopolitical Threat Forecast", "Threat-Actor");
     ("Geopolitical Validated Event", "Observed-Data");
     ("Hunting Package", "Attack-Pattern");
     ("Indicator", "Indicator");
     ("Informational", "Threat-Report");
     ("Insikt Research Lead", "Intrusion-Set");
     ("Malware/Tool Profile", "Malware");
     ("Regular Vendor Vulnerability Disclosures", "Vulnerability");
     ("Sigma Rule", "Attack-Pattern");
     ("SNORT Rule", "Indicator");
     ("Source Profile", "Observed-Data");
     ("The Record by Recorded Future", "Threat-Report");
     ("Threat Lead", "Threat-Actor");
     ("TTP Instance", "Attack-Pattern");
     ("Validated Intelligence Event", "Observed-Data");
     ("Weekly Threat Landscape", "Threat-Report");
     ("YARA Rule", "Indicator")].

(** The session; [helper] and [rfapi] live in the world. *)
Record t := mk {
  author : stix2.StixObject;
  name : option string;
  text : option string;
  published : Time;
  labels : option (list string);
  report_types : option (list string);
  external_references : list ExternalReference;
  objects : list stix2.StixObject;
  tas : gset string;
  person_to_ta : bool;
  ta_to_intrusion_set : bool;
  risk_as_score : bool;
  risk_threshold : option Z;
  tlp : option Marking
}.

(** Creates Recorded Future Author. *)
Definition _create_author (ext : Collaborators) : stix2.StixObject :=
  stix2.Identity (Identity_generate_id ext "Recorded Future" "organization")
                 "Recorded Future" "organization" None.

Definition __init__ (ext : Collaborators) (tas : gset string) (tlp : string)
    (person_to_ta ta_to_intrusion_set risk_as_score : bool)
    (risk_threshold : option Z) : W t :=
  (let author := _create_author ext in
   do now <- datetime_now;
   ret (mk author None None (Now now) None None [] [] tas person_to_ta
           ta_to_intrusion_set risk_as_score risk_threshold
           (TLP_MAP !! Py.lower tlp)))%world.

Definition set_objects (self : t) (objs : list stix2.StixObject) : t :=
  mk (author self) (name self) (text self) (published self) (labels self)
     (report_types self) (external_references self) objs (tas self)
     (person_to_ta self) (ta_to_intrusion_set self) (risk_as_score self)
     (risk_threshold self) (tlp self).

Definition set_external_references (self : t) (refs : list ExternalReference) : t :=
  mk (author self) (name self) (text self) (published self) (labels self)
     (report_types self) refs (objects self) (tas self)
     (person_to_ta self) (ta_to_intrusion_set self) (risk_as_score self)
     (risk_threshold self) (tlp self).

(** The assignments at the head of [from_json]. *)
Definition set_metadata (self : t) (name text : string) (published : string)
    (refs : list ExternalReference) (report_types labels : list string) : t :=
  mk (author self) (Some name) (Some text) (Given published) (Some labels)
     (Some report_types) refs (objects self) (tas self)
     (person_to_ta self) (ta_to_intrusion_set self) (risk_as_score self)
     (risk_threshold self) (tlp self).

(** [url["name"].split("/")[2].split(".")[-2]] *)
Definition external_source_name (external_url : string) : result string :=
  match Py.index (Py.split "/" external_url) 2 with
  | None => Raise IndexError
  | Some host =>
      match Py.index_back (Py.split "." host) 2 with
      | None => Raise IndexError
      | Some label => Ok label
      end
  end.

(** Generate External references from validation urls. *)
Fixpoint _generate_external_references (urls : list ValidationUrl)
    : result (list ExternalReference) :=
  match urls with
  | [] => Ok []
  | url :: urls' =>
      let external_url := validation_url_name url in
      bind_result (external_source_name external_url) (fun source_name =>
      bind_result (_generate_external_references urls') (fun refs =>
      Ok (mkExternalReference source_name external_url :: refs)))
  end.

(** The loop of [_create_report_types] over the topics, [ret] being the
    set built so far. *)
Fixpoint report_types_loop (topics : list Topic) (acc : gset string) : W (gset string) :=
  match topics with
  | [] => ret acc
  | topic :: topics' =>
      let name := topic_name topic in
      match report_type_mapper !! name with
      | None =>
          run log_warning ("Could not map a report type for type " +:+ name);
          report_types_loop topics' acc
      | Some report_type => report_types_loop topics' (acc ∪ {[report_type]})
      end
  end%world.

(** Converts Insikt Topics to STIX2 Report types.  [list(ret)] lists the
    set in an order Python leaves open; [elements] fixes one. *)
Definition _create_report_types (topics : list Topic) : W (list string) :=
  (do acc <- report_types_loop topics ∅;
   ret (elements acc))%world.

Definition is_indicator_type (type_ : string) : bool :=
  existsb (String.eqb type_) ["IpAddress"; "InternetDomainName"; "URL"; "Hash"].

(** [self.rfapi.get_risk_score(INDICATOR_TYPE_URL_MAPPER[type_], name)] *)
Definition fetch_risk_score (ext : Collaborators) (type_ name : string) : W Z :=
  match INDICATOR_TYPE_URL_MAPPER !! type_ with
  | Some category => rfapi_get_risk_score ext category name
  | None => raise (KeyError type_)
  end.

(** The risk-score block of the last branch of the loop, for an entity of
    an indicator type: [None] is the [continue] of a score under the
    threshold, otherwise the instance comes back, scored when
    [risk_as_score] is set. *)
Definition score_indicator (ext : Collaborators) (self : t) (type_ name : string)
    (rf_object : RFObject) : W (option RFObject) :=
  (do gate <-
     match risk_threshold self with
     | Some threshold =>
         if Py.truthy (Some threshold) then
           do risk_score <- fetch_risk_score ext type_ name;
           if (risk_score <? threshold)%Z then
             run log_info ("Ignoring entity " +:+ name
                           +:+ " as its risk score is lower than the defined risk threshold");
             ret None
           else ret (Some (Some risk_score))
         else ret (Some None)
     | None => ret (Some None)
     end;
   match gate with
   | None => ret None
   | Some risk_score =>
       if risk_as_score self then
         do score <- match risk_score with
                     | Some fetched =>
                         if Py.truthy (Some fetched) then ret fetched
                         else fetch_risk_score ext type_ name
                     | None => fetch_risk_score ext type_ name
                     end;
         ret (Some (rf_set_risk_score rf_object (Some score)))
       else ret (Some rf_object)
   end)%world.

(** [self.objects.extend(stix_objs)] *)
Definition extend_objects (self : t) (stix_objs : list stix2.StixObject) : t :=
  set_objects self (objects self ++ stix_objs).

(** [ThreatActor(name, type_, self.author).to_stix_objects()] and the
    same for [IntrusionSet]. *)
Definition build_entity (ext : Collaborators) (c : RFStixEntity.Class)
    (name type_ : string) (author : stix2.StixObject) : W (list stix2.StixObject) :=
  (do r <- lift (RFStixEntity.to_stix_objects ext (RFStixEntity.__init__ c name type_ author));
   ret (fst r))%world.

(** The body of the loop of [from_json] over [note_entities]. *)
Definition convert_entity (ext : Collaborators) (self : t) (e : Entity) : W t :=
  (let type_ := entity_type e in
   let name := entity_name e in
   if person_to_ta self && String.eqb type_ "Person" then
     do stix_objs <- build_entity ext RFStixEntity.ThreatActor name type_ (author self);
     ret (extend_objects self stix_objs)
   else if bool_decide (entity_id e ∈ tas self) then
     if ta_to_intrusion_set self && negb (String.eqb type_ "Person") then
       do stix_objs <- build_entity ext RFStixEntity.IntrusionSet name type_ (author self);
       ret (extend_objects self stix_objs)
     else
       do stix_objs <- build_entity ext RFStixEntity.ThreatActor name type_ (author self);
       ret (extend_objects self stix_objs)
   else if String.eqb type_ "Source" then
     ret (set_external_references self
            (external_references self ++ [mkExternalReference name name]))
   else
     match ENTITY_TYPE_MAPPER !! type_ with
     | None =>
         run log_warning ("Cannot convert entity " +:+ name
                          +:+ " to STIX2 because it is of type " +:+ type_);
         ret self
     | Some builder =>
         do rf_object <- lift (construct builder name type_ (author self));
         do scored <- (if is_indicator_type type_
                       then score_indicator ext self type_ name rf_object
                       else ret (Some rf_object));
         match scored with
         | None => ret self
         | Some rf_object =>
             do stix_objs <- rf_to_stix_objects ext rf_object;
             ret (extend_objects self stix_objs)
         end
     end)%world.

Fixpoint convert_entities (ext : Collaborators) (self : t) (entities : list Entity) : W t :=
  match entities with
  | [] => ret self
  | e :: entities' =>
      do self' <- convert_entity ext self e;
      convert_entities ext self' entities'
  end%world.

(** Converts to STIX Bundle from JSON objects.  The session an exception
    leaves half updated is not returned. *)
Definition from_json (ext : Collaborators) (self : t) (attr : Note) : W t :=
  (do refs <- lift (_generate_external_references (validation_urls attr));
   do report_types <- _create_report_types (topic attr);
   let self := set_metadata self (title attr) (note_text attr)
                 (note_published attr) refs report_types
                 (map topic_name (topic attr)) in
   do self <- convert_entities ext self (note_entities attr);
   match note_attachment attr with
   | None => ret self
   | Some a =>
       do rule <- lift (DetectionRule.__init__ (attachment a) (attachment_type a)
                          (attachment_content a) (author self));
       do r <- DetectionRule.to_stix_objects ext rule;
       ret (extend_objects self (fst r))
   end)%world.

Definition RELATIONSHIPS_MAPPER : list Rule :=
  [mkRule "threat-actor"
     [mkToEntity "malware" "uses"; mkToEntity "vulnerability" "targets";
      mkToEntity "attack-pattern" "uses"; mkToEntity "location" "targets";
      mkToEntity "identity" "targets"];
   mkRule "intrusion-set"
     [mkToEntity "malware" "uses"; mkToEntity "vulnerability" "targets";
      mkToEntity "attack-pattern" "uses"; mkToEntity "location" "targets";
      mkToEntity "identity" "targets"];
   mkRule "indicator"
     [mkToEntity "malware" "indicates"; mkToEntity "threat-actor" "indicates";
      mkToEntity "intrusion-set" "indicates"];
   mkRule "malware"
     [mkToEntity "attack-pattern" "uses"; mkToEntity "location" "targets";
      mkToEntity "identity" "targets"]].

(** Creates Relationship object. *)
Definition _create_rel (ext : Collaborators) (self : t) (from_id to_id relation : string)
    : stix2.StixObject :=
  stix2.Relationship (StixCoreRelationship_generate_id ext relation from_id to_id)
                     relation from_id to_id (stix2.id (author self)).

(** The innermost loop body of [create_relations]: the edge to one target
    entity, or nothing. *)
Definition relate (ext : Collaborators) (self : t) (source_entity : stix2.StixObject)
    (to_entity : ToEntity) (target_entity : stix2.StixObject)
    : result (list stix2.StixObject) :=
  bind_result
    (if negb (String.eqb (entity to_entity) "identity") then Ok true
     else bind_result (stix2.identity_class target_entity)
            (fun c => Ok (String.eqb c "class")))
    (fun emit =>
       if emit
       then Ok [_create_rel ext self (stix2.id source_entity)
                  (stix2.id target_entity) (relation to_entity)]
       else Ok []).

(** The relationships one source entity gives. *)
Definition relations_from (ext : Collaborators) (self : t)
    (source_entity : stix2.StixObject) : result (list stix2.StixObject) :=
  let entity_possible_relationships :=
    List.filter (fun obj => String.eqb (from_ obj) (stix2.type source_entity))
                RELATIONSHIPS_MAPPER in
  match entity_possible_relationships with
  | [] => Ok []
  | first :: _ =>
      collect (fun to_entity =>
                 let target_entities :=
                   List.filter (fun obj => String.eqb (stix2.type obj) (entity to_entity))
                               (objects self) in
                 collect (relate ext self source_entity to_entity) target_entities)
              (to_ first)
  end.

Definition create_relations (ext : Collaborators) (self : t) : result t :=
  bind_result (collect (relations_from ext self) (objects self)) (fun relationships =>
  Ok (extend_objects self relationships)).

(** Returns a list of STIX objects: the running list, the report, the
    author and the marking, which is [None] for an unknown [tlp].  The
    call raises when the library refuses the report. *)
Definition report (ext : Collaborators) (self : t) : result stix2.StixObject :=
  stix2.new_Report ext (Report_generate_id ext (name self) (published self))
                   (name self) (text self) (published self)
                   (stix2.id (author self)) (labels self) (report_types self)
                   (map stix2.id (objects self) ++ [stix2.id (author self)])
                   (external_references self) (tlp self).

Definition to_stix_objects (ext : Collaborators) (self : t)
    : result (list (option stix2.StixObject)) :=
  bind_result (report ext self) (fun report =>
  Ok (map Some (objects self)
      ++ [Some report; Some (author self);
          option_map stix2.MarkingDefinition (tlp self)])).

End StixNote.

(** ** Reference definitions the statements compare the code with *)

(** Escaping as the specification words it: each character of the value
    is escaped exactly once, in its original order; a backslash and a
    single quote get one backslash in front, any other character stays. *)
Definition escape_char (c : ascii) : string :=
  if Ascii.eqb c Py.backslash then Py.str Py.backslash +:+ Py.str Py.backslash
  else if Ascii.eqb c Py.quote then Py.str Py.backslash +:+ Py.str Py.quote
  else Py.str c.

Fixpoint escape_each (s : string) : string :=
  match s with
  | EmptyString => EmptyString
  | String c s' => escape_char c +:+ escape_each s'
  end.

(** Reading an escaped literal back: a backslash makes the next character
    literal; [pending] says that the previous character was such a
    backslash. *)
Fixpoint unescape (pending : bool) (s : string) : string :=
  match s with
  | EmptyString => EmptyString
  | String c s' =>
      if pending then String c (unescape false s')
      else if Ascii.eqb c Py.backslash then unescape true s'
      else String c (unescape false s')
  end.

(** Number of occurrences of a character. *)
Fixpoint occurrences (c : ascii) (s : string) : nat :=
  match s with
  | EmptyString => 0
  | String c' s' => (if Ascii.eqb c' c then 1 else 0) + occurrences c s'
  end.

(** [ids] holds both ends of every relationship of [objs]. *)
Definition refs_within (ids : list string) (objs : list stix2.StixObject) : Prop :=
  forall o, In o objs ->
    match o with
    | stix2.Relationship _ _ s t _ => In s ids /\ In t ids
    | _ => True
    end.

(** Referential closure of an object list. *)
Definition closed (objs : list stix2.StixObject) : Prop :=
  refs_within (map stix2.id objs) objs.

(** The warnings the specification asks for: one for every topic whose
    name the table lacks, in the order of the topics. *)
Fixpoint unmapped_warnings (topics : list Topic) : list LogEntry :=
  match topics with
  | [] => []
  | topic :: topics' =>
      match StixNote.report_type_mapper !! topic_name topic with
      | None =>
          Warning ("Could not map a report type for type " +:+ topic_name topic)
          :: unmapped_warnings topics'
      | Some _ => unmapped_warnings topics'
      end
  end.

(** The world after more lines of log. *)
Definition logged (w : World) (entries : list LogEntry) : World :=
  mkWorld (clock w) (draws w) (helper_log w ++ entries) (rfapi_queries w).

(** The ids of the objects a call of [to_stix_objects] returned. *)
Definition returned_ids {A} (r : result (list stix2.StixObject * A) * World)
    : option (list string) :=
  match fst r with
  | Ok (objs, _) => Some (map stix2.id objs)
  | Raise _ => None
  end.

(** An instance as its constructor leaves it, nothing built yet. *)
Definition fresh (o : RFObject) : Prop :=
  match o with
  | IndicatorObject i => Indicator.stix_indicator i = None
  | EntityObject e => RFStixEntity.stix_obj e = None
  | SoftwareObject s => Software.software_object s = None
  | LocationObject l => Location.location_object l = None
  | CampaignObject c => Campaign.campaign_object c = None
  end.

(** The session with another threshold. *)
Definition with_risk_threshold (self : StixNote.t) (threshold : option Z) : StixNote.t :=
  StixNote.mk (StixNote.author self) (StixNote.name self) (StixNote.text self)
    (StixNote.published self) (StixNote.labels self) (StixNote.report_types self)
    (StixNote.external_references self) (StixNote.objects self) (StixNote.tas self)
    (StixNote.person_to_ta self) (StixNote.ta_to_intrusion_set self)
    (StixNote.risk_as_score self) threshold (StixNote.tlp self).

Definition map_result {A B} (f : A -> B) (r : result A) : result B :=
  match r with
  | Ok a => Ok (f a)
  | Raise e => Raise e
  end.

(** ** Definitions for the further properties *)

(** [ThreatActor.type_to_class] and [ThreatActor.create_id_class], which
    no code path of the file calls. *)
Module ThreatActor.

Definition type_to_class : gmap string string :=
  list_to_map [("Company", "organization"); ("Organization", "organization");
               ("Person", "individual")].

Definition create_id_class (self : RFStixEntity.t) : result string :=
  match type_to_class !! RFStixEntity.type self with
  | Some c => Ok c
  | None => Raise (KeyError (RFStixEntity.type self))
  end.

End ThreatActor.

(** The [type] of the observable each indicator class builds. *)
Definition observable_type (c : Indicator.Class) : string :=
  match c with
  | Indicator.IPAddress => "ipv4-addr"
  | Indicator.Domain => "domain-name"
  | Indicator.URL => "url"
  | Indicator.FileHash _ => "file"
  end.

(** The world after one reading of the clock, after one id drawn by the
    library and after one query to the risk-score API. *)
Definition ticked (w : World) : World :=
  mkWorld (S (clock w)) (draws w) (helper_log w) (rfapi_queries w).

Definition drawn (w : World) : World :=
  mkWorld (clock w) (S (draws w)) (helper_log w) (rfapi_queries w).

Definition queried (w : World) (category value : string) : World :=
  mkWorld (clock w) (draws w) (helper_log w) (rfapi_queries w ++ [(category, value)]).

(** The library accepts what an indicator builder gives it: the pattern,
    and for a [FileHash] the hash. *)
Definition library_accepts (ext : Collaborators) (self : Indicator.t) : bool :=
  stix2_pattern_valid ext (Indicator._create_pattern self)
  && match Indicator.cls self with
     | Indicator.FileHash algorithm => stix2_hash_valid ext algorithm (Indicator.name self)
     | _ => true
     end.

(** The three caches of an indicator builder are filled. *)
Definition cached (self : Indicator.t) : bool :=
  built (Indicator.stix_indicator self) && built (Indicator.stix_observable self)
  && built (Indicator.stix_relationship self).

(** The exceptions [from_json] lets through. *)
Definition from_json_exception (e : Exn) : Prop :=
  match e with
  | IndexError | ConversionError _ | CollaboratorError => True
  | InvalidValueError prop => prop = "pattern" \/ prop = "hashes"
  | KeyError _ | AttributeError _ | MissingPropertiesError _ => False
  end.

(** An entity that reaches the last branches of the loop of [from_json]:
    neither of the two threat-actor tests holds. *)
Definition plain_entity (self : StixNote.t) (e : Entity) : Prop :=
  StixNote.person_to_ta self && String.eqb (entity_type e) "Person" = false
  /\ bool_decide (entity_id e ∈ StixNote.tas self) = false.

(** What the loop of [from_json] does to the session: the settings and
    the metadata stay, objects are added behind the objects there are, and
    references of [Source] entities behind the references there are. *)
Definition grown (a b : StixNote.t) : Prop :=
  StixNote.author b = StixNote.author a
  /\ StixNote.name b = StixNote.name a
  /\ StixNote.text b = StixNote.text a
  /\ StixNote.published b = StixNote.published a
  /\ StixNote.labels b = StixNote.labels a
  /\ StixNote.report_types b = StixNote.report_types a
  /\ StixNote.tas b = StixNote.tas a
  /\ StixNote.person_to_ta b = StixNote.person_to_ta a
  /\ StixNote.ta_to_intrusion_set b = StixNote.ta_to_intrusion_set a
  /\ StixNote.risk_as_score b = StixNote.risk_as_score a
  /\ StixNote.risk_threshold b = StixNote.risk_threshold a
  /\ StixNote.tlp b = StixNote.tlp a
  /\ (exists added, StixNote.objects b = (StixNote.objects a ++ added)%list)
  /\ (exists sources,
        StixNote.external_references b = (StixNote.external_references a ++ sources)%list
        /\ Forall (fun r => source_name r = url r) sources).

(** The references the loop of [from_json] adds: one for each entity of
    type [Source] that is no known threat actor, named after itself, in
    the order of the entities. *)
Definition source_references (self : StixNote.t) (entities : list Entity)
    : list ExternalReference :=
  map (fun e => mkExternalReference (entity_name e) (entity_name e))
      (List.filter (fun e => String.eqb (entity_type e) "Source"
                             && negb (bool_decide (entity_id e ∈ StixNote.tas self)))
                   entities).

(** ** Sample collaborators and inputs *)

Module Sample.

(** Sample checks of the library, on the values the builders give it.  A
    hash is accepted when it is made of hexadecimal digits and has the
    length of its algorithm; a pattern when a backslash only escapes a
    quote or a backslash, the quotes that are not escaped come in pairs
    and, in a pattern on [file:hashes], the hash is accepted; a timestamp
    when it reads [YYYY-MM-DDThh:mm:ssZ]. *)
Fixpoint escapes_valid (escaped : bool) (s : string) : bool :=
  match s with
  | EmptyString => negb escaped
  | String c s' =>
      if escaped
      then (Ascii.eqb c Py.quote || Ascii.eqb c Py.backslash) && escapes_valid false s'
      else escapes_valid (Ascii.eqb c Py.backslash) s'
  end.

Fixpoint bare_quotes (escaped : bool) (s : string) : nat :=
  match s with
  | EmptyString => 0
  | String c s' =>
      if escaped then bare_quotes false s'
      else if Ascii.eqb c Py.backslash then bare_quotes true s'
      else (if Ascii.eqb c Py.quote then 1 else 0) + bare_quotes false s'
  end.

Definition is_digit (c : ascii) : bool :=
  let n := nat_of_ascii c in (48 <=? n)%nat && (n <=? 57)%nat.

Definition is_hex (c : ascii) : bool :=
  let n := nat_of_ascii c in
  is_digit c || ((65 <=? n)%nat && (n <=? 70)%nat) || ((97 <=? n)%nat && (n <=? 102)%nat).

Definition hash_valid (algorithm value : string) : bool :=
  forallb is_hex (list_ascii_of_string value)
  && (if String.eqb algorithm "MD5" then (String.length value =? 32)%nat
      else if String.eqb algorithm "SHA-1" then (String.length value =? 40)%nat
      else if String.eqb algorithm "SHA-256" then (String.length value =? 64)%nat
      else false).

Definition pattern_valid (pattern : string) : bool :=
  escapes_valid false pattern
  && Nat.even (bare_quotes false pattern)
  && match Py.split Py.quote pattern with
     | [head; algorithm; _; value; _] =>
         if String.eqb head "[file:hashes." then hash_valid algorithm value else true
     | _ => true
     end.

Fixpoint shaped (shape stamp : list ascii) : bool :=
  match shape, stamp with
  | [], [] => true
  | s :: shape', c :: stamp' =>
      (if Ascii.eqb s "0" then is_digit c else Ascii.eqb s c) && shaped shape' stamp'
  | _, _ => false
  end.

Definition timestamp_valid (stamp : string) : bool :=
  shaped (list_ascii_of_string "0000-00-00T00:00:00Z") (list_ascii_of_string stamp).

(** Identifiers that spell out what they were derived from. *)
Definition ext : Collaborators :=
  mkCollaborators
    (fun pattern => "indicator--" +:+ pattern)
    (fun relation from_id to_id =>
       "relationship--" +:+ relation +:+ ":" +:+ from_id +:+ ":" +:+ to_id)
    (fun name _ => "attack-pattern--" +:+ name)
    (fun name identity_class => "identity--" +:+ name +:+ ":" +:+ identity_class)
    (fun name => "threat-actor--" +:+ name)
    (fun name => "intrusion-set--" +:+ name)
    (fun name => "malware--" +:+ name)
    (fun name => "vulnerability--" +:+ name)
    (fun name _ => "report--" +:+ default "" name)
    (fun type_ _ draw => type_ +:+ "--" +:+ String (ascii_of_nat (48 + draw)) EmptyString)
    (fun _ _ _ => Some 50%Z)
    pattern_valid hash_valid timestamp_valid.

Definition world : World := mkWorld 0 0 [] [].

Definition author : stix2.StixObject := StixNote._create_author ext.

(** A fresh session with the given configuration. *)
Definition configured (tas : gset string)
    (person_to_ta ta_to_intrusion_set risk_as_score : bool)
    (risk_threshold : option Z) : StixNote.t :=
  StixNote.mk author None None (Now 0) None None [] [] tas person_to_ta
              ta_to_intrusion_set risk_as_score risk_threshold
              (Some stix2.TLP_WHITE).

(** A session with the default flags and no known threat actor. *)
Definition session : StixNote.t := configured ∅ false false false None.

(** A note with an address, a company, a malware, an industry, a product,
    a country and an operation. *)
Definition note : Note :=
  mkNote "Title" "Body" "2023-01-01T00:00:00Z"
    [mkValidationUrl "https://www.example.com/report"]
    [mkTopic "Indicator"; mkTopic "UnknownTopic"]
    [mkEntity "IpAddress" "1.2.3.4" "e1"; mkEntity "Company" "Acme" "e2";
     mkEntity "Malware" "Foo" "e3"; mkEntity "Industry" "Banking" "e4";
     mkEntity "Product" "Windows" "e5"; mkEntity "Country" "France" "e6";
     mkEntity "Operation" "Aurora" "e7"]
    (Some (mkAttachment "rules.v2.yar" "yara" "rule r { condition: true }")).

(** The world after [StixNote.__init__] read the clock. *)
Definition started : World := mkWorld 1 0 [] [].

(** The session and the world after the conversion of [note]. *)
Definition converted : StixNote.t :=
  Eval vm_compute in
    match fst (StixNote.from_json ext session note started) with
    | Ok self => self
    | Raise _ => session
    end.

Definition converted_world : World :=
  Eval vm_compute in snd (StixNote.from_json ext session note started).

(** A note whose only entity is a hash of three characters. *)
Definition bad_hash_note : Note :=
  mkNote "Title" "Body" "2023-01-01T00:00:00Z" [] [] [mkEntity "Hash" "abc" "e1"] None.

(** Collaborators whose risk-score API answers 0 to the first query and 7
    to the later ones. *)
Definition ext_requery : Collaborators :=
  mkCollaborators (Indicator_generate_id ext) (StixCoreRelationship_generate_id ext)
    (AttackPattern_generate_id ext) (Identity_generate_id ext)
    (ThreatActor_generate_id ext) (IntrusionSet_generate_id ext)
    (Malware_generate_id ext) (Vulnerability_generate_id ext)
    (Report_generate_id ext) (stix2_default_id ext)
    (fun queries _ _ => match queries with [] => Some 0%Z | _ => Some 7%Z end)
    pattern_valid hash_valid timestamp_valid.

End Sample.

(** * Properties *)

(** ** Python strings *)

Lemma append_cons (c : ascii) (a b : string) : String c a +:+ b = String c (a +:+ b).
Proof. reflexivity. Qed.

Lemma append_nil_l (b : string) : EmptyString +:+ b = b.
Proof. reflexivity. Qed.

Create Rewrite HintDb str.
#[local] Hint Rewrite append_cons append_nil_l : str.

Ltac str_simpl := unfold Py.str in *; autorewrite with str in *.

Lemma append_assoc (a b c : string) : (a +:+ b) +:+ c = a +:+ (b +:+ c).
Proof. induction a as [|x a IH]; str_simpl; [reflexivity | now rewrite IH]. Qed.

Lemma append_nil_r (a : string) : a +:+ EmptyString = a.
Proof. induction a as [|x a IH]; str_simpl; [reflexivity | now rewrite IH]. Qed.

Lemma length_append (a b : string) :
  String.length (a +:+ b) = String.length a + String.length b.
Proof. induction a as [|x a IH]; str_simpl; simpl; [reflexivity | now rewrite IH]. Qed.

(** The two replacements of the URL builder, one after the other, escape
    the value character by character. *)
Lemma replace_twice_escape_each (s : string) :
  Py.replace Py.quote (Py.str Py.backslash +:+ Py.str Py.quote)
    (Py.replace Py.backslash (Py.str Py.backslash +:+ Py.str Py.backslash) s)
  = escape_each s.
Proof.
  induction s as [|c s IH]; [reflexivity|].
  cbn [Py.replace escape_each]. unfold escape_char.
  destruct (Ascii.eqb_spec c Py.backslash) as [->|Hbs].
  - str_simpl. cbn [Py.replace].
    replace (Ascii.eqb Py.backslash Py.quote) with false by reflexivity.
    now rewrite IH.
  - cbn [Py.replace]. destruct (Ascii.eqb_spec c Py.quote) as [->|Hq].
    + str_simpl. now rewrite IH.
    + str_simpl. now rewrite IH.
Qed.

Lemma unescape_escape_each (s : string) : unescape false (escape_each s) = s.
Proof.
  induction s as [|c s IH]; [reflexivity|].
  cbn [escape_each]. unfold escape_char.
  destruct (Ascii.eqb_spec c Py.backslash) as [->|Hbs].
  - str_simpl. cbn [unescape].
    replace (Ascii.eqb Py.backslash Py.backslash) with true by reflexivity.
    now rewrite IH.
  - destruct (Ascii.eqb_spec c Py.quote) as [->|Hq].
    + str_simpl. cbn [unescape].
      replace (Ascii.eqb Py.backslash Py.backslash) with true by reflexivity.
      now rewrite IH.
    + str_simpl. cbn [unescape].
      destruct (Ascii.eqb_spec c Py.backslash); [contradiction|].
      now rewrite IH.
Qed.

Lemma length_escape_each (s : string) :
  String.length (escape_each s)
  = String.length s + occurrences Py.backslash s + occurrences Py.quote s.
Proof.
  induction s as [|c s IH]; [reflexivity|].
  cbn [escape_each occurrences String.length]. rewrite length_append, IH.
  unfold escape_char.
  destruct (Ascii.eqb_spec c Py.backslash) as [->|Hbs].
  - replace (Ascii.eqb Py.backslash Py.quote) with false by reflexivity.
    replace (Ascii.eqb Py.backslash Py.backslash) with true by reflexivity.
    str_simpl. cbn [String.length]. lia.
  - destruct (Ascii.eqb_spec c Py.quote) as [->|Hq];
      str_simpl; cbn [String.length]; lia.
Qed.

(** The first segment of a split holds no separator, and the string is
    that segment alone or that segment, a separator and a rest. *)
Lemma split_first (sep : ascii) (s : string) :
  exists seg segs,
    Py.split sep s = seg :: segs
    /\ occurrences sep seg = 0
    /\ (s = seg \/ exists rest, s = seg +:+ String sep rest).
Proof.
  induction s as [|c s (seg & segs & Hsplit & Hocc & Hshape)].
  - exists EmptyString, []. repeat split. now left.
  - cbn [Py.split]. destruct (Ascii.eqb_spec c sep) as [->|Hne].
    + exists EmptyString, (Py.split sep s). repeat split.
      right. now exists s.
    + rewrite Hsplit. exists (String c seg), segs. repeat split.
      * cbn [occurrences]. rewrite Hocc.
        destruct (Ascii.eqb_spec c sep); [contradiction | reflexivity].
      * destruct Hshape as [->|[rest ->]]; [now left|].
        right. exists rest. now rewrite append_cons.
Qed.

(** ** Running the monad *)

Ltac run_world :=
  cbv [bind ret lift raise datetime_now default_id log_warning log_info] in *;
  cbn [fst snd clock draws helper_log rfapi_queries] in *.

(** A bind applied to a world. *)
Lemma bind_run {A B} (m : W A) (k : A -> W B) (w : World) :
  bind m k w
  = match m w with
    | (Ok a, w') => k a w'
    | (Raise e, w') => (Raise e, w')
    end.
Proof. reflexivity. Qed.

(** ** The builders *)

(** C4. The [FileHash] builder takes the algorithm from the length of the
    name alone: 64 characters give SHA-256, 40 give SHA-1, 32 give MD5,
    and with any other length the constructor raises [ConversionError],
    so that no instance and no object exists; two names of one length
    are resolved alike. *)
Theorem filehash_algorithm_from_length (name type_ : string) (author : stix2.StixObject) :
  (String.length name = 64 ->
   FileHash.__init__ name type_ author
   = Ok (Indicator.__init__ (Indicator.FileHash "SHA-256") name type_ author))
  /\ (String.length name = 40 ->
      FileHash.__init__ name type_ author
      = Ok (Indicator.__init__ (Indicator.FileHash "SHA-1") name type_ author))
  /\ (String.length name = 32 ->
      FileHash.__init__ name type_ author
      = Ok (Indicator.__init__ (Indicator.FileHash "MD5") name type_ author))
  /\ (String.length name <> 64 -> String.length name <> 40 ->
      String.length name <> 32 ->
      exists msg,
        FileHash._determine_algorithm name = Raise (ConversionError msg)
        /\ FileHash.__init__ name type_ author = Raise (ConversionError msg)
        /\ construct FileHash name type_ author = Raise (ConversionError msg))
  /\ (forall name' : string,
        String.length name' = String.length name ->
        match FileHash._determine_algorithm name, FileHash._determine_algorithm name' with
        | Ok algorithm, Ok algorithm' => algorithm = algorithm'
        | Raise (ConversionError _), Raise (ConversionError _) => True
        | _, _ => False
        end).
Proof.
  unfold construct, FileHash.__init__, FileHash._determine_algorithm.
  repeat split.
  - now intros ->.
  - now intros ->.
  - now intros ->.
  - intros H64 H40 H32.
    destruct (Nat.eqb_spec (String.length name) 64); [contradiction|].
    destruct (Nat.eqb_spec (String.length name) 40); [contradiction|].
    destruct (Nat.eqb_spec (String.length name) 32); [contradiction|].
    eexists. repeat split.
  - intros name' ->.
    destruct (String.length name =? 64)%nat; [reflexivity|].
    destruct (String.length name =? 40)%nat; [reflexivity|].
    destruct (String.length name =? 32)%nat; [reflexivity|exact I].
Qed.

Lemma filehash_algorithm_from_length_witness :
  FileHash.__init__ "e3b0c44298fc1c149afbf4c8996fb92427ae41e4649b934ca495991b7852b855"
    "Hash" Sample.author
  = Ok (Indicator.__init__ (Indicator.FileHash "SHA-256")
          "e3b0c44298fc1c149afbf4c8996fb92427ae41e4649b934ca495991b7852b855"
          "Hash" Sample.author)
  /\ FileHash.__init__ "da39a3ee5e6b4b0d3255bfef95601890afd80709" "Hash" Sample.author
     = Ok (Indicator.__init__ (Indicator.FileHash "SHA-1")
             "da39a3ee5e6b4b0d3255bfef95601890afd80709" "Hash" Sample.author)
  /\ FileHash.__init__ "d41d8cd98f00b204e9800998ecf8427e" "Hash" Sample.author
     = Ok (Indicator.__init__ (Indicator.FileHash "MD5")
             "d41d8cd98f00b204e9800998ecf8427e" "Hash" Sample.author)
  /\ exists msg,
       FileHash._determine_algorithm "abc" = Raise (ConversionError msg)
       /\ FileHash.__init__ "abc" "Hash" Sample.author = Raise (ConversionError msg)
       /\ construct FileHash "abc" "Hash" Sample.author = Raise (ConversionError msg).
Proof.
  split; [|split; [|split]].
  - apply (proj1 (filehash_algorithm_from_length
                    "e3b0c44298fc1c149afbf4c8996fb92427ae41e4649b934ca495991b7852b855"
                    "Hash" Sample.author)).
    reflexivity.
  - apply (proj1 (proj2 (filehash_algorithm_from_length
                           "da39a3ee5e6b4b0d3255bfef95601890afd80709"
                           "Hash" Sample.author))).
    reflexivity.
  - apply (proj1 (proj2 (proj2 (filehash_algorithm_from_length
                                  "d41d8cd98f00b204e9800998ecf8427e"
                                  "Hash" Sample.author)))).
    reflexivity.
  - apply (proj1 (proj2 (proj2 (proj2 (filehash_algorithm_from_length
                                         "abc" "Hash" Sample.author)))));
      simpl; lia.
Defined.

(** C5. The pattern of the URL builder embeds the value escaped character
    by character: every backslash and every single quote of the value
    gets exactly one backslash in front, every other character is kept,
    all in the original order.  Reading the escapes back gives the value
    again, and the literal is longer than the value by the number of its
    backslashes and quotes: nothing is escaped twice. *)
Theorem url_pattern_escapes_once (name type_ : string) (author : stix2.StixObject) :
  Indicator._create_pattern (Indicator.__init__ Indicator.URL name type_ author)
  = "[url:value = '" +:+ escape_each name +:+ "']"
  /\ unescape false (escape_each name) = name
  /\ String.length (escape_each name)
     = String.length name + occurrences Py.backslash name + occurrences Py.quote name.
Proof.
  split; [|split].
  - unfold Indicator._create_pattern, Indicator.__init__.
    cbn [Indicator.cls Indicator.name].
    now rewrite replace_twice_escape_each.
  - apply unescape_escape_each.
  - apply length_escape_each.
Qed.

(** Building succeeds exactly when the library accepts the pattern and
    the hash.  It then reads the clock once and draws one id, and the
    three caches hold the indicator of [_create_indicator], the observable
    of [_create_obs] and the relationship of [_create_rel] between the
    two, whatever they held before. *)
Lemma indicator_create_stix_objects (ext : Collaborators) (self : Indicator.t) (w : World) :
  library_accepts ext self = true ->
  exists ind obs rel,
    Indicator.create_stix_objects ext self w
    = (Ok (Indicator.mk (Indicator.cls self) (Indicator.name self)
             (Indicator.author self) (Some ind) (Some obs) (Some rel)
             (Indicator.risk_score self)), drawn (ticked w))
    /\ Indicator._create_indicator ext self w = (Ok ind, ticked w)
    /\ ind = stix2.Indicator
               (Indicator_generate_id ext (Indicator._create_pattern self))
               (Indicator.name self) "stix" (Indicator._create_pattern self)
               (clock w) (stix2.id (Indicator.author self))
               match Indicator.risk_score self with
               | Some z => [("x_opencti_score", PInt z)]
               | None => []
               end
    /\ stix2.type obs = observable_type (Indicator.cls self)
    /\ stix2.source_ref obs = None
    /\ stix2.created_by_ref obs = None
    /\ rel = stix2.Relationship
               (StixCoreRelationship_generate_id ext "based-on" (stix2.id ind) (stix2.id obs))
               "based-on" (stix2.id ind) (stix2.id obs)
               (stix2.id (Indicator.author self)).
Proof.
  destruct self as [cls name author i o r score].
  unfold library_accepts. cbn [Indicator.cls Indicator.name].
  intros Haccepts. apply andb_prop in Haccepts as [Hpattern Hhash].
  unfold Indicator.create_stix_objects, Indicator._create_indicator,
    Indicator._create_obs, Indicator._create_rel, stix2.new_Indicator,
    stix2.check_hashes.
  cbn [Indicator.cls Indicator.name Indicator.author Indicator.risk_score
       Indicator.stix_indicator Indicator.stix_observable Indicator.stix_relationship
       String.eqb Ascii.eqb Bool.eqb andb forallb fst snd].
  rewrite Hpattern. cbn [negb].
  destruct cls; try rewrite Hhash; destruct score; run_world; cbn;
    do 3 eexists; repeat split.
Qed.

(** Building fails with [InvalidValueError], after the clock was read,
    when the library refuses the pattern or the hash. *)
Lemma indicator_create_stix_objects_refused (ext : Collaborators) (self : Indicator.t)
    (w : World) :
  library_accepts ext self = false ->
  exists prop,
    Indicator.create_stix_objects ext self w = (Raise (InvalidValueError prop), ticked w)
    /\ (prop = "pattern" \/ prop = "hashes")
    /\ (prop = "pattern"
        <-> stix2_pattern_valid ext (Indicator._create_pattern self) = false).
Proof.
  destruct self as [cls name author i o r score].
  unfold library_accepts. cbn [Indicator.cls Indicator.name].
  unfold Indicator.create_stix_objects, Indicator._create_indicator,
    Indicator._create_obs, Indicator._create_rel, stix2.new_Indicator,
    stix2.check_hashes.
  cbn [Indicator.cls Indicator.name Indicator.author Indicator.risk_score
       Indicator.stix_indicator Indicator.stix_observable Indicator.stix_relationship
       String.eqb Ascii.eqb Bool.eqb andb forallb fst snd].
  destruct (stix2_pattern_valid ext _) eqn:Hpattern; cbn [andb negb].
  - destruct cls; try discriminate. intros ->. run_world. cbn.
    exists "hashes". repeat split; auto; discriminate.
  - intros _. run_world. cbn. exists "pattern". repeat split; auto.
Qed.

(** A builder whose three caches are filled returns them and changes
    nothing. *)
Lemma indicator_to_stix_objects_filled (ext : Collaborators) (cls : Indicator.Class)
    (name : string) (author ind obs rel : stix2.StixObject) (score : option Z)
    (w : World) :
  let self := Indicator.mk cls name author (Some ind) (Some obs) (Some rel) score in
  Indicator.to_stix_objects ext self w = (Ok ([ind; obs; rel], self), w).
Proof. reflexivity. Qed.

(** A call of [to_stix_objects] that returns gives the three caches of the
    instance it leaves, in their order: the caches it found filled, or
    else the three objects just built. *)
Lemma indicator_to_stix_objects_inv (ext : Collaborators) (self self1 : Indicator.t)
    (objs : list stix2.StixObject) (w w1 : World) :
  Indicator.to_stix_objects ext self w = (Ok (objs, self1), w1) ->
  exists ind obs rel,
    objs = [ind; obs; rel]
    /\ self1 = Indicator.mk (Indicator.cls self) (Indicator.name self)
                 (Indicator.author self) (Some ind) (Some obs) (Some rel)
                 (Indicator.risk_score self)
    /\ (cached self = true -> self1 = self /\ w1 = w)
    /\ (cached self = false ->
        Indicator.create_stix_objects ext self w = (Ok self1, w1)
        /\ library_accepts ext self = true).
Proof.
  unfold Indicator.to_stix_objects. fold (cached self).
  destruct (cached self) eqn:Hcached; cbn [negb].
  - destruct self as [cls name author [i|] [o|] [r|] score]; try discriminate.
    intros H. injection H as <- <- <-. exists i, o, r. repeat split; discriminate.
  - destruct (library_accepts ext self) eqn:Haccepts.
    + destruct (indicator_create_stix_objects ext self w Haccepts)
        as (ind & obs & rel & Hcreate & _).
      rewrite bind_run, Hcreate. cbn. intros H. injection H as <- <- <-.
      exists ind, obs, rel. repeat split; discriminate.
    + destruct (indicator_create_stix_objects_refused ext self w Haccepts)
        as (prop & Hcreate & _).
      rewrite bind_run, Hcreate. discriminate.
Qed.

(** C7. Calling [to_stix_objects] twice on the same indicator builder.  The
    first call returns when the caches are filled or the library accepts
    the pattern and the hash.  When it returns, the three objects are the
    three caches of the instance it leaves: those it found, or the
    indicator of [_create_indicator], the observable of [_create_obs] and
    the based-on relationship between the two, built by one reading of the
    clock and one id drawn.  The second call returns the same three
    objects from the caches, so with the same ids, and changes neither the
    instance nor the world. *)
Theorem indicator_to_stix_objects_cached (ext : Collaborators) (self : Indicator.t)
    (w : World) :
  (cached self || library_accepts ext self = true ->
   exists objs self1 w1, Indicator.to_stix_objects ext self w = (Ok (objs, self1), w1))
  /\ forall objs self1 w1,
       Indicator.to_stix_objects ext self w = (Ok (objs, self1), w1) ->
       (exists ind obs rel,
          objs = [ind; obs; rel]
          /\ Indicator.stix_indicator self1 = Some ind
          /\ Indicator.stix_observable self1 = Some obs
          /\ Indicator.stix_relationship self1 = Some rel
          /\ (cached self = true -> self1 = self /\ w1 = w)
          /\ (cached self = false ->
              Indicator._create_indicator ext self w = (Ok ind, ticked w)
              /\ stix2.type obs = observable_type (Indicator.cls self)
              /\ rel = stix2.Relationship
                         (StixCoreRelationship_generate_id ext "based-on"
                            (stix2.id ind) (stix2.id obs))
                         "based-on" (stix2.id ind) (stix2.id obs)
                         (stix2.id (Indicator.author self))
              /\ w1 = drawn (ticked w)))
       /\ Indicator.to_stix_objects ext self1 w1 = (Ok (objs, self1), w1)
       /\ returned_ids (Indicator.to_stix_objects ext self1 w1)
          = returned_ids (Indicator.to_stix_objects ext self w).
Proof.
  split.
  - unfold Indicator.to_stix_objects. fold (cached self).
    destruct (cached self) eqn:Hcached; cbn [orb negb].
    + intros _.
      destruct self as [cls name author [i|] [o|] [r|] score]; try discriminate.
      now eexists _, _, _.
    + intros Haccepts.
      destruct (indicator_create_stix_objects ext self w Haccepts)
        as (ind & obs & rel & Hcreate & _).
      rewrite bind_run, Hcreate. now eexists _, _, _.
  - intros objs self1 w1 Hfirst.
    destruct (indicator_to_stix_objects_inv ext self self1 objs w w1 Hfirst)
      as (ind & obs & rel & -> & -> & Hfound & Hbuilt).
    split; [|split].
    + exists ind, obs, rel.
      split; [reflexivity|]. split; [reflexivity|]. split; [reflexivity|].
      split; [reflexivity|]. split; [exact Hfound|].
      intros Hcached. destruct (Hbuilt Hcached) as [Hcreate Haccepts].
      destruct (indicator_create_stix_objects ext self w Haccepts)
        as (ind' & obs' & rel' & Hcreate' & Hind & _ & Hobs & _ & _ & Hrel).
      rewrite Hcreate in Hcreate'. injection Hcreate' as <- <- <- Hw.
      repeat split; assumption.
    + apply indicator_to_stix_objects_filled.
    + rewrite Hfirst, indicator_to_stix_objects_filled. reflexivity.
Qed.

(** C3, as the code has it. For a filename and one of the three accepted
    rule languages, the display name of the produced object is the part of
    the filename before its first period, the whole filename when it has
    none: it holds no period, and the filename is that name alone or that
    name, a period and a rest. *)
Theorem detection_rule_name_before_first_period (ext : Collaborators)
    (name type_ content : string) (author : stix2.StixObject) (w : World)
    (Htype : In type_ ["yara"; "snort"; "sigma"]) :
  exists rule o rule' w',
    DetectionRule.__init__ name type_ content author = Ok rule
    /\ DetectionRule.to_stix_objects ext rule w = (Ok ([o], rule'), w')
    /\ stix2.name o = Some (DetectionRule.name rule)
    /\ occurrences "." (DetectionRule.name rule) = 0
    /\ (name = DetectionRule.name rule
        \/ exists rest, name = DetectionRule.name rule +:+ String "." rest).
Proof.
  destruct (split_first "." name) as (seg & segs & Hsplit & Hocc & Hshape).
  unfold DetectionRule.__init__, DetectionRule.display_name, Py.index.
  rewrite Hsplit. cbn [nth_error bind_result DetectionRule.type].
  assert (existsb (String.eqb type_) ["yara"; "snort"; "sigma"] = true) as ->.
  { apply existsb_exists. exists type_. split; [exact Htype | apply String.eqb_refl]. }
  cbn [negb].
  unfold DetectionRule.to_stix_objects, DetectionRule.create_stix_objects.
  run_world. cbn.
  do 4 eexists. repeat split; assumption.
Qed.

Lemma detection_rule_name_before_first_period_witness :
  In "yara" ["yara"; "snort"; "sigma"]
  /\ exists rule o rule' w',
       DetectionRule.__init__ "rules.v2.yar" "yara" "rule r { condition: true }"
         Sample.author = Ok rule
       /\ DetectionRule.to_stix_objects Sample.ext rule Sample.world
          = (Ok ([o], rule'), w')
       /\ stix2.name o = Some (DetectionRule.name rule)
       /\ occurrences "." (DetectionRule.name rule) = 0
       /\ ("rules.v2.yar" = DetectionRule.name rule
           \/ exists rest, "rules.v2.yar" = DetectionRule.name rule +:+ String "." rest).
Proof.
  split.
  - simpl. left. reflexivity.
  - apply (detection_rule_name_before_first_period Sample.ext "rules.v2.yar" "yara"
             "rule r { condition: true }" Sample.author Sample.world).
    simpl. left. reflexivity.
Defined.

(** C3, as the claim has it, fails on a filename with two periods: the
    object built from [a.b.c] is named [a], while removing the final
    extension segment only gives [a.b]. *)
Lemma detection_rule_name_two_periods :
  exists rule o rule' w',
    DetectionRule.__init__ "a.b.c" "yara" "rule r { condition: true }" Sample.author
    = Ok rule
    /\ DetectionRule.to_stix_objects Sample.ext rule Sample.world = (Ok ([o], rule'), w')
    /\ stix2.name o = Some "a"
    /\ Py.before_last "." "a.b.c" = "a.b"
    /\ stix2.name o <> Some (Py.before_last "." "a.b.c").
Proof.
  do 4 eexists. repeat split; try reflexivity.
  vm_compute. discriminate.
Qed.

(** ** Report types *)

Lemma logged_nil (w : World) : logged w [] = w.
Proof. destruct w. unfold logged. cbn. now rewrite app_nil_r. Qed.

Lemma logged_logged (w : World) (l1 l2 : list LogEntry) :
  logged (logged w l1) l2 = logged w (l1 ++ l2).
Proof. unfold logged. cbn. now rewrite app_assoc. Qed.

(** The loop adds the image of every mapped topic to the set and logs one
    warning for every other topic. *)
Lemma report_types_loop_spec (topics : list Topic) (acc : gset string) (w : World) :
  StixNote.report_types_loop topics acc w
  = (Ok (acc ∪ list_to_set
                 (omap (fun topic => StixNote.report_type_mapper !! topic_name topic)
                       topics)),
     logged w (unmapped_warnings topics)).
Proof.
  revert acc w. induction topics as [|topic topics IH]; intros acc w.
  - cbn [StixNote.report_types_loop unmapped_warnings omap list_omap].
    rewrite logged_nil. unfold ret.
    now rewrite list_to_set_nil, (right_id_L ∅ (∪)).
  - cbn [StixNote.report_types_loop unmapped_warnings omap list_omap].
    destruct (StixNote.report_type_mapper !! topic_name topic) as [ty|] eqn:Hty.
    + rewrite IH.
      generalize (omap (fun topic => StixNote.report_type_mapper !! topic_name topic)
                    topics).
      intros tys.
      now rewrite list_to_set_cons, (assoc_L (∪)).
    + unfold bind, log_warning. rewrite IH.
      fold (logged w [Warning ("Could not map a report type for type "
                               +:+ topic_name topic)]).
      now rewrite logged_logged.
Qed.

(** C9. [_create_report_types] never fails; the types it returns are
    distinct and are exactly the images of the topics the table maps; one
    warning is logged for every topic the table lacks and nothing else
    changes.  The topics [Indicator] and [UnknownTopic] give the one type
    [Indicator] and the one warning for [UnknownTopic]. *)
Theorem create_report_types_maps_and_warns (topics : list Topic) (w : World) :
  (exists types,
     StixNote._create_report_types topics w
     = (Ok types, logged w (unmapped_warnings topics))
     /\ List.NoDup types
     /\ forall ty, In ty types <->
          exists topic, In topic topics
            /\ StixNote.report_type_mapper !! topic_name topic = Some ty)
  /\ StixNote._create_report_types [mkTopic "Indicator"; mkTopic "UnknownTopic"] w
     = (Ok ["Indicator"],
        logged w [Warning "Could not map a report type for type UnknownTopic"]).
Proof.
  split.
  - unfold StixNote._create_report_types, bind.
    rewrite report_types_loop_spec. eexists. split; [reflexivity|]. split.
    + apply (proj1 (NoDup_ListNoDup _)), NoDup_elements.
    + intros ty. rewrite <- list_elem_of_In, elem_of_elements.
      rewrite elem_of_union, elem_of_list_to_set, list_elem_of_omap.
      split.
      * intros [Hempty|(topic & Hin & Hmap)]; [now apply not_elem_of_empty in Hempty|].
        exists topic. now rewrite <- list_elem_of_In.
      * intros (topic & Hin & Hmap). right. exists topic.
        now rewrite list_elem_of_In.
  - unfold StixNote._create_report_types, bind.
    rewrite report_types_loop_spec.
    assert (unmapped_warnings [mkTopic "Indicator"; mkTopic "UnknownTopic"]
            = [Warning "Could not map a report type for type UnknownTopic"]) as ->
      by (vm_compute; reflexivity).
    assert (omap (fun topic => StixNote.report_type_mapper !! topic_name topic)
              [mkTopic "Indicator"; mkTopic "UnknownTopic"]
            = ["Indicator"]) as -> by (vm_compute; reflexivity).
    rewrite list_to_set_cons, list_to_set_nil, (left_id_L ∅ (∪)), (right_id_L ∅ (∪)).
    unfold ret. now rewrite elements_singleton.
Qed.

(** ** The dispatcher *)

(** C8. The first two branches of the loop of [from_json], for every
    entity and whatever its type: with [person_to_ta] set, an entity of
    type [Person] gives the [ThreatActor] object; when that first test
    fails and the id of the entity is a known threat actor, the entity
    gives the [IntrusionSet] object if [ta_to_intrusion_set] is set and the
    type is not [Person], and the [ThreatActor] object if not. *)
Theorem dispatch_branch_order (ext : Collaborators) (self : StixNote.t) (e : Entity)
    (w : World) :
  (StixNote.person_to_ta self = true -> entity_type e = "Person" ->
   StixNote.convert_entity ext self e w
   = (Ok (StixNote.extend_objects self
            [stix2.ThreatActor (ThreatActor_generate_id ext (entity_name e))
               (entity_name e) (stix2.id (StixNote.author self))]), w))
  /\ (~ (StixNote.person_to_ta self = true /\ entity_type e = "Person") ->
      entity_id e ∈ StixNote.tas self ->
      (StixNote.ta_to_intrusion_set self = true -> entity_type e <> "Person" ->
       StixNote.convert_entity ext self e w
       = (Ok (StixNote.extend_objects self
                [stix2.IntrusionSet (IntrusionSet_generate_id ext (entity_name e))
                   (entity_name e) (stix2.id (StixNote.author self))]), w))
      /\ (~ (StixNote.ta_to_intrusion_set self = true /\ entity_type e <> "Person") ->
          StixNote.convert_entity ext self e w
          = (Ok (StixNote.extend_objects self
                   [stix2.ThreatActor (ThreatActor_generate_id ext (entity_name e))
                      (entity_name e) (stix2.id (StixNote.author self))]), w))).
Proof.
  unfold StixNote.convert_entity. split.
  - intros -> ->. reflexivity.
  - intros Hfirst Hknown.
    assert (StixNote.person_to_ta self && String.eqb (entity_type e) "Person" = false)
      as ->.
    { destruct (StixNote.person_to_ta self); [|reflexivity].
      destruct (String.eqb_spec (entity_type e) "Person"); [|reflexivity].
      exfalso. now apply Hfirst. }
    rewrite (bool_decide_eq_true_2 _ Hknown). split.
    + intros -> Hperson.
      destruct (String.eqb_spec (entity_type e) "Person"); [contradiction|].
      reflexivity.
    + intros Hsecond.
      assert (StixNote.ta_to_intrusion_set self
              && negb (String.eqb (entity_type e) "Person") = false) as ->.
      { destruct (StixNote.ta_to_intrusion_set self); [|reflexivity].
        destruct (String.eqb_spec (entity_type e) "Person"); [reflexivity|].
        exfalso. now apply Hsecond. }
      reflexivity.
Qed.

(** ** The risk threshold *)

Lemma score_indicator_threshold (ext : Collaborators) (self : StixNote.t)
    (threshold : option Z) (type_ name : string) (rf_object : RFObject) (w : World) :
  Py.truthy threshold = false ->
  StixNote.score_indicator ext (with_risk_threshold self threshold) type_ name rf_object w
  = StixNote.score_indicator ext (with_risk_threshold self None) type_ name rf_object w.
Proof.
  intros Hfalsy. unfold StixNote.score_indicator.
  cbn [with_risk_threshold StixNote.risk_threshold StixNote.risk_as_score].
  destruct threshold as [t|]; [|reflexivity]. now rewrite Hfalsy.
Qed.

(** One turn of the loop with a false threshold does what it does without
    a threshold; the two sessions differ in the threshold only. *)
Lemma convert_entity_threshold (ext : Collaborators) (self : StixNote.t)
    (threshold : option Z) (e : Entity) (w : World) :
  Py.truthy threshold = false ->
  StixNote.convert_entity ext (with_risk_threshold self threshold) e w
  = (map_result (fun s => with_risk_threshold s threshold)
       (fst (StixNote.convert_entity ext (with_risk_threshold self None) e w)),
     snd (StixNote.convert_entity ext (with_risk_threshold self None) e w)).
Proof.
  intros Hfalsy.
  unfold StixNote.convert_entity.
  cbn [with_risk_threshold StixNote.person_to_ta StixNote.tas StixNote.author
       StixNote.ta_to_intrusion_set StixNote.external_references].
  repeat match goal with
  | |- context [if ?b then _ else _] => destruct b eqn:?
  end;
  try (unfold bind; destruct (StixNote.build_entity _ _ _ _ _ _) as [[objs|err] w'];
       reflexivity).
  - reflexivity.
  - destruct (ENTITY_TYPE_MAPPER !! entity_type e) as [builder|]; [|reflexivity].
    unfold bind at 1 4 7. unfold lift.
    destruct (construct _ _ _ _) as [rf_object|err]; [|reflexivity].
    unfold bind at 1 3 5. rewrite (score_indicator_threshold _ _ _ _ _ _ _ Hfalsy).
    destruct (StixNote.score_indicator _ _ _ _ _ _) as [[[scored|]|err] w'];
      try reflexivity.
    unfold bind.
    destruct (rf_to_stix_objects _ _ _) as [[objs|err] w'']; reflexivity.
  - destruct (ENTITY_TYPE_MAPPER !! entity_type e) as [builder|]; [|reflexivity].
    unfold bind at 1 4 7. unfold lift.
    destruct (construct _ _ _ _) as [rf_object|err]; [|reflexivity].
    unfold bind, ret.
    destruct (rf_to_stix_objects _ _ _) as [[objs|err] w'']; reflexivity.
Qed.

Lemma convert_entities_threshold (ext : Collaborators) (threshold : option Z)
    (entities : list Entity) :
  Py.truthy threshold = false ->
  forall (self : StixNote.t) (w : World),
    StixNote.convert_entities ext (with_risk_threshold self threshold) entities w
    = (map_result (fun s => with_risk_threshold s threshold)
         (fst (StixNote.convert_entities ext (with_risk_threshold self None) entities w)),
       snd (StixNote.convert_entities ext (with_risk_threshold self None) entities w)).
Proof.
  intros Hfalsy. induction entities as [|e entities IH]; intros self w.
  - reflexivity.
  - cbn [StixNote.convert_entities]. unfold bind.
    rewrite (convert_entity_threshold ext self threshold e w Hfalsy).
    pose proof (convert_entity_threshold ext self None e w eq_refl) as Hnone.
    destruct (StixNote.convert_entity ext (with_risk_threshold self None) e w)
      as [[s|err] w'] eqn:Hrun; cbn [fst snd map_result] in *; [|reflexivity].
    injection Hnone as Hs. rewrite Hs at 2 3. apply IH.
Qed.

Lemma set_metadata_threshold (self : StixNote.t) (threshold : option Z)
    (name text published : string) (refs : list ExternalReference)
    (report_types labels : list string) :
  StixNote.set_metadata (with_risk_threshold self threshold) name text published refs
    report_types labels
  = with_risk_threshold
      (StixNote.set_metadata self name text published refs report_types labels)
      threshold.
Proof. reflexivity. Qed.

(** The whole conversion of a note with a false threshold. *)
Lemma from_json_threshold (ext : Collaborators) (self : StixNote.t)
    (threshold : option Z) (note : Note) (w : World) :
  Py.truthy threshold = false ->
  StixNote.from_json ext (with_risk_threshold self threshold) note w
  = (map_result (fun s => with_risk_threshold s threshold)
       (fst (StixNote.from_json ext (with_risk_threshold self None) note w)),
     snd (StixNote.from_json ext (with_risk_threshold self None) note w)).
Proof.
  intros Hfalsy. unfold StixNote.from_json. rewrite !bind_run. unfold lift.
  destruct (StixNote._generate_external_references (validation_urls note))
    as [refs|err]; [|reflexivity].
  rewrite !bind_run.
  destruct (StixNote._create_report_types (topic note) w) as [[types|err] w1];
    [|reflexivity].
  rewrite !bind_run, !set_metadata_threshold.
  rewrite (convert_entities_threshold ext threshold (note_entities note) Hfalsy).
  destruct (StixNote.convert_entities ext _ (note_entities note) w1)
    as [[s|err] w2]; cbn [fst snd map_result]; [|reflexivity].
  destruct (note_attachment note) as [a|]; [|reflexivity].
  rewrite !bind_run. unfold lift. cbn [with_risk_threshold StixNote.author].
  destruct (DetectionRule.__init__ _ _ _ _) as [rule|err]; [|reflexivity].
  rewrite !bind_run.
  destruct (DetectionRule.to_stix_objects ext rule w2) as [[r|err] w3]; reflexivity.
Qed.

(** C10. A threshold of 0 is false where the loop tests it, so the
    conversion of a note runs as it does without a threshold: the same
    result, the same log and the same queries to the risk-score API, the
    session differing in the stored threshold only.  For an entity of an
    indicator type no score is fetched for gating and the entity is never
    skipped; when [risk_as_score] is off the API is not queried at all. *)
Theorem zero_threshold_disables_gating (ext : Collaborators) (self : StixNote.t)
    (note : Note) (w : World) :
  StixNote.from_json ext (with_risk_threshold self (Some 0%Z)) note w
  = (map_result (fun s => with_risk_threshold s (Some 0%Z))
       (fst (StixNote.from_json ext (with_risk_threshold self None) note w)),
     snd (StixNote.from_json ext (with_risk_threshold self None) note w))
  /\ forall (type_ name : string) (rf_object : RFObject),
       StixNote.score_indicator ext (with_risk_threshold self (Some 0%Z))
         type_ name rf_object w
       = StixNote.score_indicator ext (with_risk_threshold self None)
           type_ name rf_object w
       /\ fst (StixNote.score_indicator ext (with_risk_threshold self (Some 0%Z))
                 type_ name rf_object w) <> Ok None
       /\ (if StixNote.risk_as_score self
           then True
           else StixNote.score_indicator ext (with_risk_threshold self (Some 0%Z))
                  type_ name rf_object w = (Ok (Some rf_object), w)).
Proof.
  split; [now apply from_json_threshold|].
  intros type_ name rf_object. split; [reflexivity|].
  unfold StixNote.score_indicator.
  cbn [with_risk_threshold StixNote.risk_threshold StixNote.risk_as_score
       Py.truthy Z.eqb negb].
  rewrite bind_run. unfold ret at 1. 
  destruct (StixNote.risk_as_score self).
  - split; [|exact I]. rewrite bind_run. unfold StixNote.fetch_risk_score.
    destruct (INDICATOR_TYPE_URL_MAPPER !! type_) as [category|];
      [|cbn; discriminate].
    unfold rfapi_get_risk_score.
    destruct (get_risk_score ext (rfapi_queries w) category name);
      cbn; discriminate.
  - split; [|reflexivity]. cbn. discriminate.
Qed.

Lemma dispatch_branch_order_witness :
  StixNote.convert_entity Sample.ext
    (Sample.configured {["actor-1"]} true true false None)
    (mkEntity "Person" "Alice" "person-1") Sample.world
  = (Ok (StixNote.extend_objects
           (Sample.configured {["actor-1"]} true true false None)
           [stix2.ThreatActor "threat-actor--Alice" "Alice"
              "identity--Recorded Future:organization"]),
     Sample.world)
  /\ StixNote.convert_entity Sample.ext
       (Sample.configured {["actor-1"]} false true false None)
       (mkEntity "Organization" "APT0" "actor-1") Sample.world
     = (Ok (StixNote.extend_objects
              (Sample.configured {["actor-1"]} false true false None)
              [stix2.IntrusionSet "intrusion-set--APT0" "APT0"
                 "identity--Recorded Future:organization"]),
        Sample.world)
  /\ StixNote.convert_entity Sample.ext
       (Sample.configured {["actor-1"]} false true false None)
       (mkEntity "Person" "Bob" "actor-1") Sample.world
     = (Ok (StixNote.extend_objects
              (Sample.configured {["actor-1"]} false true false None)
              [stix2.ThreatActor "threat-actor--Bob" "Bob"
                 "identity--Recorded Future:organization"]),
        Sample.world).
Proof.
  split; [|split].
  - exact (proj1 (dispatch_branch_order Sample.ext
                    (Sample.configured {["actor-1"]} true true false None)
                    (mkEntity "Person" "Alice" "person-1") Sample.world)
             eq_refl eq_refl).
  - refine (proj1 (proj2 (dispatch_branch_order Sample.ext
                            (Sample.configured {["actor-1"]} false true false None)
                            (mkEntity "Organization" "APT0" "actor-1") Sample.world)
                     _ _) eq_refl _).
    + cbn. intros [H _]. discriminate H.
    + cbn. apply elem_of_singleton. reflexivity.
    + cbn. discriminate.
  - refine (proj2 (proj2 (dispatch_branch_order Sample.ext
                            (Sample.configured {["actor-1"]} false true false None)
                            (mkEntity "Person" "Bob" "actor-1") Sample.world)
                     _ _) _).
    + cbn. intros [H _]. discriminate H.
    + cbn. apply elem_of_singleton. reflexivity.
    + cbn. intros [_ H]. now apply H.
Defined.

(** ** Relationship inference *)

(** Every element of a collected list comes from one element of the input. *)
Lemma collect_In {A B} (f : A -> result (list B)) (l : list A) (r : list B) (y : B) :
  collect f l = Ok r -> In y r ->
  exists x ys, In x l /\ f x = Ok ys /\ In y ys.
Proof.
  revert r. induction l as [|x l IH]; intros r Hcollect Hy.
  - injection Hcollect as <-. contradiction.
  - cbn [collect] in Hcollect.
    destruct (f x) as [ys|err] eqn:Hfx; [|discriminate].
    destruct (collect f l) as [zs|err] eqn:Hrest; [|discriminate].
    injection Hcollect as <-. apply in_app_or in Hy as [Hy|Hy].
    + exists x, ys. repeat split; [now left | assumption..].
    + destruct (IH zs eq_refl Hy) as (x' & ys' & Hin & Hfx' & Hy').
      exists x', ys'. repeat split; [now right | assumption..].
Qed.

(** Collecting succeeds when every step does. *)
Lemma collect_total {A B} (f : A -> result (list B)) (l : list A) :
  (forall x, In x l -> exists ys, f x = Ok ys) ->
  exists r, collect f l = Ok r.
Proof.
  induction l as [|x l IH]; intros Hf.
  - now exists [].
  - destruct (Hf x (or_introl eq_refl)) as [ys Hys].
    destruct IH as [zs Hzs]; [intros x' Hx'; apply Hf; now right|].
    exists (ys ++ zs)%list. cbn [collect]. now rewrite Hys, Hzs.
Qed.

(** Only an [Identity] object has the type [identity]. *)
Lemma identity_type_inv (o : stix2.StixObject) :
  stix2.type o = "identity" ->
  exists i n c a, o = stix2.Identity i n c a.
Proof. destruct o; cbn; intros H; try discriminate H. now eexists _, _, _, _. Qed.

(** The innermost loop body never fails on a target of the type the rule
    names, and what it emits is the edge to that target, an identity
    being a target only when its class is [class]. *)
Lemma relate_spec (ext : Collaborators) (self : StixNote.t)
    (source_entity target_entity : stix2.StixObject) (to_entity : ToEntity) :
  stix2.type target_entity = entity to_entity ->
  exists edges,
    StixNote.relate ext self source_entity to_entity target_entity = Ok edges
    /\ forall r, In r edges ->
         r = StixNote._create_rel ext self (stix2.id source_entity)
               (stix2.id target_entity) (relation to_entity)
         /\ (stix2.type target_entity = "identity" ->
             stix2.identity_class target_entity = Ok "class").
Proof.
  intros Htype. unfold StixNote.relate.
  destruct (String.eqb_spec (entity to_entity) "identity") as [Hid|Hid]; cbn [negb].
  - destruct (identity_type_inv target_entity) as (i & n & c & a & ->);
      [congruence|].
    cbn [stix2.identity_class bind_result].
    destruct (String.eqb_spec c "class") as [->|Hclass].
    + eexists. split; [reflexivity|]. intros r [<-|[]]. now split.
    + exists []. split; [reflexivity|]. intros r [].
  - cbn [bind_result]. eexists. split; [reflexivity|].
    intros r [<-|[]]. split; [reflexivity|]. congruence.
Qed.

(** No adjacency rule starts from an identity. *)
Lemma rule_sources (rule : Rule) :
  In rule StixNote.RELATIONSHIPS_MAPPER -> from_ rule <> "identity".
Proof.
  cbn. intros [<-|[<-|[<-|[<-|[]]]]]; cbn; discriminate.
Qed.

(** The edges one source entity gives. *)
Lemma relations_from_spec (ext : Collaborators) (self : StixNote.t)
    (source_entity : stix2.StixObject) :
  exists edges,
    StixNote.relations_from ext self source_entity = Ok edges
    /\ forall r, In r edges ->
         exists target_entity to_entity,
           In target_entity (StixNote.objects self)
           /\ r = StixNote._create_rel ext self (stix2.id source_entity)
                    (stix2.id target_entity) (relation to_entity)
           /\ stix2.type target_entity = entity to_entity
           /\ (stix2.type target_entity = "identity" ->
               stix2.identity_class target_entity = Ok "class")
           /\ stix2.type source_entity <> "identity".
Proof.
  unfold StixNote.relations_from.
  destruct (List.filter _ StixNote.RELATIONSHIPS_MAPPER) as [|first rest] eqn:Hrules.
  - exists []. split; [reflexivity|]. intros r [].
  - assert (Hfirst : In first (List.filter
              (fun obj => String.eqb (from_ obj) (stix2.type source_entity))
              StixNote.RELATIONSHIPS_MAPPER)) by (rewrite Hrules; now left).
    apply filter_In in Hfirst as [Hrule Hfrom].
    apply String.eqb_eq in Hfrom.
    pose proof (rule_sources first Hrule) as Hsource. rewrite Hfrom in Hsource.
    set (inner := fun to_entity : ToEntity =>
           collect (StixNote.relate ext self source_entity to_entity)
             (List.filter (fun obj => String.eqb (stix2.type obj) (entity to_entity))
                (StixNote.objects self))).
    assert (Hinner : forall to_entity, exists edges,
              inner to_entity = Ok edges
              /\ forall r, In r edges ->
                   exists target_entity,
                     In target_entity (StixNote.objects self)
                     /\ r = StixNote._create_rel ext self (stix2.id source_entity)
                              (stix2.id target_entity) (relation to_entity)
                     /\ stix2.type target_entity = entity to_entity
                     /\ (stix2.type target_entity = "identity" ->
                         stix2.identity_class target_entity = Ok "class")).
    { intros to_entity. unfold inner.
      destruct (collect_total (StixNote.relate ext self source_entity to_entity)
                  (List.filter (fun obj => String.eqb (stix2.type obj) (entity to_entity))
                     (StixNote.objects self))) as [edges Hedges].
      - intros t Ht. apply filter_In in Ht as [_ Ht]. apply String.eqb_eq in Ht.
        destruct (relate_spec ext self source_entity t to_entity Ht) as (ys & Hys & _).
        now exists ys.
      - exists edges. split; [exact Hedges|]. intros r Hr.
        destruct (collect_In _ _ _ _ Hedges Hr) as (t & ys & Ht & Hys & Hry).
        apply filter_In in Ht as [Hobj Ht]. apply String.eqb_eq in Ht.
        destruct (relate_spec ext self source_entity t to_entity Ht) as (ys' & Hys' & Hspec).
        rewrite Hys in Hys'. injection Hys' as <-.
        destruct (Hspec r Hry) as [-> Hclass]. now exists t. }
    destruct (collect_total inner (to_ first)) as [edges Hedges].
    { intros to_entity _. destruct (Hinner to_entity) as (ys & Hys & _). now exists ys. }
    exists edges. split; [exact Hedges|]. intros r Hr.
    destruct (collect_In _ _ _ _ Hedges Hr) as (to_entity & ys & _ & Hys & Hry).
    destruct (Hinner to_entity) as (ys' & Hys' & Hspec).
    rewrite Hys in Hys'. injection Hys' as <-.
    destruct (Hspec r Hry) as (t & Hobj & -> & Htype & Hclass).
    now exists t, to_entity.
Qed.

(** C6, as the code has it. [create_relations] never fails, and every edge
    it emits links a source entity and a target entity of the object list:
    the target has the type the adjacency rule names, a target of type
    [identity] has the identity class [class], and the source is never an
    identity, no rule having [identity] as its [from] type. *)
Theorem relations_target_class_identities_only (ext : Collaborators) (self : StixNote.t) :
  exists relationships,
    StixNote.create_relations ext self
    = Ok (StixNote.extend_objects self relationships)
    /\ forall r, In r relationships ->
         exists source_entity target_entity to_entity,
           In source_entity (StixNote.objects self)
           /\ In target_entity (StixNote.objects self)
           /\ r = StixNote._create_rel ext self (stix2.id source_entity)
                    (stix2.id target_entity) (relation to_entity)
           /\ stix2.type target_entity = entity to_entity
           /\ (stix2.type target_entity = "identity" ->
               stix2.identity_class target_entity = Ok "class")
           /\ stix2.type source_entity <> "identity".
Proof.
  unfold StixNote.create_relations.
  destruct (collect_total (StixNote.relations_from ext self) (StixNote.objects self))
    as [edges Hedges].
  { intros s _. destruct (relations_from_spec ext self s) as (ys & Hys & _).
    now exists ys. }
  exists edges. rewrite Hedges. split; [reflexivity|]. intros r Hr.
  destruct (collect_In _ _ _ _ Hedges Hr) as (s & ys & Hs & Hys & Hry).
  destruct (relations_from_spec ext self s) as (ys' & Hys' & Hspec).
  rewrite Hys in Hys'. injection Hys' as <-.
  destruct (Hspec r Hry) as (t & to_entity & Ht & -> & Htype & Hclass & Hsource).
  now exists s, t, to_entity.
Qed.

(** C6, as the claim has it, fails in its last part: no session has an
    identity object, of any class, from which the inference emits an
    edge. *)
Lemma identity_is_never_an_edge_source :
  ~ exists (ext : Collaborators) (self : StixNote.t) (source_entity : stix2.StixObject),
      stix2.type source_entity = "identity"
      /\ StixNote.relations_from ext self source_entity <> Ok [].
Proof.
  intros (ext & self & s & Htype & Hedges). apply Hedges.
  unfold StixNote.relations_from. rewrite Htype. reflexivity.
Qed.

(** ** The session across a conversion *)

Lemma grown_refl (a : StixNote.t) : grown a a.
Proof.
  repeat split; try reflexivity.
  - exists []. now rewrite app_nil_r.
  - exists []. now rewrite app_nil_r.
Qed.

Lemma grown_trans (a b c : StixNote.t) : grown a b -> grown b c -> grown a c.
Proof.
  intros (A1 & A2 & A3 & A4 & A5 & A6 & A7 & A8 & A9 & A10 & A11 & A12
          & [o1 Ho1] & [r1 [Hr1 Hf1]])
         (B1 & B2 & B3 & B4 & B5 & B6 & B7 & B8 & B9 & B10 & B11 & B12
          & [o2 Ho2] & [r2 [Hr2 Hf2]]).
  repeat split; try congruence.
  - exists (o1 ++ o2)%list. now rewrite Ho2, Ho1, app_assoc.
  - exists (r1 ++ r2)%list. split; [now rewrite Hr2, Hr1, app_assoc|].
    apply Forall_app. now split.
Qed.

Lemma grown_extend (a : StixNote.t) (objs : list stix2.StixObject) :
  grown a (StixNote.extend_objects a objs).
Proof.
  repeat split; try reflexivity.
  - now exists objs.
  - exists []. now rewrite app_nil_r.
Qed.

Lemma grown_source (a : StixNote.t) (name : string) :
  grown a (StixNote.set_external_references a
             (StixNote.external_references a ++ [mkExternalReference name name])).
Proof.
  repeat split; try reflexivity.
  - exists []. now rewrite app_nil_r.
  - exists [mkExternalReference name name]. split; [reflexivity|].
    now constructor.
Qed.

#[local] Hint Resolve grown_refl grown_extend grown_source : core.

Lemma convert_entity_grown (ext : Collaborators) (self self' : StixNote.t)
    (e : Entity) (w w' : World) :
  StixNote.convert_entity ext self e w = (Ok self', w') -> grown self self'.
Proof.
  unfold StixNote.convert_entity.
  repeat match goal with
  | |- context [if ?b then _ else _] => destruct b
  end;
  try (rewrite bind_run;
       destruct (StixNote.build_entity _ _ _ _ _ _) as [[objs|err] w1];
       [|discriminate]; intros H; injection H as <- _; now auto).
  - intros H; injection H as <- _; now auto.
  - destruct (ENTITY_TYPE_MAPPER !! entity_type e) as [builder|].
    + rewrite bind_run. unfold lift.
      destruct (construct builder _ _ _) as [rf_object|err]; [|discriminate].
      rewrite bind_run.
      destruct (StixNote.score_indicator _ _ _ _ _ _) as [[[scored|]|err] w1];
        try discriminate.
      * rewrite bind_run.
        destruct (rf_to_stix_objects _ _ _) as [[objs|err] w2]; [|discriminate].
        intros H; injection H as <- _; now auto.
      * intros H; injection H as <- _; now auto.
    + rewrite bind_run. cbn. intros H; injection H as <- _; now auto.
  - destruct (ENTITY_TYPE_MAPPER !! entity_type e) as [builder|].
    + rewrite bind_run. unfold lift.
      destruct (construct builder _ _ _) as [rf_object|err]; [|discriminate].
      rewrite bind_run. unfold ret at 1. rewrite bind_run.
      destruct (rf_to_stix_objects _ _ _) as [[objs|err] w2]; [|discriminate].
      intros H; injection H as <- _; now auto.
    + rewrite bind_run. cbn. intros H; injection H as <- _; now auto.
Qed.

Lemma convert_entities_grown (ext : Collaborators) (entities : list Entity) :
  forall (self self' : StixNote.t) (w w' : World),
    StixNote.convert_entities ext self entities w = (Ok self', w') -> grown self self'.
Proof.
  induction entities as [|e entities IH]; intros self self' w w'.
  - intros H. injection H as <- _. apply grown_refl.
  - cbn [StixNote.convert_entities]. rewrite bind_run.
    destruct (StixNote.convert_entity ext self e w) as [[self1|err] w1] eqn:Hone;
      [|discriminate].
    intros Hrest. apply (grown_trans self self1 self').
    + exact (convert_entity_grown ext self self1 e w w1 Hone).
    + exact (IH self1 self' w1 w' Hrest).
Qed.

(** The session [from_json] returns has grown from the session the head
    of [from_json] sets up. *)
Lemma from_json_grown (ext : Collaborators) (self self' : StixNote.t) (note : Note)
    (w w' : World) :
  StixNote.from_json ext self note w = (Ok self', w') ->
  exists refs report_types,
    StixNote._generate_external_references (validation_urls note) = Ok refs
    /\ grown (StixNote.set_metadata self (title note) (note_text note)
                (note_published note) refs report_types
                (map topic_name (topic note))) self'.
Proof.
  unfold StixNote.from_json. rewrite bind_run. unfold lift.
  destruct (StixNote._generate_external_references (validation_urls note))
    as [refs|err]; [|discriminate].
  rewrite bind_run.
  unfold StixNote._create_report_types at 1. rewrite bind_run.
  rewrite report_types_loop_spec. unfold ret at 1. rewrite bind_run.
  match goal with
  | |- context [StixNote.convert_entities ext ?s (note_entities note) ?w1] =>
      destruct (StixNote.convert_entities ext s (note_entities note) w1)
        as [[self1|err] w2] eqn:Hloop; [|discriminate];
      apply convert_entities_grown in Hloop
  end.
  destruct (note_attachment note) as [a|].
  - rewrite bind_run. unfold lift.
    destruct (DetectionRule.__init__ _ _ _ _) as [rule|err]; [|discriminate].
    rewrite bind_run.
    destruct (DetectionRule.to_stix_objects ext rule w2) as [[r|err] w3]; [|discriminate].
    intros H. injection H as <- _. do 2 eexists. split; [reflexivity|].
    eapply grown_trans; [exact Hloop | apply grown_extend].
  - intros H. injection H as <- _. do 2 eexists. split; [reflexivity | exact Hloop].
Qed.

(** ** Referential closure *)

Lemma refs_within_app (ids : list string) (l1 l2 : list stix2.StixObject) :
  refs_within ids l1 -> refs_within ids l2 -> refs_within ids (l1 ++ l2)%list.
Proof.
  intros H1 H2 o Ho. apply in_app_or in Ho as [Ho|Ho]; [now apply H1 | now apply H2].
Qed.

Lemma refs_within_mono (ids ids' : list string) (l : list stix2.StixObject) :
  (forall i, In i ids -> In i ids') -> refs_within ids l -> refs_within ids' l.
Proof.
  intros Hsub Hl o Ho. specialize (Hl o Ho).
  destruct o; try exact I. destruct Hl as [Hs Ht]. split; now apply Hsub.
Qed.

(** Edges between the objects of [l1] keep a closed list closed. *)
Lemma closed_app_edges (l1 l2 : list stix2.StixObject) :
  closed l1 -> refs_within (map stix2.id l1) l2 -> closed (l1 ++ l2)%list.
Proof.
  intros H1 H2. unfold closed. rewrite map_app.
  apply refs_within_app;
    (eapply refs_within_mono; [|eassumption]);
    intros i Hi; apply in_or_app; now left.
Qed.

Lemma closed_app (l1 l2 : list stix2.StixObject) :
  closed l1 -> closed l2 -> closed (l1 ++ l2)%list.
Proof.
  intros H1 H2. unfold closed. rewrite map_app.
  apply refs_within_app;
    (eapply refs_within_mono; [|eassumption]);
    intros i Hi; apply in_or_app; [now left | now right].
Qed.

(** An object that is no relationship is closed on its own. *)
Lemma closed_single (o : stix2.StixObject) :
  stix2.source_ref o = None -> closed [o].
Proof.
  intros Hsrc o' [<-|[]]. destruct o; try exact I. discriminate Hsrc.
Qed.

(** The three objects of an indicator are closed. *)
Lemma closed_triple (ext : Collaborators) (ind obs : stix2.StixObject) (author : string) :
  stix2.source_ref ind = None -> stix2.source_ref obs = None ->
  closed [ind; obs;
          stix2.Relationship
            (StixCoreRelationship_generate_id ext "based-on" (stix2.id ind) (stix2.id obs))
            "based-on" (stix2.id ind) (stix2.id obs) author].
Proof.
  intros Hind Hobs o [<-|[<-|[<-|[]]]].
  - destruct ind; try exact I. discriminate Hind.
  - destruct obs; try exact I. discriminate Hobs.
  - cbn. auto.
Qed.

Lemma entity_to_stix_objects_closed (ext : Collaborators) (e : RFStixEntity.t)
    (objs : list stix2.StixObject) (e' : RFStixEntity.t) :
  RFStixEntity.stix_obj e = None ->
  RFStixEntity.to_stix_objects ext e = Ok (objs, e') -> closed objs.
Proof.
  intros Hfresh. unfold RFStixEntity.to_stix_objects. rewrite Hfresh. cbn [built negb].
  unfold RFStixEntity.create_stix_objects.
  destruct (RFStixEntity.cls e); cbn [bind_result];
    try (intros H; injection H as <- _; now apply closed_single).
  destruct (RFStixEntity.create_id_class e) as [c|err]; cbn [bind_result];
    [|discriminate].
  intros H; injection H as <- _; now apply closed_single.
Qed.

Lemma build_entity_closed (ext : Collaborators) (c : RFStixEntity.Class)
    (name type_ : string) (author : stix2.StixObject) (w w' : World)
    (objs : list stix2.StixObject) :
  StixNote.build_entity ext c name type_ author w = (Ok objs, w') -> closed objs.
Proof.
  unfold StixNote.build_entity. rewrite bind_run. unfold lift.
  destruct (RFStixEntity.to_stix_objects ext _) as [[objs' e']|err] eqn:Hbuild;
    [|discriminate].
  intros H. injection H as <- _. cbn [fst].
  eapply entity_to_stix_objects_closed; [|exact Hbuild]. reflexivity.
Qed.

Lemma construct_fresh (b : Builder) (name type_ : string) (author : stix2.StixObject)
    (o : RFObject) :
  construct b name type_ author = Ok o -> fresh o.
Proof.
  unfold construct. destruct b; cbn;
    try (intros H; injection H as <-; reflexivity).
  - unfold FileHash.__init__.
    destruct (FileHash._determine_algorithm name); cbn; [|discriminate].
    intros H; injection H as <-; reflexivity.
  - unfold Location.__init__.
    destruct (Location.rf_type_to_stix !! type_); cbn; [|discriminate].
    intros H; injection H as <-; reflexivity.
Qed.

Lemma fresh_set_risk_score (o : RFObject) (score : option Z) :
  fresh o -> fresh (rf_set_risk_score o score).
Proof. destruct o; cbn; auto. Qed.

Lemma rf_to_stix_objects_closed (ext : Collaborators) (o : RFObject) (w w' : World)
    (objs : list stix2.StixObject) :
  fresh o -> rf_to_stix_objects ext o w = (Ok objs, w') -> closed objs.
Proof.
  destruct o as [i|e|s|l|c]; cbn [fresh rf_to_stix_objects]; intros Hfresh;
    rewrite bind_run.
  - destruct (Indicator.to_stix_objects ext i w) as [[[objs' i']|err] w1] eqn:Hcall;
      [|discriminate].
    intros H. injection H as <- _. cbn [fst].
    apply indicator_to_stix_objects_inv in Hcall
      as (ind & obs & rel & -> & -> & _ & Hbuilt).
    destruct Hbuilt as [Hcreate Haccepts]; [unfold cached; now rewrite Hfresh|].
    destruct (indicator_create_stix_objects ext i w Haccepts)
      as (ind' & obs' & rel' & Hcreate' & _ & Hind & _ & Hobs & _ & Hrel).
    rewrite Hcreate in Hcreate'. injection Hcreate' as <- <- <- _.
    rewrite Hrel. apply closed_triple; [|exact Hobs].
    rewrite Hind. reflexivity.
  - unfold lift.
    destruct (RFStixEntity.to_stix_objects ext e) as [[objs' e']|err] eqn:Hbuild;
      [|discriminate].
    intros H. injection H as <- _.
    eapply entity_to_stix_objects_closed; eassumption.
  - unfold Software.to_stix_objects. rewrite Hfresh. cbn.
    intros H. injection H as <- _. now apply closed_single.
  - unfold Location.to_stix_objects. rewrite Hfresh. cbn.
    intros H. injection H as <- _. now apply closed_single.
  - unfold Campaign.to_stix_objects. rewrite Hfresh. cbn.
    intros H. injection H as <- _. now apply closed_single.
Qed.

Lemma score_indicator_fresh (ext : Collaborators) (self : StixNote.t)
    (type_ name : string) (o o' : RFObject) (w w' : World) :
  fresh o ->
  StixNote.score_indicator ext self type_ name o w = (Ok (Some o'), w') -> fresh o'.
Proof.
  intros Hfresh. unfold StixNote.score_indicator. rewrite bind_run.
  match goal with
  | |- context [match ?gate w with _ => _ end] =>
      destruct (gate w) as [[[risk_score|]|err] w1]
  end; try discriminate.
  destruct (StixNote.risk_as_score self).
  - rewrite bind_run.
    match goal with
    | |- context [match ?fetch w1 with _ => _ end] =>
        destruct (fetch w1) as [[score|err] w2]
    end; [|discriminate].
    intros H. injection H as <- _. now apply fresh_set_risk_score.
  - intros H. injection H as <- _. exact Hfresh.
Qed.

(** One turn of the dispatcher keeps the object list closed. *)
Lemma convert_entity_closed (ext : Collaborators) (self self' : StixNote.t)
    (e : Entity) (w w' : World) :
  closed (StixNote.objects self) ->
  StixNote.convert_entity ext self e w = (Ok self', w') ->
  closed (StixNote.objects self').
Proof.
  intros Hclosed. unfold StixNote.convert_entity.
  assert (Hbuild : forall c,
    (do stix_objs <- StixNote.build_entity ext c (entity_name e) (entity_type e)
                       (StixNote.author self);
     ret (StixNote.extend_objects self stix_objs))%world w = (Ok self', w') ->
    closed (StixNote.objects self')).
  { intros c. rewrite bind_run.
    destruct (StixNote.build_entity ext c _ _ _ w) as [[objs|err] w1] eqn:Hobjs;
      [|discriminate].
    intros H. injection H as <- _. cbn.
    apply closed_app; [exact Hclosed|]. eapply build_entity_closed, Hobjs. }
  destruct (StixNote.person_to_ta self && String.eqb (entity_type e) "Person");
    [apply Hbuild|].
  destruct (bool_decide (entity_id e ∈ StixNote.tas self)).
  { destruct (StixNote.ta_to_intrusion_set self
              && negb (String.eqb (entity_type e) "Person")); apply Hbuild. }
  destruct (String.eqb (entity_type e) "Source").
  { intros H. injection H as <- _. exact Hclosed. }
  destruct (ENTITY_TYPE_MAPPER !! entity_type e) as [builder|].
  - rewrite bind_run. unfold lift.
    destruct (construct builder _ _ _) as [rf_object|err] eqn:Hconstruct;
      [|discriminate].
    apply construct_fresh in Hconstruct. rewrite bind_run.
    assert (Hrun : forall o w1,
      fresh o ->
      (do stix_objs <- rf_to_stix_objects ext o;
       ret (StixNote.extend_objects self stix_objs))%world w1 = (Ok self', w') ->
      closed (StixNote.objects self')).
    { intros o w1 Ho. rewrite bind_run.
      destruct (rf_to_stix_objects ext o w1) as [[objs|err] w2] eqn:Hobjs;
        [|discriminate].
      intros H. injection H as <- _. cbn.
      apply closed_app; [exact Hclosed|].
      eapply rf_to_stix_objects_closed; eassumption. }
    destruct (StixNote.is_indicator_type (entity_type e)).
    + destruct (StixNote.score_indicator ext self _ _ rf_object w)
        as [[[scored|]|err] w1] eqn:Hscore; try discriminate.
      * apply Hrun. eapply score_indicator_fresh; eassumption.
      * intros H. injection H as <- _. exact Hclosed.
    + apply Hrun. exact Hconstruct.
  - rewrite bind_run. cbn. intros H. injection H as <- _. exact Hclosed.
Qed.

Lemma convert_entities_closed (ext : Collaborators) (entities : list Entity) :
  forall (self self' : StixNote.t) (w w' : World),
    closed (StixNote.objects self) ->
    StixNote.convert_entities ext self entities w = (Ok self', w') ->
    closed (StixNote.objects self').
Proof.
  induction entities as [|e entities IH]; intros self self' w w' Hclosed.
  - intros H. injection H as <- _. exact Hclosed.
  - cbn [StixNote.convert_entities]. rewrite bind_run.
    destruct (StixNote.convert_entity ext self e w) as [[self1|err] w1] eqn:Hone;
      [|discriminate].
    apply IH. eapply convert_entity_closed; eassumption.
Qed.

(** The dispatcher keeps the object list closed. *)
Lemma from_json_closed (ext : Collaborators) (self self' : StixNote.t) (note : Note)
    (w w' : World) :
  closed (StixNote.objects self) ->
  StixNote.from_json ext self note w = (Ok self', w') ->
  closed (StixNote.objects self').
Proof.
  intros Hclosed. unfold StixNote.from_json. rewrite bind_run. unfold lift.
  destruct (StixNote._generate_external_references (validation_urls note))
    as [refs|err]; [|discriminate].
  rewrite bind_run.
  destruct (StixNote._create_report_types (topic note) w) as [[types|err] w1];
    [|discriminate].
  rewrite bind_run.
  destruct (StixNote.convert_entities ext _ (note_entities note) w1)
    as [[self1|err] w2] eqn:Hentities; [|discriminate].
  apply convert_entities_closed in Hentities; [|exact Hclosed].
  destruct (note_attachment note) as [a|].
  - rewrite bind_run.
    destruct (DetectionRule.__init__ _ _ _ _) as [rule|err] eqn:Hrule; [|discriminate].
    rewrite bind_run.
    assert (DetectionRule.stix_obj rule = None) as Hfresh.
    { unfold DetectionRule.__init__ in Hrule.
      destruct (DetectionRule.display_name (attachment a)); cbn in Hrule;
        [|discriminate].
      destruct (negb _); [discriminate|]. now injection Hrule as <-. }
    unfold DetectionRule.to_stix_objects. rewrite Hfresh. cbn.
    intros H. injection H as <- _. cbn.
    apply closed_app; [exact Hentities|]. now apply closed_single.
  - intros H. injection H as <- _. exact Hentities.
Qed.

(** The inference never fails and keeps the object list closed: both ends
    of every new edge are ids of the list. *)
Lemma create_relations_closed (ext : Collaborators) (self : StixNote.t) :
  closed (StixNote.objects self) ->
  exists self',
    StixNote.create_relations ext self = Ok self'
    /\ closed (StixNote.objects self').
Proof.
  intros Hclosed. unfold StixNote.create_relations.
  destruct (collect_total (StixNote.relations_from ext self) (StixNote.objects self))
    as [edges Hedges].
  { intros s _. destruct (relations_from_spec ext self s) as (ys & Hys & _).
    now exists ys. }
  rewrite Hedges. eexists. split; [reflexivity|]. cbn.
  apply closed_app_edges; [exact Hclosed|]. intros r Hr.
  destruct (collect_In _ _ _ _ Hedges Hr) as (s & ys & Hs & Hys & Hry).
  destruct (relations_from_spec ext self s) as (ys' & Hys' & Hspec).
  rewrite Hys in Hys'. injection Hys' as <-.
  destruct (Hspec r Hry) as (t & to_entity & Ht & -> & _).
  cbn. split; now apply in_map.
Qed.

(** What [StixNote.report] needs of the session: a name, and a date the
    library reads. *)
Lemma report_returns (ext : Collaborators) (self : StixNote.t) :
  (exists report, StixNote.report ext self = Ok report)
  <-> StixNote.name self <> None
      /\ match StixNote.published self with
         | Now _ => True
         | Given stamp => stix2_timestamp_valid ext stamp = true
         end.
Proof.
  unfold StixNote.report, stix2.new_Report.
  destruct (StixNote.name self) as [name|].
  - destruct (StixNote.published self) as [tick|stamp].
    + split; [now split | intros _; now eexists].
    + destruct (stix2_timestamp_valid ext stamp).
      * split; [now split | intros _; now eexists].
      * split; [intros [report H]; discriminate H | intros [_ H]; discriminate H].
  - split; [intros [report H]; discriminate H | intros [H _]; now contradiction H].
Qed.

(** The report, when the library builds it, is made of the fields of the
    session. *)
Lemma report_inv (ext : Collaborators) (self : StixNote.t) (report : stix2.StixObject) :
  StixNote.report ext self = Ok report ->
  report = stix2.Report
             (Report_generate_id ext (StixNote.name self) (StixNote.published self))
             (StixNote.name self) (StixNote.text self) (StixNote.published self)
             (stix2.id (StixNote.author self)) (stix2.kept (StixNote.labels self))
             (stix2.kept (StixNote.report_types self))
             (map stix2.id (StixNote.objects self) ++ [stix2.id (StixNote.author self)])
             (StixNote.external_references self) (StixNote.tlp self).
Proof.
  unfold StixNote.report, stix2.new_Report.
  destruct (StixNote.name self); [|discriminate].
  destruct (match StixNote.published self with
            | Now _ => true
            | Given stamp => stix2_timestamp_valid ext stamp
            end); [|discriminate].
  intros H. now injection H as <-.
Qed.

(** C1. For a session made by [StixNote.__init__] whose object list the
    dispatcher [from_json] filled: [create_relations] succeeds;
    [to_stix_objects] then returns exactly when the library reads the
    publication date of the note as a timestamp, and raises otherwise.
    When it returns, the report it built is in the list, and the report
    lists the id of every object of the running list and the id of the
    author; both ends of every relationship of the list, the based-on
    edges of the indicators and the inferred edges alike, are among these
    references. *)
Theorem report_object_refs_closed (ext : Collaborators) (tas : gset string)
    (tlp : string) (person_to_ta ta_to_intrusion_set risk_as_score : bool)
    (risk_threshold : option Z) (note : Note) (w0 w1 w2 : World)
    (self0 self1 : StixNote.t) :
  StixNote.__init__ ext tas tlp person_to_ta ta_to_intrusion_set risk_as_score
    risk_threshold w0 = (Ok self0, w1) ->
  StixNote.from_json ext self0 note w1 = (Ok self1, w2) ->
  exists self2,
    StixNote.create_relations ext self1 = Ok self2
    /\ ((exists objs, StixNote.to_stix_objects ext self2 = Ok objs)
        <-> stix2_timestamp_valid ext (note_published note) = true)
    /\ (stix2_timestamp_valid ext (note_published note) = false ->
        StixNote.to_stix_objects ext self2 = Raise (InvalidValueError "published"))
    /\ forall objs,
         StixNote.to_stix_objects ext self2 = Ok objs ->
         exists report,
           StixNote.report ext self2 = Ok report
           /\ In (Some report) objs
           /\ stix2.type report = "report"
           /\ stix2.object_refs report
              = (map stix2.id (StixNote.objects self2)
                 ++ [stix2.id (StixNote.author self2)])%list
           /\ (forall o, In o (StixNote.objects self2) ->
                 In (stix2.id o) (stix2.object_refs report))
           /\ In (stix2.id (StixNote.author self2)) (stix2.object_refs report)
           /\ (forall r s t, In r (StixNote.objects self2) ->
                 stix2.source_ref r = Some s -> stix2.target_ref r = Some t ->
                 In s (stix2.object_refs report) /\ In t (stix2.object_refs report)).
Proof.
  intros Hinit Hjson.
  assert (closed (StixNote.objects self0)) as Hclosed0.
  { unfold StixNote.__init__ in Hinit. rewrite bind_run in Hinit. cbn in Hinit.
    injection Hinit as <- _. intros o []. }
  pose proof (from_json_closed ext self0 self1 note w1 w2 Hclosed0 Hjson) as Hclosed1.
  destruct (from_json_grown ext self0 self1 note w1 w2 Hjson)
    as (refs & report_types & _ & Hgrown).
  destruct Hgrown as (_ & Hname & _ & Hpublished & _).
  change (StixNote.name self1 = Some (title note)) in Hname.
  change (StixNote.published self1 = Given (note_published note)) in Hpublished.
  destruct (create_relations_closed ext self1 Hclosed1) as (self2 & Hrel & Hclosed2).
  assert (StixNote.name self2 = Some (title note)
          /\ StixNote.published self2 = Given (note_published note)) as [Hname2 Hpublished2].
  { unfold StixNote.create_relations in Hrel.
    destruct (collect _ _) as [edges|err]; [|discriminate].
    injection Hrel as <-. now split. }
  exists self2. split; [exact Hrel|].
  assert (Hreturns : (exists objs, StixNote.to_stix_objects ext self2 = Ok objs)
                     <-> stix2_timestamp_valid ext (note_published note) = true).
  { unfold StixNote.to_stix_objects.
    pose proof (report_returns ext self2) as Hreport.
    rewrite Hname2, Hpublished2 in Hreport. split.
    - intros [objs Hobjs].
      destruct (StixNote.report ext self2) as [report|err]; [|discriminate].
      apply Hreport. now exists report.
    - intros Hvalid. destruct (proj2 Hreport) as [report ->]; [now split|].
      now eexists. }
  split; [exact Hreturns|]. split.
  { intros Hinvalid. unfold StixNote.to_stix_objects, StixNote.report, stix2.new_Report.
    now rewrite Hname2, Hpublished2, Hinvalid. }
  intros objs Hobjs. unfold StixNote.to_stix_objects in Hobjs.
  destruct (StixNote.report ext self2) as [report|err] eqn:Hreport; [|discriminate].
  injection Hobjs as <-. exists report. split; [reflexivity|].
  rewrite (report_inv ext self2 report Hreport). cbn [stix2.object_refs stix2.type].
  split; [apply in_or_app; right; now left|].
  split; [reflexivity|]. split; [reflexivity|]. split; [|split].
  - intros o Ho. apply in_or_app. left. now apply in_map.
  - apply in_or_app. right. now left.
  - intros r s t Hr Hs Ht. specialize (Hclosed2 r Hr).
    destruct r; try discriminate Hs. cbn in Hs, Ht.
    injection Hs as <-. injection Ht as <-. destruct Hclosed2 as [Hsrc Htgt].
    split; apply in_or_app; now left.
Qed.

Lemma report_object_refs_closed_witness :
  StixNote.__init__ Sample.ext ∅ "white" false false false None Sample.world
  = (Ok Sample.session, Sample.started)
  /\ StixNote.from_json Sample.ext Sample.session Sample.note Sample.started
     = (Ok Sample.converted, Sample.converted_world)
  /\ stix2_timestamp_valid Sample.ext (note_published Sample.note) = true
  /\ exists self2,
       StixNote.create_relations Sample.ext Sample.converted = Ok self2
       /\ ((exists objs, StixNote.to_stix_objects Sample.ext self2 = Ok objs)
           <-> stix2_timestamp_valid Sample.ext (note_published Sample.note) = true)
       /\ (stix2_timestamp_valid Sample.ext (note_published Sample.note) = false ->
           StixNote.to_stix_objects Sample.ext self2
           = Raise (InvalidValueError "published"))
       /\ forall objs,
            StixNote.to_stix_objects Sample.ext self2 = Ok objs ->
            exists report,
              StixNote.report Sample.ext self2 = Ok report
              /\ In (Some report) objs
              /\ stix2.type report = "report"
              /\ stix2.object_refs report
                 = (map stix2.id (StixNote.objects self2)
                    ++ [stix2.id (StixNote.author self2)])%list
              /\ (forall o, In o (StixNote.objects self2) ->
                    In (stix2.id o) (stix2.object_refs report))
              /\ In (stix2.id (StixNote.author self2)) (stix2.object_refs report)
              /\ (forall r s t, In r (StixNote.objects self2) ->
                    stix2.source_ref r = Some s -> stix2.target_ref r = Some t ->
                    In s (stix2.object_refs report)
                    /\ In t (stix2.object_refs report)).
Proof.
  split; [vm_compute; reflexivity|].
  split; [vm_compute; reflexivity|].
  split; [reflexivity|].
  apply (report_object_refs_closed Sample.ext ∅ "white" false false false None
           Sample.note Sample.world Sample.started Sample.converted_world
           Sample.session Sample.converted).
  - vm_compute. reflexivity.
  - vm_compute. reflexivity.
Defined.

(** ** The author of the objects *)

(** The builders that keep [RFStixEntity.__init__] give their object the
    author of the session. *)
Lemma entity_created_by_ref (ext : Collaborators) (c : RFStixEntity.Class)
    (name type_ : string) (author : stix2.StixObject)
    (objs : list stix2.StixObject) (e : RFStixEntity.t) :
  RFStixEntity.to_stix_objects ext (RFStixEntity.__init__ c name type_ author)
  = Ok (objs, e) ->
  forall o, In o objs -> stix2.created_by_ref o = Some (stix2.id author).
Proof.
  unfold RFStixEntity.to_stix_objects, RFStixEntity.create_stix_objects,
    RFStixEntity.__init__.
  cbn [RFStixEntity.stix_obj RFStixEntity.cls built negb].
  destruct c; cbn [bind_result];
    try (intros H; injection H as <- _; intros o [<-|[]]; reflexivity).
  destruct (RFStixEntity.create_id_class _) as [id_class|err]; cbn [bind_result];
    [|discriminate].
  intros H; injection H as <- _; intros o [<-|[]]; reflexivity.
Qed.

(** C2, on the code. The objects of the [Software], [Campaign] and
    [Location] builders carry no [created_by_ref]: their constructors take
    the author and drop it.  In the sample session the entity of type
    [Operation] named [Aurora] becomes a campaign whose [created_by_ref]
    is not the id of the author. *)
Theorem software_location_campaign_lack_created_by_ref (ext : Collaborators)
    (name type_ : string) (author : stix2.StixObject) (w : World) :
  (exists o s w',
     Software.to_stix_objects ext (Software.__init__ name type_ author) w
     = (Ok ([o], s), w')
     /\ stix2.created_by_ref o = None)
  /\ (exists o c w',
        Campaign.to_stix_objects ext (Campaign.__init__ name type_ author) w
        = (Ok ([o], c), w')
        /\ stix2.created_by_ref o = None)
  /\ match Location.__init__ name type_ author with
     | Ok l =>
         exists o l' w',
           Location.to_stix_objects ext l w = (Ok ([o], l'), w')
           /\ stix2.created_by_ref o = None
     | Raise _ => True
     end
  /\ StixNote.convert_entity Sample.ext Sample.session
       (mkEntity "Operation" "Aurora" "e7") Sample.world
     = (Ok (StixNote.extend_objects Sample.session
              [stix2.Campaign "campaign--0" "Aurora"]),
        mkWorld 0 1 [] [])
  /\ stix2.created_by_ref (stix2.Campaign "campaign--0" "Aurora")
     <> Some (stix2.id (StixNote.author Sample.session)).
Proof.
  split; [|split; [|split; [|split]]].
  - do 3 eexists. split; reflexivity.
  - do 3 eexists. split; reflexivity.
  - unfold Location.__init__.
    destruct (Location.rf_type_to_stix !! type_) as [ty|]; [|exact I].
    do 3 eexists. split; reflexivity.
  - vm_compute. reflexivity.
  - discriminate.
Qed.

(** * Further properties *)

(** ** The builders, again *)

(** X1. A new indicator builder, scored or not.  When the library accepts
    the pattern and, for a file, the hash, the call returns the indicator,
    the observable and the based-on relationship in this order, having
    read the clock once and let the library draw one id; the indicator
    carries [x_opencti_score] when the builder was scored and no such
    property when it was not.  When the library refuses the pattern or
    the hash, the call raises [InvalidValueError] after it read the clock,
    and draws no id; the error is on the pattern whenever the pattern is
    refused. *)
Theorem indicator_triple (ext : Collaborators) (cls : Indicator.Class)
    (name type_ : string) (author : stix2.StixObject) (score : option Z) (w : World) :
  let self := Indicator.set_risk_score (Indicator.__init__ cls name type_ author) score in
  (library_accepts ext self = true ->
   exists ind obs rel self',
     Indicator.to_stix_objects ext self w = (Ok ([ind; obs; rel], self'), drawn (ticked w))
     /\ ind = stix2.Indicator
                (Indicator_generate_id ext (Indicator._create_pattern self))
                name "stix" (Indicator._create_pattern self)
                (clock w) (stix2.id author)
                match score with
                | Some z => [("x_opencti_score", PInt z)]
                | None => []
                end
     /\ stix2.type obs = observable_type cls
     /\ stix2.created_by_ref obs = None
     /\ rel = stix2.Relationship
                (StixCoreRelationship_generate_id ext "based-on" (stix2.id ind)
                   (stix2.id obs))
                "based-on" (stix2.id ind) (stix2.id obs) (stix2.id author)
     /\ Indicator.stix_indicator self' = Some ind
     /\ Indicator.stix_observable self' = Some obs
     /\ Indicator.stix_relationship self' = Some rel)
  /\ (library_accepts ext self = false ->
      exists prop,
        Indicator.to_stix_objects ext self w = (Raise (InvalidValueError prop), ticked w)
        /\ (prop = "pattern" \/ prop = "hashes")
        /\ (prop = "pattern"
            <-> stix2_pattern_valid ext (Indicator._create_pattern self) = false)).
Proof.
  intros self.
  assert (Hcall : Indicator.to_stix_objects ext self w
                  = match Indicator.create_stix_objects ext self w with
                    | (Ok self', w') =>
                        match Indicator.stix_indicator self',
                              Indicator.stix_observable self',
                              Indicator.stix_relationship self' with
                        | Some ind, Some obs, Some rel => (Ok ([ind; obs; rel], self'), w')
                        | _, _, _ => (Raise (AttributeError "stix_indicator"), w')
                        end
                    | (Raise e, w') => (Raise e, w')
                    end).
  { unfold Indicator.to_stix_objects. rewrite bind_run. cbn [self built andb negb
      Indicator.set_risk_score Indicator.__init__ Indicator.stix_indicator].
    destruct (Indicator.create_stix_objects ext _ w) as [[self'|err] w']; [|reflexivity].
    destruct (Indicator.stix_indicator self'), (Indicator.stix_observable self'),
      (Indicator.stix_relationship self'); reflexivity. }
  rewrite Hcall. split.
  - intros Haccepts.
    destruct (indicator_create_stix_objects ext self w Haccepts)
      as (ind & obs & rel & -> & _ & Hind & Hobs & _ & Hauthor & Hrel).
    exists ind, obs, rel. eexists. split; [reflexivity|].
    cbn [Indicator.stix_indicator Indicator.stix_observable Indicator.stix_relationship].
    repeat split; assumption.
  - intros Hrefused.
    destruct (indicator_create_stix_objects_refused ext self w Hrefused)
      as (prop & -> & Hprop & Hpattern).
    now exists prop.
Qed.

(** X2. The builders that keep [RFStixEntity.to_stix_objects] build once:
    after a call that returned, a second call on the instance returns the
    same single object. *)
Theorem entity_to_stix_objects_cached (ext : Collaborators) (e e1 : RFStixEntity.t)
    (objs : list stix2.StixObject) :
  RFStixEntity.to_stix_objects ext e = Ok (objs, e1) ->
  RFStixEntity.to_stix_objects ext e1 = Ok (objs, e1) /\ length objs = 1.
Proof.
  unfold RFStixEntity.to_stix_objects.
  destruct e as [cls name type_ author [o|]]; cbn [RFStixEntity.stix_obj built negb].
  - cbn. intros H. injection H as <- <-. split; reflexivity.
  - unfold RFStixEntity.create_stix_objects.
    cbn [RFStixEntity.cls RFStixEntity.name RFStixEntity.author].
    destruct cls; cbn [bind_result];
      try (intros H; injection H as <- <-; split; reflexivity).
    destruct (RFStixEntity.create_id_class _) as [c|err]; cbn [bind_result];
      [|discriminate].
    intros H; injection H as <- <-; split; reflexivity.
Qed.

Lemma entity_to_stix_objects_cached_witness :
  RFStixEntity.to_stix_objects Sample.ext
    (RFStixEntity.__init__ RFStixEntity.Identity "Banking" "Industry" Sample.author)
  = Ok ([stix2.Identity "identity--Banking:class" "Banking" "class"
           (Some "identity--Recorded Future:organization")],
        RFStixEntity.mk RFStixEntity.Identity "Banking" "Industry" Sample.author
          (Some (stix2.Identity "identity--Banking:class" "Banking" "class"
                   (Some "identity--Recorded Future:organization"))))
  /\ RFStixEntity.to_stix_objects Sample.ext
       (RFStixEntity.mk RFStixEntity.Identity "Banking" "Industry" Sample.author
          (Some (stix2.Identity "identity--Banking:class" "Banking" "class"
                   (Some "identity--Recorded Future:organization"))))
     = Ok ([stix2.Identity "identity--Banking:class" "Banking" "class"
              (Some "identity--Recorded Future:organization")],
           RFStixEntity.mk RFStixEntity.Identity "Banking" "Industry" Sample.author
             (Some (stix2.Identity "identity--Banking:class" "Banking" "class"
                      (Some "identity--Recorded Future:organization"))))
  /\ length [stix2.Identity "identity--Banking:class" "Banking" "class"
               (Some "identity--Recorded Future:organization")] = 1.
Proof.
  split; [vm_compute; reflexivity|].
  apply (entity_to_stix_objects_cached Sample.ext
           (RFStixEntity.__init__ RFStixEntity.Identity "Banking" "Industry"
              Sample.author)).
  vm_compute. reflexivity.
Defined.

(** X3. The [Software], [Location], [Campaign] and [DetectionRule] builders
    never fail to build and build once: the second call returns the
    object of the first and neither draws an id nor reads the clock
    again. *)
Theorem world_builders_cached (ext : Collaborators) (w : World) (s : Software.t)
    (l : Location.t) (c : Campaign.t) (r : DetectionRule.t) :
  (exists o s1 w1,
     Software.to_stix_objects ext s w = (Ok ([o], s1), w1)
     /\ Software.to_stix_objects ext s1 w1 = (Ok ([o], s1), w1))
  /\ (exists o l1 w1,
        Location.to_stix_objects ext l w = (Ok ([o], l1), w1)
        /\ Location.to_stix_objects ext l1 w1 = (Ok ([o], l1), w1))
  /\ (exists o c1 w1,
        Campaign.to_stix_objects ext c w = (Ok ([o], c1), w1)
        /\ Campaign.to_stix_objects ext c1 w1 = (Ok ([o], c1), w1))
  /\ (exists o r1 w1,
        DetectionRule.to_stix_objects ext r w = (Ok ([o], r1), w1)
        /\ DetectionRule.to_stix_objects ext r1 w1 = (Ok ([o], r1), w1)).
Proof.
  repeat split.
  - destruct s as [name [o|]]; do 3 eexists; split; reflexivity.
  - destruct l as [name ty [o|]]; do 3 eexists; split; reflexivity.
  - destruct c as [name [o|]]; do 3 eexists; split; reflexivity.
  - destruct r as [name ty content [o|] author]; do 3 eexists; split; reflexivity.
Qed.

(** X4. The detection rule builder accepts the three languages [yara],
    [snort] and [sigma], spelled so, and then builds one indicator whose
    pattern is the rule text as it is and whose pattern type is the
    language; any other language raises [ConversionError] in the
    constructor, before anything is built. *)
Theorem detection_rule_language (ext : Collaborators) (name type_ content : string)
    (author : stix2.StixObject) (w : World) :
  (In type_ ["yara"; "snort"; "sigma"] ->
   exists rule rule',
     DetectionRule.__init__ name type_ content author = Ok rule
     /\ DetectionRule.to_stix_objects ext rule w
        = (Ok ([stix2.Indicator (Indicator_generate_id ext content)
                  (DetectionRule.name rule) type_ content (clock w)
                  (stix2.id author) []], rule'),
           ticked w))
  /\ (~ In type_ ["yara"; "snort"; "sigma"] ->
      DetectionRule.__init__ name type_ content author
      = Raise (ConversionError
                 ("Detection rule of type " +:+ type_ +:+ " is not supported"))).
Proof.
  destruct (split_first "." name) as (seg & segs & Hsplit & _).
  unfold DetectionRule.__init__, DetectionRule.display_name, Py.index.
  rewrite Hsplit. cbn [nth_error bind_result DetectionRule.type]. split.
  - intros Htype.
    assert (existsb (String.eqb type_) ["yara"; "snort"; "sigma"] = true) as ->.
    { apply existsb_exists. exists type_. split; [exact Htype | apply String.eqb_refl]. }
    cbn [negb]. do 2 eexists. split; reflexivity.
  - intros Htype.
    assert (existsb (String.eqb type_) ["yara"; "snort"; "sigma"] = false) as ->.
    { apply not_true_is_false. intros Hex. apply Htype.
      apply existsb_exists in Hex as (x & Hx & Heq).
      apply String.eqb_eq in Heq. now subst. }
    reflexivity.
Qed.

Lemma detection_rule_language_witness :
  (exists rule rule',
     DetectionRule.__init__ "rules.yar" "sigma" "title: r" Sample.author = Ok rule
     /\ DetectionRule.to_stix_objects Sample.ext rule Sample.world
        = (Ok ([stix2.Indicator (Indicator_generate_id Sample.ext "title: r")
                  (DetectionRule.name rule) "sigma" "title: r" (clock Sample.world)
                  (stix2.id Sample.author) []], rule'),
           ticked Sample.world))
  /\ DetectionRule.__init__ "rules.yar" "YARA" "rule r {}" Sample.author
     = Raise (ConversionError ("Detection rule of type " +:+ "YARA" +:+ " is not supported")).
Proof.
  split.
  - apply (proj1 (detection_rule_language Sample.ext "rules.yar" "sigma" "title: r"
                    Sample.author Sample.world)).
    simpl. right. right. left. reflexivity.
  - apply (proj2 (detection_rule_language Sample.ext "rules.yar" "YARA" "rule r {}"
                    Sample.author Sample.world)).
    simpl. intros [H|[H|[H|[]]]]; discriminate H.
Defined.

(** A value without backslash and without quote is its own escape. *)
Lemma escape_each_plain (s : string) :
  occurrences Py.backslash s = 0 -> occurrences Py.quote s = 0 -> escape_each s = s.
Proof.
  induction s as [|c s IH]; [reflexivity|].
  cbn [occurrences escape_each]. unfold escape_char.
  destruct (Ascii.eqb_spec c Py.backslash); [discriminate|].
  destruct (Ascii.eqb_spec c Py.quote); [discriminate|].
  cbn [plus]. intros Hb Hq. str_simpl. now rewrite IH.
Qed.

(** X5. The URL pattern embeds the value verbatim exactly when the value
    holds neither a backslash nor a single quote. *)
Theorem url_pattern_verbatim (name type_ : string) (author : stix2.StixObject) :
  Indicator._create_pattern (Indicator.__init__ Indicator.URL name type_ author)
  = "[url:value = '" +:+ name +:+ "']"
  <-> occurrences Py.backslash name = 0 /\ occurrences Py.quote name = 0.
Proof.
  unfold Indicator._create_pattern, Indicator.__init__.
  cbn [Indicator.cls Indicator.name]. rewrite replace_twice_escape_each. split.
  - intros Heq. apply (f_equal String.length) in Heq.
    rewrite !length_append, length_escape_each in Heq. lia.
  - intros [Hb Hq]. now rewrite escape_each_plain.
Qed.

(** ** The dispatch tables *)

(** The entries of [ENTITY_TYPE_MAPPER]. *)
Lemma entity_type_mapper_inv (type_ : string) (b : Builder) :
  ENTITY_TYPE_MAPPER !! type_ = Some b ->
  In (type_, b)
    [("IpAddress", IPAddress); ("InternetDomainName", Domain); ("URL", URL);
     ("Hash", FileHash); ("MitreAttackIdentifier", TTP); ("Company", Identity);
     ("Person", Identity); ("Organization", Identity); ("Malware", Malware);
     ("CyberVulnerability", Vulnerability); ("Product", Software);
     ("Country", Location); ("City", Location); ("ProvinceOrState", Location);
     ("Industry", Identity); ("Operation", Campaign)].
Proof.
  intros H. apply list_elem_of_In. unfold ENTITY_TYPE_MAPPER in H.
  now apply elem_of_list_to_map_2 in H.
Qed.

(** Every indicator type has its category for the risk-score API. *)
Lemma indicator_type_category (type_ : string) :
  StixNote.is_indicator_type type_ = true ->
  exists category, INDICATOR_TYPE_URL_MAPPER !! type_ = Some category.
Proof.
  unfold StixNote.is_indicator_type. intros H.
  apply existsb_exists in H as (x & Hx & Heq). apply String.eqb_eq in Heq. subst x.
  cbn [In] in Hx. destruct Hx as [<-|[<-|[<-|[<-|[]]]]]; eexists; vm_compute; reflexivity.
Qed.

(** ** The exceptions of the dispatcher *)

Lemma determine_algorithm_exception (name : string) (err : Exn) :
  FileHash._determine_algorithm name = Raise err -> exists msg, err = ConversionError msg.
Proof.
  unfold FileHash._determine_algorithm.
  destruct (_ =? 64)%nat; [discriminate|].
  destruct (_ =? 40)%nat; [discriminate|].
  destruct (_ =? 32)%nat; [discriminate|].
  intros H. injection H as <-. now eexists.
Qed.

Lemma fetch_risk_score_exception (ext : Collaborators) (type_ name : string)
    (w w' : World) (err : Exn) :
  StixNote.is_indicator_type type_ = true ->
  StixNote.fetch_risk_score ext type_ name w = (Raise err, w') ->
  err = CollaboratorError.
Proof.
  intros Htype. destruct (indicator_type_category type_ Htype) as [category Hcat].
  unfold StixNote.fetch_risk_score, rfapi_get_risk_score. rewrite Hcat.
  destruct (get_risk_score ext _ _ _); [discriminate|].
  intros H. now injection H as <-.
Qed.

Lemma score_indicator_exception (ext : Collaborators) (self : StixNote.t)
    (type_ name : string) (o : RFObject) (w w' : World) (err : Exn) :
  StixNote.is_indicator_type type_ = true ->
  StixNote.score_indicator ext self type_ name o w = (Raise err, w') ->
  err = CollaboratorError.
Proof.
  intros Htype. unfold StixNote.score_indicator. rewrite bind_run.
  destruct (StixNote.risk_threshold self) as [threshold|].
  - destruct (Py.truthy (Some threshold)).
    + rewrite bind_run.
      destruct (StixNote.fetch_risk_score ext type_ name w) as [[score|err1] w1] eqn:Hfetch.
      * destruct (score <? threshold)%Z.
        -- rewrite bind_run. cbn. discriminate.
        -- cbn [ret]. unfold ret at 1.
           destruct (StixNote.risk_as_score self); [|discriminate].
           rewrite bind_run.
           destruct (Py.truthy (Some score)); [cbn; discriminate|].
           destruct (StixNote.fetch_risk_score ext type_ name w1)
             as [[score2|err2] w2] eqn:Hfetch2; [cbn; discriminate|].
           intros H. injection H as <- _.
           eapply fetch_risk_score_exception; eassumption.
      * intros H. injection H as <- _.
        eapply fetch_risk_score_exception; eassumption.
    + unfold ret at 1. destruct (StixNote.risk_as_score self); [|discriminate].
      rewrite bind_run.
      destruct (StixNote.fetch_risk_score ext type_ name w)
        as [[score2|err2] w2] eqn:Hfetch2; [cbn; discriminate|].
      intros H. injection H as <- _.
      eapply fetch_risk_score_exception; eassumption.
  - unfold ret at 1. destruct (StixNote.risk_as_score self); [|discriminate].
    rewrite bind_run.
    destruct (StixNote.fetch_risk_score ext type_ name w)
      as [[score2|err2] w2] eqn:Hfetch2; [cbn; discriminate|].
    intros H. injection H as <- _.
    eapply fetch_risk_score_exception; eassumption.
Qed.

(** What the risk-score block hands on is the instance, scored or not. *)
Lemma score_indicator_instance (ext : Collaborators) (self : StixNote.t)
    (type_ name : string) (o o' : RFObject) (w w' : World) :
  StixNote.score_indicator ext self type_ name o w = (Ok (Some o'), w') ->
  o' = o \/ exists score, o' = rf_set_risk_score o (Some score).
Proof.
  unfold StixNote.score_indicator. rewrite bind_run.
  match goal with
  | |- context [match ?gate w with _ => _ end] =>
      destruct (gate w) as [[[risk_score|]|err] w1]
  end; try discriminate.
  destruct (StixNote.risk_as_score self).
  - rewrite bind_run.
    match goal with
    | |- context [match ?fetch w1 with _ => _ end] =>
        destruct (fetch w1) as [[score|err] w2]
    end; [|discriminate].
    intros H. injection H as <- _. right. now exists score.
  - intros H. injection H as <- _. now left.
Qed.

(** An indicator builder raises nothing but the [InvalidValueError] of
    the library, for the pattern or for the hash. *)
Lemma indicator_to_stix_objects_exception (ext : Collaborators) (i : Indicator.t)
    (w w' : World) (err : Exn) :
  Indicator.to_stix_objects ext i w = (Raise err, w') ->
  exists prop, err = InvalidValueError prop /\ (prop = "pattern" \/ prop = "hashes").
Proof.
  unfold Indicator.to_stix_objects. fold (cached i).
  destruct (cached i) eqn:Hcached; cbn [negb].
  - destruct i as [cls name author [ind|] [obs|] [rel|] score]; discriminate.
  - rewrite bind_run. destruct (library_accepts ext i) eqn:Haccepts.
    + destruct (indicator_create_stix_objects ext i w Haccepts)
        as (ind & obs & rel & -> & _). discriminate.
    + destruct (indicator_create_stix_objects_refused ext i w Haccepts)
        as (prop & -> & Hprop & _).
      intros H. injection H as <- _. now exists prop.
Qed.

(** An instance the dispatcher constructed for a mapped type, scored or
    not, raises nothing but the [InvalidValueError] of an indicator: the
    tables of the builders know every type that [ENTITY_TYPE_MAPPER] sends
    to them. *)
Lemma dispatched_instance_exception (ext : Collaborators) (type_ name : string)
    (b : Builder) (author : stix2.StixObject) (o o' : RFObject) (w w' : World)
    (err : Exn) :
  ENTITY_TYPE_MAPPER !! type_ = Some b ->
  construct b name type_ author = Ok o ->
  o' = o \/ (exists score, o' = rf_set_risk_score o (Some score)) ->
  rf_to_stix_objects ext o' w = (Raise err, w') ->
  from_json_exception err.
Proof.
  intros Hmap Hconstruct Hscored Hcall.
  apply entity_type_mapper_inv in Hmap. cbn [In] in Hmap.
  repeat (destruct Hmap as [Hmap|Hmap]); try contradiction;
    injection Hmap as <- <-;
    try (unfold construct, FileHash.__init__ in Hconstruct;
         destruct (FileHash._determine_algorithm name) as [algorithm|err0];
         cbn [bind_result] in Hconstruct; [|discriminate]);
    (injection Hconstruct as <- || (vm_compute in Hconstruct; injection Hconstruct as <-));
    destruct Hscored as [->|[score ->]];
    first
      [ solve [vm_compute in Hcall; discriminate Hcall]
      | cbn [rf_to_stix_objects rf_set_risk_score] in Hcall;
        rewrite bind_run in Hcall;
        match type of Hcall with
        | context [Indicator.to_stix_objects ext ?i w] =>
            destruct (Indicator.to_stix_objects ext i w) as [[r|err1] w1] eqn:Hi
        end;
        [ discriminate Hcall
        | injection Hcall as <- _;
          apply indicator_to_stix_objects_exception in Hi as (prop & -> & Hprop);
          exact Hprop ] ].
Qed.

Lemma world_builders_cached_rule (ext : Collaborators) (w : World) (r : DetectionRule.t) :
  exists o r1 w1,
    DetectionRule.to_stix_objects ext r w = (Ok ([o], r1), w1)
    /\ DetectionRule.to_stix_objects ext r1 w1 = (Ok ([o], r1), w1).
Proof.
  destruct r as [name ty content [o|] author]; do 3 eexists; split; reflexivity.
Qed.

Lemma construct_exception (type_ name : string) (b : Builder)
    (author : stix2.StixObject) (err : Exn) :
  ENTITY_TYPE_MAPPER !! type_ = Some b ->
  construct b name type_ author = Raise err ->
  exists msg, err = ConversionError msg.
Proof.
  intros Hmap Hconstruct.
  apply entity_type_mapper_inv in Hmap. cbn [In] in Hmap.
  repeat (destruct Hmap as [Hmap|Hmap]); try contradiction;
    injection Hmap as <- <-;
    try (vm_compute in Hconstruct; discriminate Hconstruct).
  unfold construct, FileHash.__init__ in Hconstruct.
  destruct (FileHash._determine_algorithm name) as [algorithm|err'] eqn:Halg;
    cbn [bind_result] in Hconstruct; [discriminate|].
  injection Hconstruct as <-. eapply determine_algorithm_exception, Halg.
Qed.

(** One turn of the loop raises nothing but the conversion error of a
    hash, the failure of the risk-score API and the [InvalidValueError]
    of an indicator the library refuses. *)
Lemma convert_entity_exception (ext : Collaborators) (self : StixNote.t) (e : Entity)
    (w w' : World) (err : Exn) :
  StixNote.convert_entity ext self e w = (Raise err, w') ->
  from_json_exception err.
Proof.
  unfold StixNote.convert_entity.
  destruct (StixNote.person_to_ta self && String.eqb (entity_type e) "Person");
    [discriminate|].
  destruct (bool_decide (entity_id e ∈ StixNote.tas self)).
  { destruct (StixNote.ta_to_intrusion_set self
              && negb (String.eqb (entity_type e) "Person")); discriminate. }
  destruct (String.eqb (entity_type e) "Source"); [discriminate|].
  destruct (ENTITY_TYPE_MAPPER !! entity_type e) as [builder|] eqn:Hmap;
    [|discriminate].
  rewrite bind_run. unfold lift.
  destruct (construct builder _ _ _) as [rf_object|err1] eqn:Hconstruct.
  - rewrite bind_run.
    assert (Hbuild : forall o w1,
      o = rf_object \/ (exists score, o = rf_set_risk_score rf_object (Some score)) ->
      (do stix_objs <- rf_to_stix_objects ext o;
       ret (StixNote.extend_objects self stix_objs))%world w1 = (Raise err, w') ->
      from_json_exception err).
    { intros o w1 Ho. rewrite bind_run.
      destruct (rf_to_stix_objects ext o w1) as [[objs|err1] w2] eqn:Hcall;
        [discriminate|].
      intros H. injection H as <- _.
      exact (dispatched_instance_exception ext _ _ _ _ _ o w1 w2 err1
               Hmap Hconstruct Ho Hcall). }
    destruct (StixNote.is_indicator_type (entity_type e)) eqn:Hind.
    + destruct (StixNote.score_indicator ext self _ _ rf_object w)
        as [[[scored|]|err2] w1] eqn:Hscore.
      * apply Hbuild. eapply score_indicator_instance, Hscore.
      * discriminate.
      * intros H. injection H as <- _.
        now rewrite (score_indicator_exception _ _ _ _ _ _ _ _ Hind Hscore).
    + apply Hbuild. now left.
  - intros H. injection H as <- _.
    destruct (construct_exception _ _ _ _ _ Hmap Hconstruct) as [msg ->]. exact I.
Qed.

Lemma convert_entities_exception (ext : Collaborators) (entities : list Entity) :
  forall (self : StixNote.t) (w w' : World) (err : Exn),
    StixNote.convert_entities ext self entities w = (Raise err, w') ->
    from_json_exception err.
Proof.
  induction entities as [|e entities IH]; intros self w w' err.
  - discriminate.
  - cbn [StixNote.convert_entities]. rewrite bind_run.
    destruct (StixNote.convert_entity ext self e w) as [[self1|err1] w1] eqn:Hone.
    + apply IH.
    + intros H. injection H as <- _. eapply convert_entity_exception, Hone.
Qed.

Lemma generate_external_references_exception (urls : list ValidationUrl) (err : Exn) :
  StixNote._generate_external_references urls = Raise err -> err = IndexError.
Proof.
  induction urls as [|u urls IH]; [discriminate|].
  cbn [StixNote._generate_external_references].
  unfold StixNote.external_source_name at 1.
  destruct (Py.index _ 2) as [host|]; [|intros H; now injection H as <-].
  destruct (Py.index_back _ 2) as [label|]; [|intros H; now injection H as <-].
  cbn [bind_result].
  destruct (StixNote._generate_external_references urls) as [refs|err1];
    [discriminate|].
  cbn [bind_result]. intros H. injection H as <-. now apply IH.
Qed.

(** X6. Whatever the note and the session, [from_json] raises nothing but
    [IndexError] (a validation url), [ConversionError] (a hash or the
    attached rule), the failure of the risk-score API and the
    [InvalidValueError] of the library for the pattern or the hash of an
    indicator: no lookup in the tables of the builders and no access to
    an unbuilt object ever fails. *)
Theorem from_json_exceptions (ext : Collaborators) (self : StixNote.t) (note : Note)
    (w w' : World) (err : Exn) :
  StixNote.from_json ext self note w = (Raise err, w') ->
  from_json_exception err.
Proof.
  unfold StixNote.from_json. rewrite bind_run. unfold lift.
  destruct (StixNote._generate_external_references (validation_urls note))
    as [refs|err0] eqn:Hrefs.
  - rewrite bind_run.
    unfold StixNote._create_report_types at 1. rewrite bind_run.
    rewrite report_types_loop_spec. unfold ret at 1. rewrite bind_run.
    destruct (StixNote.convert_entities ext _ (note_entities note) _)
      as [[self1|err1] w1] eqn:Hentities.
    + destruct (note_attachment note) as [a|]; [|discriminate].
      rewrite bind_run. unfold lift.
      destruct (DetectionRule.__init__ _ _ _ _) as [rule|err2] eqn:Hrule.
      * rewrite bind_run.
        destruct (world_builders_cached_rule ext w1 rule) as (o & r1 & w2 & -> & _).
        discriminate.
      * intros H. injection H as <- _.
        unfold DetectionRule.__init__ in Hrule.
        destruct (DetectionRule.display_name (attachment a)) as [n|] eqn:Hname;
          cbn [bind_result] in Hrule.
        -- destruct (negb _); [|discriminate]. now injection Hrule as <-.
        -- unfold DetectionRule.display_name in Hname.
           destruct (split_first "." (attachment a)) as (seg & segs & Hsplit & _).
           rewrite Hsplit in Hname. discriminate.
    + intros H. injection H as <- _. eapply convert_entities_exception, Hentities.
  - intros H. injection H as <- _.
    now rewrite (generate_external_references_exception _ _ Hrefs).
Qed.

(** ** The queries to the risk-score API *)

(** Building objects sends no query. *)
Lemma rf_to_stix_objects_queries (ext : Collaborators) (o : RFObject) (w : World) :
  rfapi_queries (snd (rf_to_stix_objects ext o w)) = rfapi_queries w.
Proof.
  destruct o as [i|e|s|l|c]; cbn [rf_to_stix_objects]; rewrite bind_run.
  - unfold Indicator.to_stix_objects. fold (cached i).
    destruct (cached i) eqn:Hcached; cbn [negb].
    + destruct i as [cls name author [i0|] [o0|] [r0|] score]; try discriminate.
      reflexivity.
    + rewrite bind_run. destruct (library_accepts ext i) eqn:Haccepts.
      * destruct (indicator_create_stix_objects ext i w Haccepts)
          as (ind & obs & rel & -> & _). reflexivity.
      * destruct (indicator_create_stix_objects_refused ext i w Haccepts)
          as (prop & -> & _). reflexivity.
  - unfold lift. destruct (RFStixEntity.to_stix_objects ext e); reflexivity.
  - destruct s as [name [o|]]; reflexivity.
  - destruct l as [name ty [o|]]; reflexivity.
  - destruct c as [name [o|]]; reflexivity.
Qed.

Lemma build_entity_world (ext : Collaborators) (c : RFStixEntity.Class)
    (name type_ : string) (author : stix2.StixObject) (w : World) :
  snd (StixNote.build_entity ext c name type_ author w) = w.
Proof.
  unfold StixNote.build_entity. rewrite bind_run. unfold lift.
  destruct (RFStixEntity.to_stix_objects ext _) as [[objs e']|err]; reflexivity.
Qed.

Lemma convert_entity_queries (ext : Collaborators) (self : StixNote.t) (e : Entity)
    (w : World) :
  Py.truthy (StixNote.risk_threshold self) = false ->
  StixNote.risk_as_score self = false ->
  rfapi_queries (snd (StixNote.convert_entity ext self e w)) = rfapi_queries w.
Proof.
  intros Hthreshold Hscore. unfold StixNote.convert_entity.
  assert (Hbuild : forall c,
    rfapi_queries
      (snd ((do stix_objs <- StixNote.build_entity ext c (entity_name e) (entity_type e)
                               (StixNote.author self);
             ret (StixNote.extend_objects self stix_objs))%world w))
    = rfapi_queries w).
  { intros c. rewrite bind_run.
    pose proof (build_entity_world ext c (entity_name e) (entity_type e)
                  (StixNote.author self) w) as Hw.
    destruct (StixNote.build_entity ext c _ _ _ w) as [[objs|err] w1];
      cbn in Hw |- *; now subst. }
  destruct (StixNote.person_to_ta self && String.eqb (entity_type e) "Person");
    [apply Hbuild|].
  destruct (bool_decide (entity_id e ∈ StixNote.tas self)).
  { destruct (StixNote.ta_to_intrusion_set self
              && negb (String.eqb (entity_type e) "Person")); apply Hbuild. }
  destruct (String.eqb (entity_type e) "Source"); [reflexivity|].
  destruct (ENTITY_TYPE_MAPPER !! entity_type e) as [builder|]; [|reflexivity].
  rewrite bind_run. unfold lift.
  destruct (construct builder _ _ _) as [rf_object|err]; [|reflexivity].
  rewrite bind_run.
  assert (StixNote.score_indicator ext self (entity_type e) (entity_name e) rf_object w
          = (Ok (Some rf_object), w)) as Hgate.
  { unfold StixNote.score_indicator. rewrite Hscore.
    destruct (StixNote.risk_threshold self) as [t|]; [|reflexivity].
    rewrite Hthreshold. reflexivity. }
  assert ((if StixNote.is_indicator_type (entity_type e)
           then StixNote.score_indicator ext self (entity_type e) (entity_name e)
                  rf_object
           else ret (Some rf_object)) w = (Ok (Some rf_object), w)) as ->.
  { destruct (StixNote.is_indicator_type (entity_type e)); [exact Hgate|reflexivity]. }
  rewrite bind_run.
  pose proof (rf_to_stix_objects_queries ext rf_object w) as Hq.
  destruct (rf_to_stix_objects ext rf_object w) as [[objs|err] w1]; exact Hq.
Qed.

Lemma convert_entity_settings (ext : Collaborators) (self self' : StixNote.t)
    (e : Entity) (w w' : World) :
  StixNote.convert_entity ext self e w = (Ok self', w') ->
  StixNote.risk_threshold self' = StixNote.risk_threshold self
  /\ StixNote.risk_as_score self' = StixNote.risk_as_score self.
Proof.
  unfold StixNote.convert_entity.
  repeat match goal with
  | |- context [if ?b then _ else _] => destruct b
  end;
  try (rewrite bind_run;
       destruct (StixNote.build_entity _ _ _ _ _ _) as [[objs|err] w1];
       [|discriminate]; intros H; injection H as <- _; now split).
  - intros H; injection H as <- _; now split.
  - destruct (ENTITY_TYPE_MAPPER !! entity_type e) as [builder|].
    + rewrite bind_run. unfold lift.
      destruct (construct builder _ _ _) as [rf_object|err]; [|discriminate].
      rewrite bind_run.
      destruct (StixNote.score_indicator _ _ _ _ _ _) as [[[scored|]|err] w1];
        try discriminate.
      * rewrite bind_run.
        destruct (rf_to_stix_objects _ _ _) as [[objs|err] w2]; [|discriminate].
        intros H; injection H as <- _; now split.
      * intros H; injection H as <- _; now split.
    + rewrite bind_run. cbn. intros H; injection H as <- _; now split.
  - destruct (ENTITY_TYPE_MAPPER !! entity_type e) as [builder|].
    + rewrite bind_run. unfold lift.
      destruct (construct builder _ _ _) as [rf_object|err]; [|discriminate].
      rewrite bind_run. unfold ret at 1. rewrite bind_run.
      destruct (rf_to_stix_objects _ _ _) as [[objs|err] w2]; [|discriminate].
      intros H; injection H as <- _; now split.
    + rewrite bind_run. cbn. intros H; injection H as <- _; now split.
Qed.

Lemma convert_entities_queries (ext : Collaborators) (entities : list Entity) :
  forall (self : StixNote.t) (w : World),
    Py.truthy (StixNote.risk_threshold self) = false ->
    StixNote.risk_as_score self = false ->
    rfapi_queries (snd (StixNote.convert_entities ext self entities w))
    = rfapi_queries w.
Proof.
  induction entities as [|e entities IH]; intros self w Hthreshold Hscore;
    [reflexivity|].
  cbn [StixNote.convert_entities]. rewrite bind_run.
  pose proof (convert_entity_queries ext self e w Hthreshold Hscore) as Hq.
  destruct (StixNote.convert_entity ext self e w) as [[self1|err] w1] eqn:Hone;
    [|exact Hq].
  destruct (convert_entity_settings ext self self1 e w w1 Hone) as [Ht Hs].
  cbn [snd] in Hq. rewrite <- Hq. apply IH; congruence.
Qed.

(** X7. In a session without a true risk threshold and without
    [risk_as_score], the conversion of a note, finished or failed, sends
    no query to the risk-score API. *)
Theorem from_json_sends_no_query (ext : Collaborators) (self : StixNote.t) (note : Note)
    (w : World) :
  Py.truthy (StixNote.risk_threshold self) = false ->
  StixNote.risk_as_score self = false ->
  rfapi_queries (snd (StixNote.from_json ext self note w)) = rfapi_queries w.
Proof.
  intros Hthreshold Hscore. unfold StixNote.from_json. rewrite bind_run. unfold lift.
  destruct (StixNote._generate_external_references (validation_urls note))
    as [refs|err]; [|reflexivity].
  rewrite bind_run.
  unfold StixNote._create_report_types at 1. rewrite bind_run.
  rewrite report_types_loop_spec. unfold ret at 1. rewrite bind_run.
  match goal with
  | |- context [StixNote.convert_entities ext ?s (note_entities note) ?w1] =>
      pose proof (convert_entities_queries ext (note_entities note) s w1
                    Hthreshold Hscore) as Hq;
      destruct (StixNote.convert_entities ext s (note_entities note) w1)
        as [[self1|err] w2]
  end; cbn [snd] in Hq; [|exact Hq].
  destruct (note_attachment note) as [a|]; [|exact Hq].
  rewrite bind_run. unfold lift.
  destruct (DetectionRule.__init__ _ _ _ _) as [rule|err]; [|exact Hq].
  rewrite bind_run.
  destruct rule as [name ty content [o|] author]; exact Hq.
Qed.

(** ** Risk scores *)

Lemma indicator_category_inv (type_ category : string) :
  INDICATOR_TYPE_URL_MAPPER !! type_ = Some category ->
  In (type_, category)
    [("IpAddress", "ip"); ("InternetDomainName", "domain"); ("URL", "url");
     ("Hash", "hash")].
Proof.
  intros H. apply list_elem_of_In. unfold INDICATOR_TYPE_URL_MAPPER in H.
  now apply elem_of_list_to_map_2 in H.
Qed.

(** X8. An entity of an indicator type that reaches the builders, in a
    session with a true threshold, whose score the API gives below the
    threshold, is skipped: the session is unchanged, so no object is made,
    one query was sent and one information line logged. *)
Theorem low_score_skips_entity (ext : Collaborators) (self : StixNote.t) (e : Entity)
    (w : World) (category : string) (threshold score : Z) :
  plain_entity self e ->
  INDICATOR_TYPE_URL_MAPPER !! entity_type e = Some category ->
  (entity_type e = "Hash" -> In (String.length (entity_name e)) [64; 40; 32]) ->
  StixNote.risk_threshold self = Some threshold ->
  threshold <> 0%Z ->
  get_risk_score ext (rfapi_queries w) category (entity_name e) = Some score ->
  (score < threshold)%Z ->
  StixNote.convert_entity ext self e w
  = (Ok self,
     logged (queried w category (entity_name e))
       [Info ("Ignoring entity " +:+ entity_name e
              +:+ " as its risk score is lower than the defined risk threshold")]).
Proof.
  intros [Hperson Hknown] Hcat Hhash Hthreshold Hnonzero Hfetch Hlow.
  assert (exists builder rf_object,
            String.eqb (entity_type e) "Source" = false
            /\ ENTITY_TYPE_MAPPER !! entity_type e = Some builder
            /\ StixNote.is_indicator_type (entity_type e) = true
            /\ construct builder (entity_name e) (entity_type e) (StixNote.author self)
               = Ok rf_object) as (builder & rf_object & Hsource & Hmap & Hind & Hconstruct).
  { pose proof (indicator_category_inv _ _ Hcat) as Hin. cbn [In] in Hin.
    destruct Hin as [Hin|[Hin|[Hin|[Hin|[]]]]]; injection Hin as Hty _;
      rewrite <- Hty in *.
    - now eexists IPAddress, _.
    - now eexists Domain, _.
    - now eexists URL, _.
    - exists FileHash.
      unfold construct, FileHash.__init__, FileHash._determine_algorithm.
      specialize (Hhash eq_refl). cbn [In] in Hhash.
      destruct Hhash as [Hl|[Hl|[Hl|[]]]]; rewrite <- Hl; cbn; now eexists. }
  unfold StixNote.convert_entity.
  rewrite Hperson, Hknown, Hsource, Hmap, bind_run. unfold lift.
  rewrite Hconstruct, bind_run, Hind.
  unfold StixNote.score_indicator. rewrite Hthreshold.
  assert (Py.truthy (Some threshold) = true) as ->.
  { cbn. now destruct (Z.eqb_spec threshold 0). }
  rewrite !bind_run. unfold StixNote.fetch_risk_score. rewrite Hcat.
  unfold rfapi_get_risk_score. rewrite Hfetch.
  apply Z.ltb_lt in Hlow. rewrite Hlow. reflexivity.
Qed.

(** X9. With [risk_as_score] the instance gets the score the API gives.
    Without a true threshold that takes one query.  With a true threshold
    and a score that passes it, the score fetched for the threshold is
    used again when it is not 0; a score of 0 counts as not fetched and
    the API is asked a second time, the second answer being the one
    kept. *)
Theorem risk_score_annotation (ext : Collaborators) (self : StixNote.t)
    (type_ name category : string) (o : RFObject) (w : World) (score : Z) :
  INDICATOR_TYPE_URL_MAPPER !! type_ = Some category ->
  StixNote.risk_as_score self = true ->
  get_risk_score ext (rfapi_queries w) category name = Some score ->
  (Py.truthy (StixNote.risk_threshold self) = false ->
   StixNote.score_indicator ext self type_ name o w
   = (Ok (Some (rf_set_risk_score o (Some score))), queried w category name))
  /\ (forall threshold : Z,
        StixNote.risk_threshold self = Some threshold -> threshold <> 0%Z ->
        (threshold <= score)%Z ->
        (score <> 0%Z ->
         StixNote.score_indicator ext self type_ name o w
         = (Ok (Some (rf_set_risk_score o (Some score))), queried w category name))
        /\ (forall score2 : Z,
              score = 0%Z ->
              get_risk_score ext (rfapi_queries w ++ [(category, name)]) category name
              = Some score2 ->
              StixNote.score_indicator ext self type_ name o w
              = (Ok (Some (rf_set_risk_score o (Some score2))),
                 queried (queried w category name) category name))).
Proof.
  intros Hcat Hscore Hfetch. unfold StixNote.score_indicator. rewrite Hscore. split.
  - intros Hfalsy.
    destruct (StixNote.risk_threshold self) as [t|]; [rewrite Hfalsy|];
      unfold bind, ret, StixNote.fetch_risk_score; cbv beta iota; rewrite Hcat;
      unfold rfapi_get_risk_score; rewrite Hfetch; reflexivity.
  - intros threshold Hthreshold Hnonzero Hpass. rewrite Hthreshold.
    assert (Py.truthy (Some threshold) = true) as ->.
    { cbn. now destruct (Z.eqb_spec threshold 0). }
    assert ((score <? threshold)%Z = false) as Hge by (apply Z.ltb_ge; lia).
    unfold bind, ret, StixNote.fetch_risk_score, rfapi_get_risk_score.
    cbv beta iota zeta. rewrite Hcat. cbv beta iota zeta. rewrite Hfetch.
    cbv beta iota zeta. rewrite Hge. cbv beta iota zeta. split.
    + intros Hscore0.
      assert (Py.truthy (Some score) = true) as ->.
      { cbn. now destruct (Z.eqb_spec score 0). }
      reflexivity.
    + intros score2 Hzero Hfetch2. subst score. cbn [Py.truthy Z.eqb negb].
      cbv beta iota zeta. cbn [rfapi_queries]. rewrite Hfetch2. reflexivity.
Qed.

(** ** Entities that give no object *)

(** X10. An entity of type [Source] that reaches the third branch only
    adds the external reference made of its name, twice; an entity whose
    type no table knows only logs a warning.  Neither adds an object, and
    the conversion goes on. *)
Theorem source_and_unknown_entities (ext : Collaborators) (self : StixNote.t)
    (e : Entity) (w : World) :
  plain_entity self e ->
  (entity_type e = "Source" ->
   StixNote.convert_entity ext self e w
   = (Ok (StixNote.set_external_references self
            (StixNote.external_references self
             ++ [mkExternalReference (entity_name e) (entity_name e)])%list), w))
  /\ (entity_type e <> "Source" -> ENTITY_TYPE_MAPPER !! entity_type e = None ->
      StixNote.convert_entity ext self e w
      = (Ok self,
         logged w [Warning ("Cannot convert entity " +:+ entity_name e
                            +:+ " to STIX2 because it is of type " +:+ entity_type e)])).
Proof.
  intros [Hperson Hknown]. unfold StixNote.convert_entity.
  rewrite Hperson, Hknown. split.
  - intros ->. reflexivity.
  - intros Hsource Hmap.
    destruct (String.eqb_spec (entity_type e) "Source"); [contradiction|].
    rewrite Hmap. reflexivity.
Qed.

(** ** The adjacency table *)

(** What the table allows: the relation of a pair of a rule and one of its
    targets is one of three, an indicator and only an indicator indicates,
    no rule leads to its own type, and no rule leads to relationships. *)
Lemma rule_shape (rule : Rule) (to_entity : ToEntity) :
  In rule StixNote.RELATIONSHIPS_MAPPER -> In to_entity (to_ rule) ->
  In (from_ rule) ["threat-actor"; "intrusion-set"; "indicator"; "malware"]
  /\ In (relation to_entity) ["uses"; "targets"; "indicates"]
  /\ (relation to_entity = "indicates" <-> from_ rule = "indicator")
  /\ from_ rule <> entity to_entity
  /\ entity to_entity <> "relationship".
Proof.
  cbn [StixNote.RELATIONSHIPS_MAPPER In].
  intros [<-|[<-|[<-|[<-|[]]]]]; cbn [to_ In];
    intros Hto; repeat destruct Hto as [<-|Hto]; try contradiction;
    cbn; repeat split; auto; discriminate.
Qed.

(** The edges one source entity gives, with the rule they come from. *)
Lemma relations_from_rule (ext : Collaborators) (self : StixNote.t)
    (source_entity : stix2.StixObject) (edges : list stix2.StixObject) :
  StixNote.relations_from ext self source_entity = Ok edges ->
  forall r, In r edges ->
    exists rule to_entity target_entity,
      In rule StixNote.RELATIONSHIPS_MAPPER
      /\ from_ rule = stix2.type source_entity
      /\ In to_entity (to_ rule)
      /\ In target_entity (StixNote.objects self)
      /\ stix2.type target_entity = entity to_entity
      /\ r = StixNote._create_rel ext self (stix2.id source_entity)
               (stix2.id target_entity) (relation to_entity).
Proof.
  unfold StixNote.relations_from.
  destruct (List.filter _ StixNote.RELATIONSHIPS_MAPPER) as [|first rest] eqn:Hrules.
  - intros H. injection H as <-. intros r [].
  - assert (Hfirst : In first (List.filter
              (fun obj => String.eqb (from_ obj) (stix2.type source_entity))
              StixNote.RELATIONSHIPS_MAPPER)) by (rewrite Hrules; now left).
    apply filter_In in Hfirst as [Hrule Hfrom]. apply String.eqb_eq in Hfrom.
    intros Hedges r Hr.
    destruct (collect_In _ _ _ _ Hedges Hr) as (to_entity & ys & Hto & Hys & Hry).
    destruct (collect_In _ _ _ _ Hys Hry) as (t & zs & Ht & Hzs & Hrz).
    apply filter_In in Ht as [Hobj Ht]. apply String.eqb_eq in Ht.
    destruct (relate_spec ext self source_entity t to_entity Ht) as (zs' & Hzs' & Hspec).
    rewrite Hzs in Hzs'. injection Hzs' as <-.
    destruct (Hspec r Hrz) as [-> _].
    now exists first, to_entity, t.
Qed.

(** X11. Every edge [create_relations] appends is an authored relationship
    from an object of the list to another one of a different type, hence
    never from an object to itself; its source is a threat actor, an
    intrusion set, an indicator or a malware; its relation is uses,
    targets or indicates, and it is indicates exactly when the source is
    an indicator.  The objects already listed stay in front, unchanged. *)
Theorem relations_well_formed (ext : Collaborators) (self : StixNote.t) :
  exists edges,
    StixNote.create_relations ext self = Ok (StixNote.extend_objects self edges)
    /\ StixNote.objects (StixNote.extend_objects self edges)
       = (StixNote.objects self ++ edges)%list
    /\ forall r, In r edges ->
         exists source_entity target_entity relation,
           In source_entity (StixNote.objects self)
           /\ In target_entity (StixNote.objects self)
           /\ r = stix2.Relationship
                    (StixCoreRelationship_generate_id ext relation
                       (stix2.id source_entity) (stix2.id target_entity))
                    relation (stix2.id source_entity) (stix2.id target_entity)
                    (stix2.id (StixNote.author self))
           /\ stix2.type source_entity <> stix2.type target_entity
           /\ In (stix2.type source_entity)
                 ["threat-actor"; "intrusion-set"; "indicator"; "malware"]
           /\ In relation ["uses"; "targets"; "indicates"]
           /\ (relation = "indicates" <-> stix2.type source_entity = "indicator").
Proof.
  unfold StixNote.create_relations.
  destruct (collect_total (StixNote.relations_from ext self) (StixNote.objects self))
    as [edges Hedges].
  { intros s _. destruct (relations_from_spec ext self s) as (ys & Hys & _).
    now exists ys. }
  exists edges. rewrite Hedges. split; [reflexivity|]. split; [reflexivity|].
  intros r Hr.
  destruct (collect_In _ _ _ _ Hedges Hr) as (s & ys & Hs & Hys & Hry).
  destruct (relations_from_rule ext self s ys Hys r Hry)
    as (rule & to_entity & t & Hrule & Hfrom & Hto & Ht & Htype & ->).
  destruct (rule_shape rule to_entity Hrule Hto)
    as (Hsource & Hrelation & Hindicates & Hdiff & _).
  exists s, t, (relation to_entity). rewrite <- Hfrom, Htype.
  repeat split; try assumption; apply Hindicates.
Qed.

(** ** Inferring twice *)








(** ** External references *)

Lemma split_plain (sep : ascii) (s : string) :
  occurrences sep s = 0 -> Py.split sep s = [s].
Proof.
  induction s as [|c s IH]; [reflexivity|].
  cbn [occurrences Py.split]. destruct (Ascii.eqb c sep); [discriminate|].
  intros H. now rewrite IH.
Qed.

(** Splitting on a separator splits on both sides of it. *)
Lemma split_app (sep : ascii) (a b : string) :
  Py.split sep (a +:+ String sep b) = (Py.split sep a ++ Py.split sep b)%list.
Proof.
  induction a as [|c a IH].
  - change (Py.split sep (String sep b) = ([EmptyString] ++ Py.split sep b)%list).
    cbn [Py.split app]. now rewrite Ascii.eqb_refl.
  - change (Py.split sep (String c (a +:+ String sep b))
            = (Py.split sep (String c a) ++ Py.split sep b)%list).
    cbn [Py.split]. rewrite IH. destruct (Ascii.eqb c sep); [reflexivity|].
    destruct (split_first sep a) as (seg & segs & -> & _). reflexivity.
Qed.

Lemma length_split (sep : ascii) (s : string) :
  length (Py.split sep s) = S (occurrences sep s).
Proof.
  induction s as [|c s IH]; [reflexivity|].
  cbn [occurrences Py.split]. destruct (Ascii.eqb c sep).
  - cbn [length]. now rewrite IH.
  - destruct (Py.split sep s) as [|seg segs]; [discriminate|]. exact IH.
Qed.

Lemma index_back_app_2 {A} (l : list A) (x y : A) :
  Py.index_back (l ++ [x; y])%list 2 = Some x.
Proof.
  unfold Py.index_back. rewrite length_app. cbn [length].
  destruct (Nat.leb_spec 2 (length l + 2)); [|lia].
  replace (length l + 2 - 2) with (length l + 0) by lia.
  now rewrite nth_error_app2, Nat.add_0_r, Nat.sub_diag by lia.
Qed.

(** X13. The source name of a validation URL is the last but one of the
    labels, separated by periods, of the third segment, separated by
    slashes: for [a/b/host] or [a/b/host/path] whose host ends in
    [label.tld] it is [label]; a URL with less than two slashes and a
    host without a period raise [IndexError]. *)
Theorem external_source_name_label (external_url : string) :
  (occurrences "/" external_url < 2 ->
   StixNote.external_source_name external_url = Raise IndexError)
  /\ (forall a b host tail : string,
        external_url = a +:+ "/" +:+ b +:+ "/" +:+ host +:+ tail ->
        occurrences "/" a = 0 -> occurrences "/" b = 0 -> occurrences "/" host = 0 ->
        (tail = "" \/ exists path, tail = "/" +:+ path) ->
        (occurrences "." host = 0 ->
         StixNote.external_source_name external_url = Raise IndexError)
        /\ (forall pre label tld : string,
              host = pre +:+ label +:+ "." +:+ tld ->
              (pre = "" \/ exists sub, pre = sub +:+ ".") ->
              occurrences "." label = 0 -> occurrences "." tld = 0 ->
              StixNote.external_source_name external_url = Ok label)).
Proof.
  split.
  - intros Hfew. unfold StixNote.external_source_name, Py.index.
    assert (nth_error (Py.split "/" external_url) 2 = None) as ->; [|reflexivity].
    apply nth_error_None. rewrite length_split. lia.
  - intros a b host tail -> Ha Hb Hhost Htail.
    assert (Py.index (Py.split "/" (a +:+ "/" +:+ b +:+ "/" +:+ host +:+ tail)) 2
            = Some host) as Hseg.
    { change (a +:+ "/" +:+ b +:+ "/" +:+ host +:+ tail)
        with (a +:+ String "/" (b +:+ String "/" (host +:+ tail))).
      rewrite !split_app, (split_plain _ a Ha), (split_plain _ b Hb).
      cbn [app Py.index nth_error].
      destruct Htail as [->|[path ->]].
      - now rewrite append_nil_r, (split_plain _ host Hhost).
      - change (host +:+ "/" +:+ path) with (host +:+ String "/" path).
        now rewrite split_app, (split_plain _ host Hhost). }
    unfold StixNote.external_source_name. rewrite Hseg. split.
    + intros Hplain. now rewrite (split_plain _ host Hplain).
    + intros pre label tld -> Hpre Hlabel Htld.
      assert (exists labels, Py.split "." (pre +:+ label +:+ "." +:+ tld)
                             = (labels ++ [label; tld])%list) as [labels ->].
      { destruct Hpre as [->|[sub ->]].
        - exists [].
          change ("" +:+ label +:+ "." +:+ tld) with (label +:+ String "." tld).
          now rewrite split_app, (split_plain _ label Hlabel), (split_plain _ tld Htld).
        - exists (Py.split "." sub).
          rewrite append_assoc.
          change (sub +:+ "." +:+ label +:+ "." +:+ tld)
            with (sub +:+ String "." (label +:+ String "." tld)).
          now rewrite !split_app, (split_plain _ label Hlabel), (split_plain _ tld Htld). }
      now rewrite index_back_app_2.
Qed.

(** The references of the validation URLs come one for each URL. *)
Lemma generate_external_references_spec (urls : list ValidationUrl)
    (refs : list ExternalReference) :
  StixNote._generate_external_references urls = Ok refs ->
  Forall2 (fun u r => url r = validation_url_name u
                      /\ StixNote.external_source_name (validation_url_name u)
                         = Ok (source_name r)) urls refs.
Proof.
  revert refs. induction urls as [|u urls IH]; intros refs.
  - intros H. injection H as <-. constructor.
  - cbn [StixNote._generate_external_references].
    destruct (StixNote.external_source_name (validation_url_name u)) as [label|err]
      eqn:Hlabel; [|discriminate].
    cbn [bind_result].
    destruct (StixNote._generate_external_references urls) as [refs'|err];
      [|discriminate].
    cbn [bind_result]. intros H. injection H as <-.
    constructor; [now split | now apply IH].
Qed.

Lemma generate_external_references_fails (urls : list ValidationUrl) (u : ValidationUrl) :
  In u urls ->
  StixNote.external_source_name (validation_url_name u) = Raise IndexError ->
  StixNote._generate_external_references urls = Raise IndexError.
Proof.
  intros Hin Hbad.
  destruct (StixNote._generate_external_references urls) as [refs|err] eqn:Hrefs.
  - exfalso. apply generate_external_references_spec in Hrefs.
    induction Hrefs as [|u' r urls refs [_ Hok] _ IH]; [destruct Hin|].
    destruct Hin as [->|Hin]; [congruence | now apply IH].
  - now rewrite (generate_external_references_exception urls err Hrefs).
Qed.

(** X14. The validation URLs of a note are all or nothing.  When
    [_generate_external_references] returns, it gives one reference for
    each URL, in the order of the URLs, with the URL as it is and its
    source name.  When the source name of one URL cannot be taken, the
    call raises [IndexError], and so does [from_json], before it logged
    or converted anything. *)
Theorem validation_urls_all_or_nothing (ext : Collaborators) (self : StixNote.t)
    (note : Note) (w : World) :
  (forall refs,
     StixNote._generate_external_references (validation_urls note) = Ok refs ->
     map url refs = map validation_url_name (validation_urls note)
     /\ Forall2 (fun u r => StixNote.external_source_name (validation_url_name u)
                            = Ok (source_name r))
                (validation_urls note) refs)
  /\ (forall u,
        In u (validation_urls note) ->
        StixNote.external_source_name (validation_url_name u) = Raise IndexError ->
        StixNote._generate_external_references (validation_urls note) = Raise IndexError
        /\ StixNote.from_json ext self note w = (Raise IndexError, w)).
Proof.
  split.
  - intros refs Hrefs. apply generate_external_references_spec in Hrefs.
    induction Hrefs as [|u r urls refs [Hurl Hname] _ [IHurl IHname]].
    + split; constructor.
    + split; [cbn [map]; now rewrite Hurl, IHurl | now constructor].
  - intros u Hin Hbad.
    pose proof (generate_external_references_fails _ u Hin Hbad) as Hfail.
    split; [exact Hfail|].
    unfold StixNote.from_json. rewrite bind_run. unfold lift. now rewrite Hfail.
Qed.

(** ** The session after a conversion *)

(** One turn of the loop adds the reference of a [Source] entity that
    reaches the third branch, and no other. *)
Lemma convert_entity_references (ext : Collaborators) (self self' : StixNote.t)
    (e : Entity) (w w' : World) :
  StixNote.convert_entity ext self e w = (Ok self', w') ->
  StixNote.external_references self'
  = (StixNote.external_references self ++ source_references self [e])%list.
Proof.
  unfold StixNote.convert_entity, source_references. cbn [List.filter].
  destruct (StixNote.person_to_ta self && String.eqb (entity_type e) "Person") eqn:Hperson.
  - apply andb_prop in Hperson as [_ Hperson]. apply String.eqb_eq in Hperson.
    rewrite Hperson. cbn [String.eqb Ascii.eqb Bool.eqb andb map].
    rewrite bind_run.
    destruct (StixNote.build_entity _ _ _ _ _ _) as [[objs|err] w1]; [|discriminate].
    intros H. injection H as <- _. cbn. now rewrite app_nil_r.
  - destruct (bool_decide (entity_id e ∈ StixNote.tas self)); cbn [negb].
    + rewrite andb_false_r. cbn [map].
      destruct (StixNote.ta_to_intrusion_set self
                && negb (String.eqb (entity_type e) "Person"));
        rewrite bind_run;
        destruct (StixNote.build_entity _ _ _ _ _ _) as [[objs|err] w1];
        try discriminate; intros H; injection H as <- _; cbn; now rewrite app_nil_r.
    + rewrite andb_true_r.
      destruct (String.eqb (entity_type e) "Source"); cbn [map].
      * intros H. injection H as <- _. reflexivity.
      * destruct (ENTITY_TYPE_MAPPER !! entity_type e) as [builder|].
        -- rewrite bind_run. unfold lift.
           destruct (construct builder _ _ _) as [rf_object|err]; [|discriminate].
           rewrite bind_run.
           match goal with
           | |- context [match ?scored w with _ => _ end] =>
               destruct (scored w) as [[[o|]|err] w1]
           end; try discriminate.
           ++ rewrite bind_run.
              destruct (rf_to_stix_objects _ _ _) as [[objs|err] w2]; [|discriminate].
              intros H. injection H as <- _. cbn. now rewrite app_nil_r.
           ++ intros H. injection H as <- _. now rewrite app_nil_r.
        -- rewrite bind_run. cbn. intros H. injection H as <- _. now rewrite app_nil_r.
Qed.

Lemma convert_entities_references (ext : Collaborators) (entities : list Entity) :
  forall (self self' : StixNote.t) (w w' : World),
    StixNote.convert_entities ext self entities w = (Ok self', w') ->
    StixNote.external_references self'
    = (StixNote.external_references self ++ source_references self entities)%list.
Proof.
  induction entities as [|e entities IH]; intros self self' w w'.
  - intros H. injection H as <- _. cbn. now rewrite app_nil_r.
  - cbn [StixNote.convert_entities]. rewrite bind_run.
    destruct (StixNote.convert_entity ext self e w) as [[self1|err] w1] eqn:Hone;
      [|discriminate].
    intros Hrest. rewrite (IH self1 self' w1 w' Hrest).
    rewrite (convert_entity_references ext self self1 e w w1 Hone).
    destruct (convert_entity_grown ext self self1 e w w1 Hone)
      as (_ & _ & _ & _ & _ & _ & Htas & _).
    unfold source_references. rewrite Htas.
    change (e :: entities) with ([e] ++ entities)%list.
    now rewrite List.filter_app, map_app, app_assoc.
Qed.

(** X16. What a conversion that returned did to the session: the author,
    the settings and the marking are kept; the title, the text, the date
    and the labels are those of the note; the objects the session had
    stay in front of the new ones; the external references the session
    had are dropped, the new ones being those of the validation URLs
    followed by one for each [Source] entity that is no known threat
    actor, named after itself, in the order of the entities. *)
Theorem from_json_keeps_session (ext : Collaborators) (self self' : StixNote.t)
    (note : Note) (w w' : World) :
  StixNote.from_json ext self note w = (Ok self', w') ->
  (StixNote.author self' = StixNote.author self
   /\ StixNote.tas self' = StixNote.tas self
   /\ StixNote.person_to_ta self' = StixNote.person_to_ta self
   /\ StixNote.ta_to_intrusion_set self' = StixNote.ta_to_intrusion_set self
   /\ StixNote.risk_as_score self' = StixNote.risk_as_score self
   /\ StixNote.risk_threshold self' = StixNote.risk_threshold self
   /\ StixNote.tlp self' = StixNote.tlp self)
  /\ (StixNote.name self' = Some (title note)
      /\ StixNote.text self' = Some (note_text note)
      /\ StixNote.published self' = Given (note_published note)
      /\ StixNote.labels self' = Some (map topic_name (topic note)))
  /\ (exists added, StixNote.objects self' = (StixNote.objects self ++ added)%list)
  /\ (exists refs,
        StixNote._generate_external_references (validation_urls note) = Ok refs
        /\ StixNote.external_references self'
           = (refs
              ++ map (fun e => mkExternalReference (entity_name e) (entity_name e))
                   (List.filter
                      (fun e => String.eqb (entity_type e) "Source"
                                && negb (bool_decide (entity_id e ∈ StixNote.tas self)))
                      (note_entities note)))%list).
Proof.
  intros H.
  pose proof (from_json_grown ext self self' note w w' H)
    as (refs & report_types & Hrefs & Hgrown).
  destruct Hgrown as (A1 & A2 & A3 & A4 & A5 & A6 & A7 & A8 & A9 & A10 & A11 & A12
                      & Hobjs & _).
  split; [repeat split; assumption|]. split; [repeat split; assumption|].
  split; [exact Hobjs|].
  exists refs. split; [exact Hrefs|].
  revert H. unfold StixNote.from_json. rewrite bind_run. unfold lift.
  rewrite Hrefs, bind_run.
  unfold StixNote._create_report_types at 1. rewrite bind_run.
  rewrite report_types_loop_spec. unfold ret at 1. rewrite bind_run.
  match goal with
  | |- context [StixNote.convert_entities ext ?s (note_entities note) ?w1] =>
      destruct (StixNote.convert_entities ext s (note_entities note) w1)
        as [[self1|err] w2] eqn:Hloop; [|discriminate];
      apply convert_entities_references in Hloop
  end.
  change (StixNote.external_references self1
          = (refs ++ source_references self (note_entities note))%list) in Hloop.
  destruct (note_attachment note) as [a|].
  - rewrite bind_run. unfold lift.
    destruct (DetectionRule.__init__ _ _ _ _) as [rule|err]; [|discriminate].
    rewrite bind_run.
    destruct (DetectionRule.to_stix_objects ext rule w2) as [[r|err] w3]; [|discriminate].
    intros H. injection H as <- _. exact Hloop.
  - intros H. injection H as <- _. exact Hloop.
Qed.

(** X15. Whatever the [tlp], the constructor raises nothing, and the
    marking of the session is the one [TLP_MAP] gives for the [tlp] in
    lower case.  After a conversion of a note whose date the library
    reads, and the inference, [to_stix_objects] returns the objects and
    three more, the last being the marking: it is [None], and the list
    holds [None], exactly when the [tlp] is none of the four names. *)
Theorem unknown_tlp_leaves_none (ext : Collaborators) (tas : gset string)
    (tlp : string) (person_to_ta ta_to_intrusion_set risk_as_score : bool)
    (risk_threshold : option Z) (w0 : World) :
  exists self0,
    StixNote.__init__ ext tas tlp person_to_ta ta_to_intrusion_set risk_as_score
      risk_threshold w0 = (Ok self0, ticked w0)
    /\ StixNote.tlp self0 = TLP_MAP !! Py.lower tlp
    /\ forall (note : Note) (self1 : StixNote.t) (w2 : World),
         StixNote.from_json ext self0 note (ticked w0) = (Ok self1, w2) ->
         stix2_timestamp_valid ext (note_published note) = true ->
         exists self2 objs,
           StixNote.create_relations ext self1 = Ok self2
           /\ StixNote.to_stix_objects ext self2 = Ok objs
           /\ length objs = length (StixNote.objects self2) + 3
           /\ List.last objs None
              = option_map stix2.MarkingDefinition (TLP_MAP !! Py.lower tlp)
           /\ (In None objs
               <-> ~ In (Py.lower tlp) ["white"; "green"; "amber"; "red"]).
Proof.
  eexists. split; [reflexivity|]. split; [reflexivity|].
  intros note self1 w2 Hjson Hvalid.
  apply from_json_grown in Hjson as (refs & report_types & _ & Hgrown).
  destruct Hgrown as (_ & Hname & _ & Hpublished & _ & _ & _ & _ & _ & _ & _ & Htlp1 & _).
  change (StixNote.name self1 = Some (title note)) in Hname.
  change (StixNote.published self1 = Given (note_published note)) in Hpublished.
  change (StixNote.tlp self1 = TLP_MAP !! Py.lower tlp) in Htlp1.
  destruct (collect_total (StixNote.relations_from ext self1) (StixNote.objects self1))
    as [edges Hedges].
  { intros s _. destruct (relations_from_spec ext self1 s) as (ys & Hys & _).
    now exists ys. }
  exists (StixNote.extend_objects self1 edges). eexists.
  unfold StixNote.create_relations. rewrite Hedges. split; [reflexivity|].
  unfold StixNote.to_stix_objects, StixNote.report, stix2.new_Report.
  cbn [StixNote.extend_objects StixNote.set_objects StixNote.name StixNote.published
       StixNote.tlp StixNote.objects StixNote.author StixNote.text StixNote.labels
       StixNote.report_types StixNote.external_references].
  rewrite Hname, Hpublished, Hvalid, Htlp1. cbn [bind_result].
  split; [reflexivity|].
  split; [rewrite length_app, length_map; reflexivity|].
  split.
  { generalize (map Some (StixNote.objects self1 ++ edges)).
    intros l. induction l as [|x l IH]; [reflexivity|].
    cbn [app]. destruct l; [reflexivity | exact IH]. }
  assert (TLP_MAP !! Py.lower tlp = None
          <-> ~ In (Py.lower tlp) ["white"; "green"; "amber"; "red"]) as Hnone.
  { unfold TLP_MAP. rewrite <- not_elem_of_list_to_map.
    rewrite list_elem_of_In. reflexivity. }
  rewrite <- Hnone. split.
  - intros Hin. apply in_app_or in Hin as [Hin|Hin].
    + apply in_map_iff in Hin as (o & Ho & _). discriminate Ho.
    + destruct Hin as [Hin|[Hin|[Hin|[]]]]; try discriminate Hin.
      destruct (TLP_MAP !! Py.lower tlp); [discriminate Hin | reflexivity].
  - intros ->. apply in_or_app. right. cbn. auto.
Qed.

(** X17. [ThreatActor.create_id_class] gives what [Identity.create_id_class]
    gives, but for the type [Industry], which it does not know.  The
    threat actor builder does not call it: it builds for every type. *)
Theorem threat_actor_id_class (ext : Collaborators) (name type_ : string)
    (author : stix2.StixObject) :
  (ThreatActor.create_id_class
     (RFStixEntity.__init__ RFStixEntity.ThreatActor name type_ author)
   = RFStixEntity.create_id_class
       (RFStixEntity.__init__ RFStixEntity.ThreatActor name type_ author)
   <-> type_ <> "Industry")
  /\ (ThreatActor.create_id_class
        (RFStixEntity.__init__ RFStixEntity.ThreatActor name type_ author)
      = Raise (KeyError type_)
      <-> ~ In type_ ["Company"; "Organization"; "Person"])
  /\ exists e,
       RFStixEntity.to_stix_objects ext
         (RFStixEntity.__init__ RFStixEntity.ThreatActor name type_ author)
       = Ok ([stix2.ThreatActor (ThreatActor_generate_id ext name) name
                (stix2.id author)], e).
Proof.
  unfold ThreatActor.create_id_class, RFStixEntity.create_id_class,
    ThreatActor.type_to_class, RFStixEntity.type_to_class, RFStixEntity.__init__.
  cbn [RFStixEntity.type list_to_map foldr fst snd].
  split; [|split].
  - destruct (decide (type_ = "Industry")) as [->|Hne].
    + split; [|contradiction]. vm_compute. discriminate.
    + split; [intros _; exact Hne|]. intros _.
      destruct (decide (type_ = "Company")) as [->|H1]; [reflexivity|].
      destruct (decide (type_ = "Organization")) as [->|H2]; [reflexivity|].
      destruct (decide (type_ = "Person")) as [->|H3]; [reflexivity|].
      rewrite !lookup_insert_ne by congruence. reflexivity.
  - destruct (decide (type_ = "Company")) as [->|H1].
    { split; [vm_compute; discriminate | cbn; tauto]. }
    destruct (decide (type_ = "Organization")) as [->|H2].
    { split; [vm_compute; discriminate | cbn; tauto]. }
    destruct (decide (type_ = "Person")) as [->|H3].
    { split; [vm_compute; discriminate | cbn; tauto]. }
    rewrite !lookup_insert_ne by congruence. rewrite lookup_empty.
    split; [|reflexivity]. intros _ [H|[H|[H|[]]]]; congruence.
  - eexists. reflexivity.
Qed.

(** ** Entities that give one object *)

(** X18. An entity of type [Company], [Organization], [Person] or
    [Industry] that reaches the builders adds one identity of the class
    [organization], [organization], [individual] or [class], named after
    the entity, authored, with the id made from the name and the class;
    the world stays as it is. *)
Theorem identity_entities (ext : Collaborators) (self : StixNote.t) (e : Entity)
    (w : World) (identity_class : string) :
  plain_entity self e ->
  In (entity_type e, identity_class)
     [("Company", "organization"); ("Organization", "organization");
      ("Person", "individual"); ("Industry", "class")] ->
  StixNote.convert_entity ext self e w
  = (Ok (StixNote.extend_objects self
           [stix2.Identity
              (Identity_generate_id ext (entity_name e) identity_class)
              (entity_name e) identity_class
              (Some (stix2.id (StixNote.author self)))]), w).
Proof.
  intros [Hperson Hknown] Hin. unfold StixNote.convert_entity.
  rewrite Hperson, Hknown.
  cbn [In] in Hin. destruct Hin as [Hin|[Hin|[Hin|[Hin|[]]]]];
    injection Hin as Hty <-; rewrite <- Hty; reflexivity.
Qed.

(** X19. An entity of type [Country], [City] or [ProvinceOrState] that
    reaches the builders adds one location of the kind [Country], [City]
    or [Administrative-Area]: the name of the entity is its name and also
    its country, whatever the kind; it has no author, and its id is one
    the library draws. *)
Theorem location_entities (ext : Collaborators) (self : StixNote.t) (e : Entity)
    (w : World) (kind : string) :
  plain_entity self e ->
  In (entity_type e, kind)
     [("Country", "Country"); ("City", "City");
      ("ProvinceOrState", "Administrative-Area")] ->
  exists o,
    StixNote.convert_entity ext self e w
    = (Ok (StixNote.extend_objects self [o]), drawn w)
    /\ o = stix2.Location
             (stix2_default_id ext "location"
                [("name", entity_name e); ("country", entity_name e);
                 ("x_opencti_location_type", kind)] (draws w))
             (entity_name e) (entity_name e)
             [("x_opencti_location_type", PStr kind)]
    /\ stix2.created_by_ref o = None.
Proof.
  intros [Hperson Hknown] Hin. unfold StixNote.convert_entity.
  rewrite Hperson, Hknown.
  cbn [In] in Hin. destruct Hin as [Hin|[Hin|[Hin|[]]]];
    injection Hin as Hty <-; rewrite <- Hty; eexists; repeat split.
Qed.

(** ** The attachment *)

(** X20. When the conversion of a note with an attachment returned, the
    language of the attachment is one of the three, and the last object
    of the session is the indicator of the rule: its pattern is the
    content, its pattern type the language, its name the file name up to
    the first period, its author the author of the session, and its date
    the last reading of the clock. *)
Theorem attachment_rule_comes_last (ext : Collaborators) (self self' : StixNote.t)
    (note : Note) (a : Attachment) (w w' : World) :
  note_attachment note = Some a ->
  StixNote.from_json ext self note w = (Ok self', w') ->
  In (attachment_type a) ["yara"; "snort"; "sigma"]
  /\ exists objs rule_name created,
       StixNote.objects self'
       = (objs ++ [stix2.Indicator (Indicator_generate_id ext (attachment_content a))
                     rule_name (attachment_type a) (attachment_content a) created
                     (stix2.id (StixNote.author self)) []])%list
       /\ DetectionRule.display_name (attachment a) = Ok rule_name
       /\ clock w' = S created.
Proof.
  intros Hattachment. unfold StixNote.from_json. rewrite bind_run. unfold lift.
  destruct (StixNote._generate_external_references (validation_urls note))
    as [refs|err]; [|discriminate].
  rewrite bind_run.
  unfold StixNote._create_report_types at 1. rewrite bind_run.
  rewrite report_types_loop_spec. unfold ret at 1. rewrite bind_run.
  match goal with
  | |- context [StixNote.convert_entities ext ?s (note_entities note) ?w1] =>
      destruct (StixNote.convert_entities ext s (note_entities note) w1)
        as [[self1|err] w2] eqn:Hloop; [|discriminate];
      apply convert_entities_grown in Hloop; destruct Hloop as [Hauthor _]
  end.
  change (StixNote.author self1 = StixNote.author self) in Hauthor.
  rewrite Hattachment, bind_run. unfold lift, DetectionRule.__init__.
  destruct (DetectionRule.display_name (attachment a)) as [rule_name|err];
    [|discriminate].
  cbn [bind_result DetectionRule.type].
  destruct (existsb (String.eqb (attachment_type a)) ["yara"; "snort"; "sigma"])
    eqn:Hlanguage; [|discriminate].
  cbn [negb]. rewrite bind_run. intros H. cbn in H. injection H as <- <-.
  split.
  - apply existsb_exists in Hlanguage as (x & Hx & Heq).
    apply String.eqb_eq in Heq. now subst x.
  - exists (StixNote.objects self1), rule_name, (clock w2).
    rewrite Hauthor. repeat split.
Qed.

(** ** Instances of the properties with a premise *)

Lemma from_json_exceptions_witness :
  StixNote.from_json Sample.ext Sample.session Sample.bad_hash_note Sample.started
  = (Raise (ConversionError
              ("Could not determine hash type for " +:+ "abc"
               +:+ ". Only MD5, SHA1 and SHA256 hashes are supported")),
     Sample.started)
  /\ from_json_exception
       (ConversionError
          ("Could not determine hash type for " +:+ "abc"
           +:+ ". Only MD5, SHA1 and SHA256 hashes are supported"))
  /\ StixNote.from_json Sample.ext Sample.session
       (mkNote "Title" "Body" "2023-01-01T00:00:00Z" [] []
          [mkEntity "Hash" "zzzzzzzzzzzzzzzzzzzzzzzzzzzzzzzz" "e1"] None)
       Sample.started
     = (Raise (InvalidValueError "pattern"), ticked Sample.started)
  /\ from_json_exception (InvalidValueError "pattern").
Proof.
  split; [vm_compute; reflexivity|].
  split.
  { apply (from_json_exceptions Sample.ext Sample.session Sample.bad_hash_note
             Sample.started Sample.started).
    vm_compute. reflexivity. }
  split; [vm_compute; reflexivity|].
  apply (from_json_exceptions Sample.ext Sample.session
           (mkNote "Title" "Body" "2023-01-01T00:00:00Z" [] []
              [mkEntity "Hash" "zzzzzzzzzzzzzzzzzzzzzzzzzzzzzzzz" "e1"] None)
           Sample.started (ticked Sample.started)).
  vm_compute. reflexivity.
Defined.

Lemma from_json_sends_no_query_witness :
  Py.truthy (StixNote.risk_threshold Sample.session) = false
  /\ StixNote.risk_as_score Sample.session = false
  /\ rfapi_queries
       (snd (StixNote.from_json Sample.ext Sample.session Sample.note Sample.started))
     = rfapi_queries Sample.started.
Proof.
  split; [reflexivity|]. split; [reflexivity|].
  apply (from_json_sends_no_query Sample.ext Sample.session Sample.note Sample.started);
    reflexivity.
Defined.

Lemma low_score_skips_entity_witness :
  StixNote.convert_entity Sample.ext
    (Sample.configured ∅ false false false (Some 60%Z))
    (mkEntity "IpAddress" "1.2.3.4" "e1") Sample.world
  = (Ok (Sample.configured ∅ false false false (Some 60%Z)),
     logged (queried Sample.world "ip" "1.2.3.4")
       [Info ("Ignoring entity " +:+ "1.2.3.4"
              +:+ " as its risk score is lower than the defined risk threshold")]).
Proof.
  apply (low_score_skips_entity Sample.ext
           (Sample.configured ∅ false false false (Some 60%Z))
           (mkEntity "IpAddress" "1.2.3.4" "e1") Sample.world "ip" 60%Z 50%Z).
  - split; reflexivity.
  - vm_compute. reflexivity.
  - cbn. discriminate.
  - reflexivity.
  - discriminate.
  - reflexivity.
  - reflexivity.
Defined.

Lemma risk_score_annotation_witness :
  StixNote.score_indicator Sample.ext (Sample.configured ∅ false false true None)
    "IpAddress" "1.2.3.4"
    (IndicatorObject (Indicator.__init__ Indicator.IPAddress "1.2.3.4" "IpAddress"
                        Sample.author))
    Sample.world
  = (Ok (Some (rf_set_risk_score
                 (IndicatorObject (Indicator.__init__ Indicator.IPAddress "1.2.3.4"
                                     "IpAddress" Sample.author))
                 (Some 50%Z))),
     queried Sample.world "ip" "1.2.3.4")
  /\ StixNote.score_indicator Sample.ext_requery
       (Sample.configured ∅ false false true (Some (-1)%Z))
       "IpAddress" "1.2.3.4"
       (IndicatorObject (Indicator.__init__ Indicator.IPAddress "1.2.3.4" "IpAddress"
                           Sample.author))
       Sample.world
     = (Ok (Some (rf_set_risk_score
                    (IndicatorObject (Indicator.__init__ Indicator.IPAddress "1.2.3.4"
                                        "IpAddress" Sample.author))
                    (Some 7%Z))),
        queried (queried Sample.world "ip" "1.2.3.4") "ip" "1.2.3.4").
Proof.
  split.
  - refine (proj1 (risk_score_annotation Sample.ext
                     (Sample.configured ∅ false false true None)
                     "IpAddress" "1.2.3.4" "ip" _ Sample.world 50%Z _ _ _) _);
      first [reflexivity | vm_compute; reflexivity].
  - refine (proj2 (proj2 (risk_score_annotation Sample.ext_requery
                            (Sample.configured ∅ false false true (Some (-1)%Z))
                            "IpAddress" "1.2.3.4" "ip" _ Sample.world 0%Z _ _ _)
                     (-1)%Z _ _ _) 7%Z _ _);
      first [reflexivity | discriminate | lia | vm_compute; reflexivity].
Defined.

Lemma source_and_unknown_entities_witness :
  StixNote.convert_entity Sample.ext Sample.session
    (mkEntity "Source" "Twitter" "s1") Sample.world
  = (Ok (StixNote.set_external_references Sample.session
           (StixNote.external_references Sample.session
            ++ [mkExternalReference "Twitter" "Twitter"])%list),
     Sample.world)
  /\ StixNote.convert_entity Sample.ext Sample.session
       (mkEntity "Technology" "Blockchain" "t1") Sample.world
     = (Ok Sample.session,
        logged Sample.world
          [Warning ("Cannot convert entity " +:+ "Blockchain"
                    +:+ " to STIX2 because it is of type " +:+ "Technology")]).
Proof.
  split.
  - refine (proj1 (source_and_unknown_entities Sample.ext Sample.session
                     (mkEntity "Source" "Twitter" "s1") Sample.world _) eq_refl).
    split; reflexivity.
  - refine (proj2 (source_and_unknown_entities Sample.ext Sample.session
                     (mkEntity "Technology" "Blockchain" "t1") Sample.world _) _ _).
    + split; reflexivity.
    + cbn. discriminate.
    + vm_compute. reflexivity.
Defined.

Lemma external_source_name_label_witness :
  StixNote.external_source_name "https://www.bbc.co.uk/news/world" = Ok "co"
  /\ StixNote.external_source_name "https://localhost/report" = Raise IndexError
  /\ StixNote.external_source_name "www.example.com/report" = Raise IndexError.
Proof.
  split; [|split].
  - refine (proj2 (proj2 (external_source_name_label "https://www.bbc.co.uk/news/world")
                     "https:" "" "www.bbc.co.uk" "/news/world" eq_refl eq_refl eq_refl
                     eq_refl (or_intror (ex_intro _ "news/world" eq_refl)))
              "www.bbc." "co" "uk" eq_refl (or_intror (ex_intro _ "www.bbc" eq_refl))
              eq_refl eq_refl).
  - refine (proj1 (proj2 (external_source_name_label "https://localhost/report")
                     "https:" "" "localhost" "/report" eq_refl eq_refl eq_refl
                     eq_refl (or_intror (ex_intro _ "report" eq_refl)))
              eq_refl).
  - apply (proj1 (external_source_name_label "www.example.com/report")).
    cbn. lia.
Defined.

Lemma validation_urls_all_or_nothing_witness :
  (StixNote._generate_external_references
     [mkValidationUrl "https://www.example.com/report"; mkValidationUrl "https://t.co/x"]
   = Ok [mkExternalReference "example" "https://www.example.com/report";
         mkExternalReference "t" "https://t.co/x"]
   /\ map url [mkExternalReference "example" "https://www.example.com/report";
               mkExternalReference "t" "https://t.co/x"]
      = map validation_url_name
          [mkValidationUrl "https://www.example.com/report";
           mkValidationUrl "https://t.co/x"])
  /\ StixNote.from_json Sample.ext Sample.session
       (mkNote "Title" "Body" "2023-01-01T00:00:00Z"
          [mkValidationUrl "https://www.example.com/report"; mkValidationUrl "localhost"]
          [mkTopic "UnknownTopic"] [mkEntity "Malware" "Foo" "e3"] None)
       Sample.started
     = (Raise IndexError, Sample.started).
Proof.
  split.
  - split; [vm_compute; reflexivity|].
    refine (proj1 (proj1 (validation_urls_all_or_nothing Sample.ext Sample.session
                            (mkNote "Title" "Body" "2023-01-01T00:00:00Z"
                               [mkValidationUrl "https://www.example.com/report";
                                mkValidationUrl "https://t.co/x"] [] [] None)
                            Sample.started) _ _)).
    vm_compute. reflexivity.
  - refine (proj2 (proj2 (validation_urls_all_or_nothing Sample.ext Sample.session
                            (mkNote "Title" "Body" "2023-01-01T00:00:00Z"
                               [mkValidationUrl "https://www.example.com/report";
                                mkValidationUrl "localhost"]
                               [mkTopic "UnknownTopic"] [mkEntity "Malware" "Foo" "e3"]
                               None)
                            Sample.started) (mkValidationUrl "localhost") _ _)).
    + cbn. right. left. reflexivity.
    + vm_compute. reflexivity.
Defined.

Lemma from_json_keeps_session_witness :
  exists self' w',
    StixNote.from_json Sample.ext Sample.converted
      (mkNote "Second" "Body" "2023-02-02T00:00:00Z" [mkValidationUrl "https://t.co/x"]
         [mkTopic "Indicator"]
         [mkEntity "Source" "Twitter" "s1"; mkEntity "Malware" "Bar" "e9"] None)
      Sample.converted_world
    = (Ok self', w')
    /\ StixNote.tlp self' = StixNote.tlp Sample.converted
    /\ StixNote.name self' = Some "Second"
    /\ (exists added,
          StixNote.objects self' = (StixNote.objects Sample.converted ++ added)%list)
    /\ StixNote.external_references self'
       = [mkExternalReference "t" "https://t.co/x";
          mkExternalReference "Twitter" "Twitter"].
Proof.
  do 2 eexists. split; [vm_compute; reflexivity|].
  match goal with
  | |- StixNote.tlp ?s = _ /\ _ =>
      pose proof (from_json_keeps_session Sample.ext Sample.converted s
                    (mkNote "Second" "Body" "2023-02-02T00:00:00Z"
                       [mkValidationUrl "https://t.co/x"] [mkTopic "Indicator"]
                       [mkEntity "Source" "Twitter" "s1"; mkEntity "Malware" "Bar" "e9"]
                       None)
                    Sample.converted_world _ eq_refl) as H
  end.
  destruct H as ((_ & _ & _ & _ & _ & _ & Htlp) & (Hname & _) & Hobjs & _).
  split; [exact Htlp|]. split; [exact Hname|]. split; [exact Hobjs|].
  reflexivity.
Defined.

Lemma unknown_tlp_leaves_none_witness :
  exists self0,
    StixNote.__init__ Sample.ext ∅ "Purple" false false false None Sample.world
    = (Ok self0, ticked Sample.world)
    /\ StixNote.tlp self0 = TLP_MAP !! Py.lower "Purple"
    /\ exists self1 w2,
         StixNote.from_json Sample.ext self0 Sample.note (ticked Sample.world)
         = (Ok self1, w2)
         /\ stix2_timestamp_valid Sample.ext (note_published Sample.note) = true
         /\ exists self2 objs,
              StixNote.create_relations Sample.ext self1 = Ok self2
              /\ StixNote.to_stix_objects Sample.ext self2 = Ok objs
              /\ length objs = length (StixNote.objects self2) + 3
              /\ List.last objs None
                 = option_map stix2.MarkingDefinition (TLP_MAP !! Py.lower "Purple")
              /\ (In None objs
                  <-> ~ In (Py.lower "Purple") ["white"; "green"; "amber"; "red"]).
Proof.
  destruct (unknown_tlp_leaves_none Sample.ext ∅ "Purple" false false false None
              Sample.world) as (self0 & Hinit & Htlp & Hrest).
  exists self0. split; [exact Hinit|]. split; [exact Htlp|].
  injection Hinit as <-.
  do 2 eexists. split; [vm_compute; reflexivity|]. split; [reflexivity|].
  eapply (Hrest Sample.note); [vm_compute; reflexivity | reflexivity].
Defined.

Lemma identity_entities_witness :
  StixNote.convert_entity Sample.ext Sample.session
    (mkEntity "Industry" "Banking" "e4") Sample.world
  = (Ok (StixNote.extend_objects Sample.session
           [stix2.Identity (Identity_generate_id Sample.ext "Banking" "class")
              "Banking" "class" (Some (stix2.id (StixNote.author Sample.session)))]),
     Sample.world).
Proof.
  apply (identity_entities Sample.ext Sample.session
           (mkEntity "Industry" "Banking" "e4") Sample.world "class").
  - split; reflexivity.
  - cbn. right. right. right. left. reflexivity.
Defined.

Lemma location_entities_witness :
  exists o,
    StixNote.convert_entity Sample.ext Sample.session
      (mkEntity "City" "Lyon" "e6") Sample.world
    = (Ok (StixNote.extend_objects Sample.session [o]), drawn Sample.world)
    /\ o = stix2.Location
             (stix2_default_id Sample.ext "location"
                [("name", "Lyon"); ("country", "Lyon");
                 ("x_opencti_location_type", "City")] (draws Sample.world))
             "Lyon" "Lyon" [("x_opencti_location_type", PStr "City")]
    /\ stix2.created_by_ref o = None.
Proof.
  apply (location_entities Sample.ext Sample.session
           (mkEntity "City" "Lyon" "e6") Sample.world "City").
  - split; reflexivity.
  - cbn. right. left. reflexivity.
Defined.

Lemma attachment_rule_comes_last_witness :
  StixNote.from_json Sample.ext Sample.session Sample.note Sample.started
  = (Ok Sample.converted, Sample.converted_world)
  /\ In "yara" ["yara"; "snort"; "sigma"]
  /\ exists objs rule_name created,
       StixNote.objects Sample.converted
       = (objs ++ [stix2.Indicator
                     (Indicator_generate_id Sample.ext "rule r { condition: true }")
                     rule_name "yara" "rule r { condition: true }" created
                     (stix2.id (StixNote.author Sample.session)) []])%list
       /\ DetectionRule.display_name "rules.v2.yar" = Ok rule_name
       /\ clock Sample.converted_world = S created.
Proof.
  split; [vm_compute; reflexivity|].
  apply (attachment_rule_comes_last Sample.ext Sample.session Sample.converted
           Sample.note (mkAttachment "rules.v2.yar" "yara" "rule r { condition: true }")
           Sample.started Sample.converted_world).
  - reflexivity.
  - vm_compute. reflexivity.
Defined.

Lemma indicator_to_stix_objects_cached_witness :
  cached (Indicator.__init__ Indicator.IPAddress "1.2.3.4" "IpAddress" Sample.author)
  || library_accepts Sample.ext
       (Indicator.__init__ Indicator.IPAddress "1.2.3.4" "IpAddress" Sample.author)
  = true
  /\ exists objs self1 w1,
       Indicator.to_stix_objects Sample.ext
         (Indicator.__init__ Indicator.IPAddress "1.2.3.4" "IpAddress" Sample.author)
         Sample.world
       = (Ok (objs, self1), w1)
       /\ objs = [stix2.Indicator "indicator--[ipv4-addr:value = '1.2.3.4']" "1.2.3.4"
                    "stix" "[ipv4-addr:value = '1.2.3.4']" 0
                    "identity--Recorded Future:organization" [];
                  stix2.IPv4Address "ipv4-addr--0" "1.2.3.4";
                  stix2.Relationship
                    ("relationship--based-on:"
                     +:+ "indicator--[ipv4-addr:value = '1.2.3.4']" +:+ ":"
                     +:+ "ipv4-addr--0")
                    "based-on" "indicator--[ipv4-addr:value = '1.2.3.4']"
                    "ipv4-addr--0" "identity--Recorded Future:organization"]
       /\ Indicator.to_stix_objects Sample.ext self1 w1 = (Ok (objs, self1), w1)
       /\ returned_ids (Indicator.to_stix_objects Sample.ext self1 w1)
          = returned_ids
              (Indicator.to_stix_objects Sample.ext
                 (Indicator.__init__ Indicator.IPAddress "1.2.3.4" "IpAddress"
                    Sample.author)
                 Sample.world).
Proof.
  split; [reflexivity|].
  do 3 eexists. split; [vm_compute; reflexivity|]. split; [vm_compute; reflexivity|].
  refine (proj2 (proj2 (indicator_to_stix_objects_cached Sample.ext
                          (Indicator.__init__ Indicator.IPAddress "1.2.3.4" "IpAddress"
                             Sample.author)
                          Sample.world) _ _ _ _)).
  vm_compute. reflexivity.
Defined.

Lemma indicator_triple_witness :
  (exists ind obs rel self',
     Indicator.to_stix_objects Sample.ext
       (Indicator.set_risk_score
          (Indicator.__init__ Indicator.IPAddress "1.2.3.4" "IpAddress" Sample.author)
          (Some 50%Z))
       Sample.world
     = (Ok ([ind; obs; rel], self'), drawn (ticked Sample.world))
     /\ ind = stix2.Indicator "indicator--[ipv4-addr:value = '1.2.3.4']" "1.2.3.4"
                "stix" "[ipv4-addr:value = '1.2.3.4']" 0
                "identity--Recorded Future:organization" [("x_opencti_score", PInt 50)])
  /\ exists prop,
       Indicator.to_stix_objects Sample.ext
         (Indicator.set_risk_score
            (Indicator.__init__ Indicator.IPAddress "a'b" "IpAddress" Sample.author)
            None)
         Sample.world
       = (Raise (InvalidValueError prop), ticked Sample.world)
       /\ prop = "pattern".
Proof.
  split.
  - destruct (proj1 (indicator_triple Sample.ext Indicator.IPAddress "1.2.3.4"
                       "IpAddress" Sample.author (Some 50%Z) Sample.world) eq_refl)
      as (ind & obs & rel & self' & Hcall & Hind & _).
    exists ind, obs, rel, self'. split; [exact Hcall | exact Hind].
  - destruct (proj2 (indicator_triple Sample.ext Indicator.IPAddress "a'b"
                       "IpAddress" Sample.author None Sample.world) eq_refl)
      as (prop & Hcall & _ & Hprop).
    exists prop. split; [exact Hcall|]. apply (proj2 Hprop). reflexivity.
Defined.
